(** * The relational storage of pfnopt: [pfnopt/storages/rdb.py]

    A shallow embedding of [RDBStorage] and of the properties its
    specification states.  The committed contents of the backing store are
    an explicit value of type [DB]; every method of [RDBStorage] is a
    computation in a small state-and-exception monad over [DB]. *)

From Stdlib Require Import List String ZArith Bool Lia.
From Stdlib Require Import Floats.PrimFloat.
Import ListNotations.

Local Open Scope string_scope.
Local Open Scope list_scope.
Local Open Scope Z_scope.

(** ** Python values *)

(** A Python [float] is an IEEE 754 binary64 number; [==] on floats is the
    IEEE comparison, under which a NaN differs from itself. *)
Definition py_float_eq (a b : float) : bool := PrimFloat.eqb a b.

(** [datetime.now()] readings, as seconds on some clock. *)
Definition datetime := Z.

(** The values [json.dumps] accepts. *)
#[local] Set Warnings "-register-all".
Inductive json : Type :=
| JNull
| JBool (b : bool)
| JInt (n : Z)
| JFloat (x : float)
| JStr (s : string)
| JList (l : list json)
| JDict (d : list (string * json)).
#[local] Set Warnings "+register-all".

(** The exceptions the storage can raise. *)
Inductive exn : Type :=
| NotFound          (* a strict lookup, [allow_none=False], found no row *)
| AssertionError    (* a failed [assert] *)
| IntegrityError    (* [sqlalchemy.exc.IntegrityError], raised by [commit] *)
| RuntimeError      (* [raise RuntimeError(...)] *)
| NoResultFound     (* [Query.one()] on an empty result *)
| AttributeError    (* an attribute read on [None] *)
| IndexError        (* [l[0]] on an empty list *)
| TypeError.        (* item assignment on a value that is not a [dict] *)

Inductive result (A : Type) : Type :=
| Ok (a : A)
| Raise (e : exn).
Arguments Ok {A} a.
Arguments Raise {A} e.

(** ** Python dictionaries

    A [dict] keeps its keys in insertion order; assigning to a key that is
    present replaces the value in place, assigning to a new key appends. *)
Section Dict.
Context {K V : Type}.
Variable eqb : K -> K -> bool.

Definition dict := list (K * V).

Fixpoint dict_get (k : K) (d : dict) : option V :=
  match d with
  | [] => None
  | (k', v) :: d' => if eqb k k' then Some v else dict_get k d'
  end.

Fixpoint dict_set (k : K) (v : V) (d : dict) : dict :=
  match d with
  | [] => [(k, v)]
  | (k', v') :: d' =>
      if eqb k k' then (k', v) :: d' else (k', v') :: dict_set k v d'
  end.
End Dict.

Arguments dict K V : clear implicits.

(** ** Collaborators outside the storage

    The [json] module of the Python library and the [distributions] module
    of pfnopt are used through their interfaces only. *)
Class JsonCodec : Type := {
  json_dumps : json -> string;
  json_loads : string -> json
}.

Class Distributions : Type := {
  distribution : Type;
  external : Type;
  distribution_to_json : distribution -> string;
  json_to_distribution : string -> distribution;
  to_external_repr : distribution -> float -> external
}.

(** Modelled from the spec: [pfnopt.trial.State], the enumeration of trial
    states, with [is_finished] true of the terminal states COMPLETE and
    FAIL. *)
Inductive State : Type := RUNNING | COMPLETE | FAIL.

(** Modelled from the spec: [State.is_finished] of [pfnopt.trial]; the
    terminal states are COMPLETE and FAIL. *)
Definition is_finished (s : State) : bool :=
  match s with
  | RUNNING => false
  | COMPLETE | FAIL => true
  end.

(** ** The tables of [pfnopt.storages.models]

    Modelled from the spec: the row types and the lookups of
    [pfnopt/storages/models.py], after the data model of the specification
    (section 3).  A table is the list of its rows in insertion order; a
    lookup returns the first row that matches, which under the uniqueness
    constraints is the only one. *)

(** Modelled from the spec: the next value of a numeric primary key, one
    more than the largest in use. *)
Definition fresh_id (ids : list Z) : Z := 1 + fold_right Z.max 0 ids.

Module StudyModel.
(** Modelled from the spec: a row of [models.StudyModel], a numeric id and
    the identifier of the study. *)
Record t : Type := mk { study_id : Z; study_uuid : string }.

(** Modelled from the spec: [StudyModel.find_by_id], the study with this
    id if there is one. *)
Definition find_by_id (id : Z) (rows : list t) : option t :=
  find (fun s => study_id s =? id) rows.

(** Modelled from the spec: [StudyModel.find_by_uuid], the study with this
    identifier if there is one. *)
Definition find_by_uuid (uuid : string) (rows : list t) : option t :=
  find (fun s => String.eqb (study_uuid s) uuid) rows.
End StudyModel.

Module StudyUserAttributeModel.
(** Modelled from the spec: a row of [models.StudyUserAttributeModel], one
    attribute of one study with its value encoded in JSON. *)
Record t : Type := mk {
  study_user_attribute_id : Z;
  study_id : Z;
  key : string;
  value_json : string
}.

(** Modelled from the spec: [find_by_study_id_and_key], the attribute row
    of this study under this key if there is one. *)
Definition find_by_study_id_and_key (id : Z) (k : string) (rows : list t)
  : option t :=
  find (fun a => (study_id a =? id) && String.eqb (key a) k) rows.

(** Modelled from the spec: [where_study_id], the attribute rows of this
    study. *)
Definition where_study_id (id : Z) (rows : list t) : list t :=
  filter (fun a => study_id a =? id) rows.

(** [attribute.value_json = v]. *)
Definition set_value_json (v : string) (a : t) : t :=
  mk (study_user_attribute_id a) (study_id a) (key a) v.
End StudyUserAttributeModel.

Module TrialModel.
(** Modelled from the spec: a row of [models.TrialModel]; the start
    timestamp is set when the row is created, the completion timestamp is
    empty until [set_trial_state] sets it. *)
Record t : Type := mk {
  trial_id : Z;
  study_id : Z;
  state : State;
  value : option float;
  user_attributes_json : string;
  datetime_start : datetime;
  datetime_complete : option datetime
}.

(** Modelled from the spec: [TrialModel.find_by_id], the trial with this
    id if there is one. *)
Definition find_by_id (id : Z) (rows : list t) : option t :=
  find (fun r => trial_id r =? id) rows.

(** [trial.state = s], and the like for the other columns the storage
    assigns. *)
Definition set_state (s : State) (r : t) : t :=
  mk (trial_id r) (study_id r) s (value r) (user_attributes_json r)
     (datetime_start r) (datetime_complete r).

Definition set_datetime_complete (d : option datetime) (r : t) : t :=
  mk (trial_id r) (study_id r) (state r) (value r) (user_attributes_json r)
     (datetime_start r) d.

Definition set_value (v : option float) (r : t) : t :=
  mk (trial_id r) (study_id r) (state r) v (user_attributes_json r)
     (datetime_start r) (datetime_complete r).

Definition set_user_attributes_json (j : string) (r : t) : t :=
  mk (trial_id r) (study_id r) (state r) (value r) j
     (datetime_start r) (datetime_complete r).
End TrialModel.

Module TrialParamDistributionModel.
(** Modelled from the spec: a row of [models.TrialParamDistributionModel],
    the descriptor of one parameter of one trial, encoded in JSON. *)
Record t : Type := mk {
  param_distribution_id : Z;
  trial_id : Z;
  param_name : string;
  distribution_json : string
}.

(** Modelled from the spec:
    [TrialParamDistributionModel.find_by_trial_and_param_name], the
    descriptor registered for this trial under this name if there is
    one. *)
Definition find_by_trial_and_param_name
  (trial : TrialModel.t) (name : string) (rows : list t) : option t :=
  find (fun d => (trial_id d =? TrialModel.trial_id trial)
                 && String.eqb (param_name d) name) rows.
End TrialParamDistributionModel.

Module TrialParamModel.
(** Modelled from the spec: a row of [models.TrialParamModel], the value
    recorded for one descriptor of one trial. *)
Record t : Type := mk {
  trial_param_id : Z;
  trial_id : Z;
  param_distribution_id : Z;
  param_value : float
}.

(** Modelled from the spec: [TrialParamModel.find_by_trial_and_param_name];
    the recorded value of a parameter is keyed by the trial and by the
    descriptor that the name resolves to. *)
Definition find_by_trial_and_param_name
  (trial : TrialModel.t) (name : string)
  (distributions : list TrialParamDistributionModel.t) (rows : list t)
  : option t :=
  match TrialParamDistributionModel.find_by_trial_and_param_name
          trial name distributions with
  | None => None
  | Some d =>
      find (fun p => (trial_id p =? TrialModel.trial_id trial)
                     && (param_distribution_id p
                         =? TrialParamDistributionModel.param_distribution_id d))
           rows
  end.
End TrialParamModel.

Module TrialValueModel.
(** Modelled from the spec: a row of [models.TrialValueModel], the
    intermediate value of one trial at one step. *)
Record t : Type := mk {
  trial_value_id : Z;
  trial_id : Z;
  step : Z;
  value : float
}.

(** Modelled from the spec: [TrialValueModel.find_by_trial_and_step], the
    value of this trial at this step if there is one. *)
Definition find_by_trial_and_step
  (trial : TrialModel.t) (s : Z) (rows : list t) : option t :=
  find (fun v => (trial_id v =? TrialModel.trial_id trial) && (step v =? s))
       rows.
End TrialValueModel.

Module VersionInfoModel.
(** Modelled from the spec: the row of [models.VersionInfoModel]. *)
Record t : Type := mk { schema_version : Z; library_version : string }.
End VersionInfoModel.

(** The committed contents of the backing store.  [foreign_keys] tells
    whether the backend enforces foreign keys when a row is inserted (an
    SQLite connection does so only on request); the version table holds at
    most one row. *)
Record DB : Type := mkDB {
  foreign_keys : bool;
  studies : list StudyModel.t;
  study_user_attributes : list StudyUserAttributeModel.t;
  trials : list TrialModel.t;
  param_distributions : list TrialParamDistributionModel.t;
  trial_params : list TrialParamModel.t;
  trial_values : list TrialValueModel.t;
  version_info : option VersionInfoModel.t
}.

(** The store right after [create_all] on a blank database. *)
Definition empty_db (fk : bool) : DB := mkDB fk [] [] [] [] [] [] None.

Definition with_studies (x : list StudyModel.t) (db : DB) : DB :=
  mkDB (foreign_keys db) x (study_user_attributes db) (trials db)
       (param_distributions db) (trial_params db) (trial_values db)
       (version_info db).

Definition with_study_user_attributes
  (x : list StudyUserAttributeModel.t) (db : DB) : DB :=
  mkDB (foreign_keys db) (studies db) x (trials db)
       (param_distributions db) (trial_params db) (trial_values db)
       (version_info db).

Definition with_trials (x : list TrialModel.t) (db : DB) : DB :=
  mkDB (foreign_keys db) (studies db) (study_user_attributes db) x
       (param_distributions db) (trial_params db) (trial_values db)
       (version_info db).

Definition with_param_distributions
  (x : list TrialParamDistributionModel.t) (db : DB) : DB :=
  mkDB (foreign_keys db) (studies db) (study_user_attributes db) (trials db)
       x (trial_params db) (trial_values db) (version_info db).

Definition with_trial_params (x : list TrialParamModel.t) (db : DB) : DB :=
  mkDB (foreign_keys db) (studies db) (study_user_attributes db) (trials db)
       (param_distributions db) x (trial_values db) (version_info db).

Definition with_trial_values (x : list TrialValueModel.t) (db : DB) : DB :=
  mkDB (foreign_keys db) (studies db) (study_user_attributes db) (trials db)
       (param_distributions db) (trial_params db) x (version_info db).

Definition with_version_info (x : option VersionInfoModel.t) (db : DB) : DB :=
  mkDB (foreign_keys db) (studies db) (study_user_attributes db) (trials db)
       (param_distributions db) (trial_params db) (trial_values db) x.

(** ** Sessions

    A method of the storage runs against the session of its caller: it
    reads the committed store, may commit a new one, and returns or raises.
    A method that raises leaves the store as its last commit left it. *)
Definition M (A : Type) : Type := DB -> result A * DB.

Definition ret {A} (a : A) : M A := fun db => (Ok a, db).

Definition raise {A} (e : exn) : M A := fun db => (Raise e, db).

Definition bind {A B} (m : M A) (k : A -> M B) : M B :=
  fun db =>
    match m db with
    | (Ok a, db') => k a db'
    | (Raise e, db') => (Raise e, db')
    end.

Declare Scope session_scope.
Delimit Scope session_scope with session.
Notation "x <- m ;; k" := (bind m (fun x => k))
  (at level 100, m at next level, right associativity) : session_scope.
Notation "m ;;; k" := (bind m (fun _ => k))
  (at level 100, right associativity) : session_scope.
Local Open Scope session_scope.

(** A lookup with [allow_none=True], or a plain query. *)
Definition query {A} (q : DB -> A) : M A := fun db => (Ok (q db), db).

(** Modelled from the spec: a lookup with [allow_none=False] fails with
    NotFound when no row is found. *)
Definition strict {A} (q : DB -> option A) : M A :=
  fun db =>
    match q db with
    | Some a => (Ok a, db)
    | None => (Raise NotFound, db)
    end.

(** [try: m except IntegrityError: handler]. *)
Definition except_IntegrityError (m handler : M unit) : M unit :=
  fun db =>
    match m db with
    | (Raise IntegrityError, db') => handler db'
    | r => r
    end.

(** [session.rollback()]: the failed commit wrote nothing. *)
Definition rollback : M unit := ret tt.

(** ** Commits

    Modelled from the spec: what [session.add(row); session.commit()] does
    on each table under the constraints of the data model (section 3): the
    primary key is assigned, and the commit raises [IntegrityError], writing
    nothing, when a uniqueness constraint or an enforced foreign key rejects
    the row. *)

(** A foreign key holds when the store does not enforce it or the row it
    names is present. *)
Definition references (db : DB) (present : bool) : bool :=
  negb (foreign_keys db) || present.

Definition has_study (id : Z) (db : DB) : bool :=
  existsb (fun s => StudyModel.study_id s =? id) (studies db).

Definition has_trial (id : Z) (db : DB) : bool :=
  existsb (fun r => TrialModel.trial_id r =? id) (trials db).

Definition has_param_distribution (id : Z) (db : DB) : bool :=
  existsb (fun d => TrialParamDistributionModel.param_distribution_id d =? id)
          (param_distributions db).

(** Modelled from the spec: adding a study; the identifier is unique. *)
Definition add_study (uuid : string) : M StudyModel.t :=
  fun db =>
    if existsb (fun s => String.eqb (StudyModel.study_uuid s) uuid) (studies db)
    then (Raise IntegrityError, db)
    else
      let row :=
        StudyModel.mk (fresh_id (map StudyModel.study_id (studies db))) uuid in
      (Ok row, with_studies (studies db ++ [row]) db).

(** Modelled from the spec: adding a study attribute; (study id, key) is
    unique and the study id is a foreign key. *)
Definition add_study_user_attribute (study_id : Z) (key value_json : string)
  : M unit :=
  fun db =>
    if existsb (fun a => (StudyUserAttributeModel.study_id a =? study_id)
                         && String.eqb (StudyUserAttributeModel.key a) key)
               (study_user_attributes db)
       || negb (references db (has_study study_id db))
    then (Raise IntegrityError, db)
    else
      let row :=
        StudyUserAttributeModel.mk
          (fresh_id (map StudyUserAttributeModel.study_user_attribute_id
                         (study_user_attributes db)))
          study_id key value_json in
      (Ok tt, with_study_user_attributes (study_user_attributes db ++ [row]) db).

(** Modelled from the spec: adding a trial; the study id is a foreign
    key, and the row gets the time of the call as its start timestamp. *)
Definition add_trial (study_id : Z) (state : State)
  (user_attributes_json : string) (now : datetime) : M TrialModel.t :=
  fun db =>
    if negb (references db (has_study study_id db))
    then (Raise IntegrityError, db)
    else
      let row :=
        TrialModel.mk (fresh_id (map TrialModel.trial_id (trials db)))
                      study_id state None user_attributes_json now None in
      (Ok row, with_trials (trials db ++ [row]) db).

(** Modelled from the spec: [check_and_add] of a descriptor and its
    commit; (trial id, param name) is unique and the trial id is a foreign
    key. *)
Definition add_trial_param_distribution
  (trial_id : Z) (param_name distribution_json : string) : M unit :=
  fun db =>
    if existsb (fun d => (TrialParamDistributionModel.trial_id d =? trial_id)
                         && String.eqb (TrialParamDistributionModel.param_name d)
                                       param_name)
               (param_distributions db)
       || negb (references db (has_trial trial_id db))
    then (Raise IntegrityError, db)
    else
      let row :=
        TrialParamDistributionModel.mk
          (fresh_id (map TrialParamDistributionModel.param_distribution_id
                         (param_distributions db)))
          trial_id param_name distribution_json in
      (Ok tt, with_param_distributions (param_distributions db ++ [row]) db).

(** Modelled from the spec: adding a parameter value; (trial id,
    descriptor id) is unique and both are foreign keys. *)
Definition add_trial_param
  (trial_id param_distribution_id : Z) (param_value : float) : M unit :=
  fun db =>
    if existsb (fun p => (TrialParamModel.trial_id p =? trial_id)
                         && (TrialParamModel.param_distribution_id p
                             =? param_distribution_id))
               (trial_params db)
       || negb (references db (has_trial trial_id db))
       || negb (references db (has_param_distribution param_distribution_id db))
    then (Raise IntegrityError, db)
    else
      let row :=
        TrialParamModel.mk
          (fresh_id (map TrialParamModel.trial_param_id (trial_params db)))
          trial_id param_distribution_id param_value in
      (Ok tt, with_trial_params (trial_params db ++ [row]) db).

(** Modelled from the spec: adding an intermediate value; (trial id,
    step) is unique and the trial id is a foreign key. *)
Definition add_trial_value (trial_id step : Z) (value : float) : M unit :=
  fun db =>
    if existsb (fun v => (TrialValueModel.trial_id v =? trial_id)
                         && (TrialValueModel.step v =? step))
               (trial_values db)
       || negb (references db (has_trial trial_id db))
    then (Raise IntegrityError, db)
    else
      let row :=
        TrialValueModel.mk
          (fresh_id (map TrialValueModel.trial_value_id (trial_values db)))
          trial_id step value in
      (Ok tt, with_trial_values (trial_values db ++ [row]) db).

(** Modelled from the spec: adding the version row; the table is a
    singleton. *)
Definition add_version_info (v : VersionInfoModel.t) : M unit :=
  fun db =>
    match version_info db with
    | Some _ => (Raise IntegrityError, db)
    | None => (Ok tt, with_version_info (Some v) db)
    end.

(** Committing a row that the session loaded and then modified rewrites the
    row with its primary key; no constraint covers the columns the storage
    modifies. *)
Definition commit_trial (row : TrialModel.t) : M unit :=
  fun db =>
    (Ok tt,
     with_trials
       (map (fun r =>
               if TrialModel.trial_id r =? TrialModel.trial_id row
               then row else r)
            (trials db))
       db).

(** The same for a study attribute whose value was reassigned. *)
Definition commit_study_user_attribute (row : StudyUserAttributeModel.t)
  : M unit :=
  fun db =>
    (Ok tt,
     with_study_user_attributes
       (map (fun a =>
               if StudyUserAttributeModel.study_user_attribute_id a
                  =? StudyUserAttributeModel.study_user_attribute_id row
               then row else a)
            (study_user_attributes db))
       db).

(** ** Aggregates

    [pfnopt.trial.Trial], with the fields [_merge_trials_orm] fills in. *)
Module Trial.
Record t {external : Type} : Type := mk {
  trial_id : Z;
  state : State;
  params : dict string external;
  user_attrs : json;
  value : option float;
  intermediate_values : dict Z float;
  params_in_internal_repr : dict string float;
  datetime_start : datetime;
  datetime_complete : option datetime
}.
Arguments t external : clear implicits.
End Trial.

(** A parameter row as the session hands it to the assembler: the columns
    together with the descriptor row its [param_distribution] relationship
    resolves to. *)
Module TrialParam.
Record t : Type := mk {
  columns : TrialParamModel.t;
  param_distribution : TrialParamDistributionModel.t
}.
Definition trial_id (p : t) : Z := TrialParamModel.trial_id (columns p).
Definition param_value (p : t) : float :=
  TrialParamModel.param_value (columns p).
Definition param_name (p : t) : string :=
  TrialParamDistributionModel.param_name (param_distribution p).
End TrialParam.

(** [collections.defaultdict(list)]: [d[k].append(x)], and [d[k]] read. *)
Definition defaultdict_append {V : Type} (k : Z) (x : V)
  (d : dict Z (list V)) : dict Z (list V) :=
  match dict_get Z.eqb k d with
  | Some l => dict_set Z.eqb k (l ++ [x]) d
  | None => dict_set Z.eqb k [x] d
  end.

Definition defaultdict_get {V : Type} (k : Z) (d : dict Z (list V)) : list V :=
  match dict_get Z.eqb k d with
  | Some l => l
  | None => []
  end.

(** ** The methods of [RDBStorage] *)

(** The storage object: the engine it was opened on. *)
Record RDBStorage : Type := { engine_url : string }.

Section Methods.
Context {codec : JsonCodec} {dists : Distributions}.

(** [pfnopt.storages.base.SYSTEM_ATTRS_KEY], [models.SCHEMA_VERSION] and
    [version.__version__]. *)
Variable SYSTEM_ATTRS_KEY : string.
Variable SCHEMA_VERSION : Z.
Variable version : string.

Definition set_study_user_attr (study_id : Z) (key : string) (value : json)
  : M unit :=
  (* Check if the study already exists. *)
  strict (fun db => StudyModel.find_by_id study_id (studies db)) ;;;
  attribute <- query (fun db =>
      StudyUserAttributeModel.find_by_study_id_and_key
        study_id key (study_user_attributes db)) ;;
  match attribute with
  | None => add_study_user_attribute study_id key (json_dumps value)
  | Some attribute =>
      commit_study_user_attribute
        (StudyUserAttributeModel.set_value_json (json_dumps value) attribute)
  end.

(** The [while True] loop of [create_new_study_id] over the successive
    results of [uuid.uuid4()]: the first one that no stored study bears.
    [None] when every draw supplied collides. *)
Fixpoint new_study_uuid (draws : list string) (rows : list StudyModel.t)
  : option string :=
  match draws with
  | [] => None
  | study_uuid :: draws' =>
      match StudyModel.find_by_uuid study_uuid rows with
      | None => Some study_uuid
      | Some _ => new_study_uuid draws' rows
      end
  end.

Definition create_new_study_id (draws : list string)
  : DB -> option (result Z * DB) :=
  fun db =>
    match new_study_uuid draws (studies db) with
    | None => None
    | Some study_uuid =>
        Some ((study <- add_study study_uuid ;;
               (* Set system attribute key and empty value. *)
               set_study_user_attr (StudyModel.study_id study)
                                   SYSTEM_ATTRS_KEY (JDict []) ;;;
               ret (StudyModel.study_id study)) db)
    end.

Definition get_study_id_from_uuid (study_uuid : string) : M Z :=
  study <- strict (fun db => StudyModel.find_by_uuid study_uuid (studies db)) ;;
  ret (StudyModel.study_id study).

Definition get_study_uuid_from_id (study_id : Z) : M string :=
  study <- strict (fun db => StudyModel.find_by_id study_id (studies db)) ;;
  ret (StudyModel.study_uuid study).

Definition get_study_user_attrs (study_id : Z) : M (dict string json) :=
  attributes <- query (fun db =>
      StudyUserAttributeModel.where_study_id
        study_id (study_user_attributes db)) ;;
  ret (fold_left
         (fun d attr =>
            dict_set String.eqb (StudyUserAttributeModel.key attr)
                     (json_loads (StudyUserAttributeModel.value_json attr)) d)
         attributes []).

Definition set_trial_param_distribution
  (trial_id : Z) (param_name : string) (d : distribution) : M unit :=
  add_trial_param_distribution trial_id param_name (distribution_to_json d).

Definition create_new_trial_id (now : datetime) (study_id : Z) : M Z :=
  trial <- add_trial study_id RUNNING
             (json_dumps (JDict [(SYSTEM_ATTRS_KEY, JDict [])])) now ;;
  ret (TrialModel.trial_id trial).

Definition set_trial_state (now : datetime) (trial_id : Z) (state : State)
  : M unit :=
  trial <- strict (fun db => TrialModel.find_by_id trial_id (trials db)) ;;
  let trial := TrialModel.set_state state trial in
  let trial :=
    if is_finished state
    then TrialModel.set_datetime_complete (Some now) trial
    else trial in
  commit_trial trial.

Definition set_trial_param
  (trial_id : Z) (param_name : string) (param_value : float) : M unit :=
  trial <- strict (fun db => TrialModel.find_by_id trial_id (trials db)) ;;
  param_distribution <- strict (fun db =>
      TrialParamDistributionModel.find_by_trial_and_param_name
        trial param_name (param_distributions db)) ;;
  (* check if the parameter already exists *)
  param <- query (fun db =>
      TrialParamModel.find_by_trial_and_param_name
        trial param_name (param_distributions db) (trial_params db)) ;;
  match param with
  | Some param =>
      if py_float_eq (TrialParamModel.param_value param) param_value
      then ret tt
      else raise AssertionError
  | None =>
      except_IntegrityError
        (add_trial_param
           trial_id
           (TrialParamDistributionModel.param_distribution_id
              param_distribution)
           param_value)
        rollback
  end.

Definition set_trial_value (trial_id : Z) (value : float) : M unit :=
  trial <- strict (fun db => TrialModel.find_by_id trial_id (trials db)) ;;
  commit_trial (TrialModel.set_value (Some value) trial).

Definition set_trial_intermediate_value
  (trial_id step : Z) (intermediate_value : float) : M unit :=
  (* the following line is to check that the specified trial_id exists *)
  trial <- strict (fun db => TrialModel.find_by_id trial_id (trials db)) ;;
  (* check if the value at the same step already exists *)
  trial_value <- query (fun db =>
      TrialValueModel.find_by_trial_and_step trial step (trial_values db)) ;;
  match trial_value with
  | Some trial_value =>
      if py_float_eq (TrialValueModel.value trial_value) intermediate_value
      then ret tt
      else raise AssertionError
  | None =>
      except_IntegrityError
        (add_trial_value trial_id step intermediate_value)
        rollback
  end.

Definition set_trial_user_attr (trial_id : Z) (key : string) (value : json)
  : M unit :=
  trial <- strict (fun db => TrialModel.find_by_id trial_id (trials db)) ;;
  match json_loads (TrialModel.user_attributes_json trial) with
  | JDict loaded_json =>
      commit_trial
        (TrialModel.set_user_attributes_json
           (json_dumps (JDict (dict_set String.eqb key value loaded_json)))
           trial)
  | _ => raise TypeError
  end.

Definition _merge_trials_orm
  (trials : list TrialModel.t)
  (trial_params : list TrialParam.t)
  (trial_intermediate_values : list TrialValueModel.t)
  : list (Trial.t external) :=
  let id_to_trial :=
    fold_left
      (fun d trial => dict_set Z.eqb (TrialModel.trial_id trial) trial d)
      trials [] in
  let id_to_trial_params :=
    fold_left
      (fun d param => defaultdict_append (TrialParam.trial_id param) param d)
      trial_params [] in
  let id_to_intermediate_values :=
    fold_left
      (fun d value =>
         defaultdict_append (TrialValueModel.trial_id value) value d)
      trial_intermediate_values [] in
  map
    (fun '(trial_id, trial) =>
       let '(params, params_in_internal_repr) :=
         fold_left
           (fun '(params, params_in_internal_repr) param =>
              let distribution :=
                json_to_distribution
                  (TrialParamDistributionModel.distribution_json
                     (TrialParam.param_distribution param)) in
              (dict_set String.eqb (TrialParam.param_name param)
                 (to_external_repr distribution (TrialParam.param_value param))
                 params,
               dict_set String.eqb (TrialParam.param_name param)
                 (TrialParam.param_value param) params_in_internal_repr))
           (defaultdict_get trial_id id_to_trial_params)
           ([], []) in
       let intermediate_values :=
         fold_left
           (fun d value =>
              dict_set Z.eqb (TrialValueModel.step value)
                       (TrialValueModel.value value) d)
           (defaultdict_get trial_id id_to_intermediate_values)
           [] in
       Trial.mk external
         trial_id
         (TrialModel.state trial)
         params
         (json_loads (TrialModel.user_attributes_json trial))
         (TrialModel.value trial)
         intermediate_values
         params_in_internal_repr
         (TrialModel.datetime_start trial)
         (TrialModel.datetime_complete trial))
    id_to_trial.

(** Loading parameter rows for the assembler resolves each row's
    [param_distribution]; the assembler reads [distribution_json] from
    it, which raises when the relationship is empty. *)
Fixpoint load_trial_params
  (distributions : list TrialParamDistributionModel.t)
  (rows : list TrialParamModel.t) : option (list TrialParam.t) :=
  match rows with
  | [] => Some []
  | row :: rows' =>
      match find (fun d =>
                    TrialParamDistributionModel.param_distribution_id d
                    =? TrialParamModel.param_distribution_id row)
                 distributions,
            load_trial_params distributions rows' with
      | Some d, Some loaded => Some (TrialParam.mk row d :: loaded)
      | _, _ => None
      end
  end.

Definition loaded_trial_params (rows : DB -> list TrialParamModel.t)
  : M (list TrialParam.t) :=
  fun db =>
    match load_trial_params (param_distributions db) (rows db) with
    | Some loaded => (Ok loaded, db)
    | None => (Raise AttributeError, db)
    end.

Definition get_trial (trial_id : Z) : M (Trial.t external) :=
  fun db =>
    match filter (fun r => TrialModel.trial_id r =? trial_id) (trials db) with
    | [] => (Raise NoResultFound, db)
    | trial :: _ =>
        (params <- loaded_trial_params (fun db =>
             filter (fun p => TrialParamModel.trial_id p =? trial_id)
                    (trial_params db)) ;;
         values <- query (fun db =>
             filter (fun v => TrialValueModel.trial_id v =? trial_id)
                    (trial_values db)) ;;
         match _merge_trials_orm [trial] params values with
         | merged :: _ => ret merged
         | [] => raise IndexError
         end) db
    end.

Definition trial_in_study (db : DB) (study_id trial_id : Z) : bool :=
  existsb (fun r => (TrialModel.trial_id r =? trial_id)
                    && (TrialModel.study_id r =? study_id))
          (trials db).

Definition get_all_trials (study_id : Z) : M (list (Trial.t external)) :=
  trials <- query (fun db =>
      filter (fun r => TrialModel.study_id r =? study_id) (trials db)) ;;
  params <- loaded_trial_params (fun db =>
      filter (fun p => trial_in_study db study_id (TrialParamModel.trial_id p))
             (trial_params db)) ;;
  values <- query (fun db =>
      filter (fun v => trial_in_study db study_id (TrialValueModel.trial_id v))
             (trial_values db)) ;;
  ret (_merge_trials_orm trials params values).

Definition _check_table_schema_compatibility : M unit :=
  version_info <- query version_info ;;
  match version_info with
  | None =>
      except_IntegrityError
        (add_version_info (VersionInfoModel.mk SCHEMA_VERSION version))
        rollback
  | Some version_info =>
      if negb (VersionInfoModel.schema_version version_info =? SCHEMA_VERSION)
      then raise RuntimeError
      else ret tt
  end.

(** [RDBStorage.__init__]: [create_all] leaves existing tables alone, and
    an exception of the compatibility check leaves no storage object. *)
Definition __init__ (url : string) : M RDBStorage :=
  _check_table_schema_compatibility ;;;
  ret {| engine_url := url |}.

(** *** Histories of a store

    The calls that write to the store, and the stores that a sequence of
    calls produces from a blank database. *)
Inductive call : Type :=
| Init (url : string)
| CreateNewStudyId (draws : list string)
| SetStudyUserAttr (study_id : Z) (key : string) (value : json)
| SetTrialParamDistribution (trial_id : Z) (param_name : string)
                            (d : distribution)
| CreateNewTrialId (now : datetime) (study_id : Z)
| SetTrialState (now : datetime) (trial_id : Z) (state : State)
| SetTrialParam (trial_id : Z) (param_name : string) (param_value : float)
| SetTrialValue (trial_id : Z) (value : float)
| SetTrialIntermediateValue (trial_id step : Z) (value : float)
| SetTrialUserAttr (trial_id : Z) (key : string) (value : json).

(** The store a call leaves behind, whether it returned or raised; [None]
    when the call does not come back. *)
Definition after (c : call) (db : DB) : option DB :=
  match c with
  | Init url => Some (snd (__init__ url db))
  | CreateNewStudyId draws => option_map snd (create_new_study_id draws db)
  | SetStudyUserAttr i k v => Some (snd (set_study_user_attr i k v db))
  | SetTrialParamDistribution i n d =>
      Some (snd (set_trial_param_distribution i n d db))
  | CreateNewTrialId now i => Some (snd (create_new_trial_id now i db))
  | SetTrialState now i s => Some (snd (set_trial_state now i s db))
  | SetTrialParam i n v => Some (snd (set_trial_param i n v db))
  | SetTrialValue i v => Some (snd (set_trial_value i v db))
  | SetTrialIntermediateValue i st v =>
      Some (snd (set_trial_intermediate_value i st v db))
  | SetTrialUserAttr i k v => Some (snd (set_trial_user_attr i k v db))
  end.

Inductive reachable : DB -> Prop :=
| reachable_blank : forall fk, reachable (empty_db fk)
| reachable_after : forall c db db',
    reachable db -> after c db = Some db' -> reachable db'.
End Methods.

(** ** Integrity of the studies

    What every store built by the storage satisfies: no two studies bear
    the same identifier, and every study attribute belongs to a study. *)
Definition studies_ok (db : DB) : Prop :=
  NoDup (map StudyModel.study_uuid (studies db))
  /\ (forall a, In a (study_user_attributes db) ->
                has_study (StudyUserAttributeModel.study_id a) db = true).

(** A call that writes neither studies nor study attributes. *)
Definition keeps_studies {A} (m : M A) : Prop :=
  forall db,
    studies (snd (m db)) = studies db
    /\ study_user_attributes (snd (m db)) = study_user_attributes db.

(** ** Test doubles

    A codec and a family of descriptors to run the storage on: the codec
    keeps no more of a value than the storage itself reads back, and a
    descriptor either leaves a value as it is or doubles it. *)
Module Doubles.
Definition dumps (j : json) : string :=
  match j with
  | JDict [] => "{}"
  | JDict ((k, JDict []) :: _) => ("{" ++ k ++ ": {}}")%string
  | _ => "null"
  end.

Definition loads (s : string) : json :=
  if String.eqb s "{}" then JDict []
  else if String.eqb s "null" then JNull
  else JDict [(substring 1 (String.length s - 6) s, JDict [])].

#[export] Instance codec : JsonCodec :=
  {| json_dumps := dumps; json_loads := loads |}.

Inductive descriptor : Type := Identity | Doubling.

Definition descriptor_to_json (d : descriptor) : string :=
  match d with
  | Identity => "identity"
  | Doubling => "doubling"
  end.

Definition json_to_descriptor (s : string) : descriptor :=
  if String.eqb s "doubling" then Doubling else Identity.

Definition decode (d : descriptor) (x : float) : float :=
  match d with
  | Identity => x
  | Doubling => PrimFloat.mul x 2
  end.

#[export] Instance dists : Distributions :=
  {| distribution := descriptor;
     external := float;
     distribution_to_json := descriptor_to_json;
     json_to_distribution := json_to_descriptor;
     to_external_repr := decode |}.

Definition KEY : string := "__system__".
Definition SCHEMA : Z := 1.
Definition VERSION : string := "0.0.1".

(** A store with one study, one running trial and a descriptor for the
    parameter [x] of that trial. *)
Definition study1 : StudyModel.t := StudyModel.mk 1 "uuid-1".
Definition trial1 : TrialModel.t :=
  TrialModel.mk 1 1 RUNNING None (dumps (JDict [(KEY, JDict [])])) 100 None.
Definition descriptor_x : TrialParamDistributionModel.t :=
  TrialParamDistributionModel.mk 1 1 "x" "doubling".
Definition db1 : DB :=
  mkDB true [study1] [] [trial1] [descriptor_x] [] []
       (Some (VersionInfoModel.mk SCHEMA VERSION)).

(** The store after [create_new_study_id] on a blank database, when
    [uuid.uuid4()] returns [8c1e]. *)
Definition db_study : DB :=
  match create_new_study_id KEY ["8c1e"] (empty_db true) with
  | Some (_, db) => db
  | None => empty_db true
  end.
End Doubles.
Import Doubles.

(** ** Elementary writes

    The commits the storage makes, one table at a time: a row is added
    under a fresh primary key, or the rows bearing a primary key are
    rewritten.  Each commit carries what the method has checked before
    it. *)
Inductive write : DB -> DB -> Prop :=
| write_version_info : forall db v,
    version_info db = None ->
    write db (with_version_info (Some v) db)
| write_study : forall db uuid,
    StudyModel.find_by_uuid uuid (studies db) = None ->
    write db
      (with_studies
         (studies db
          ++ [StudyModel.mk (fresh_id (map StudyModel.study_id (studies db)))
                            uuid])
         db)
| write_study_user_attribute : forall db study_id key value_json,
    has_study study_id db = true ->
    StudyUserAttributeModel.find_by_study_id_and_key
      study_id key (study_user_attributes db) = None ->
    write db
      (with_study_user_attributes
         (study_user_attributes db
          ++ [StudyUserAttributeModel.mk
                (fresh_id (map StudyUserAttributeModel.study_user_attribute_id
                               (study_user_attributes db)))
                study_id key value_json])
         db)
| write_study_user_attribute_value : forall db attribute value_json,
    In attribute (study_user_attributes db) ->
    write db
      (with_study_user_attributes
         (map (fun a =>
                 if StudyUserAttributeModel.study_user_attribute_id a
                    =? StudyUserAttributeModel.study_user_attribute_id attribute
                 then StudyUserAttributeModel.set_value_json value_json attribute
                 else a)
              (study_user_attributes db))
         db)
| write_trial : forall db study_id state user_attributes_json now,
    write db
      (with_trials
         (trials db
          ++ [TrialModel.mk (fresh_id (map TrialModel.trial_id (trials db)))
                            study_id state None user_attributes_json now None])
         db)
| write_trial_columns : forall db trial row,
    TrialModel.find_by_id (TrialModel.trial_id trial) (trials db) = Some trial ->
    TrialModel.trial_id row = TrialModel.trial_id trial ->
    TrialModel.study_id row = TrialModel.study_id trial ->
    TrialModel.datetime_start row = TrialModel.datetime_start trial ->
    write db
      (with_trials
         (map (fun r =>
                 if TrialModel.trial_id r =? TrialModel.trial_id row
                 then row else r)
              (trials db))
         db)
| write_trial_param_distribution : forall db trial_id param_name json,
    existsb (fun d => (TrialParamDistributionModel.trial_id d =? trial_id)
                      && String.eqb (TrialParamDistributionModel.param_name d)
                                    param_name)
            (param_distributions db) = false ->
    write db
      (with_param_distributions
         (param_distributions db
          ++ [TrialParamDistributionModel.mk
                (fresh_id (map TrialParamDistributionModel.param_distribution_id
                               (param_distributions db)))
                trial_id param_name json])
         db)
| write_trial_param : forall db trial d param_value,
    In trial (trials db) ->
    In d (param_distributions db) ->
    TrialParamDistributionModel.trial_id d = TrialModel.trial_id trial ->
    existsb (fun p => (TrialParamModel.trial_id p =? TrialModel.trial_id trial)
                      && (TrialParamModel.param_distribution_id p
                          =? TrialParamDistributionModel.param_distribution_id d))
            (trial_params db) = false ->
    write db
      (with_trial_params
         (trial_params db
          ++ [TrialParamModel.mk
                (fresh_id (map TrialParamModel.trial_param_id (trial_params db)))
                (TrialModel.trial_id trial)
                (TrialParamDistributionModel.param_distribution_id d)
                param_value])
         db)
| write_trial_value : forall db trial step value,
    In trial (trials db) ->
    existsb (fun v => (TrialValueModel.trial_id v =? TrialModel.trial_id trial)
                      && (TrialValueModel.step v =? step))
            (trial_values db) = false ->
    write db
      (with_trial_values
         (trial_values db
          ++ [TrialValueModel.mk
                (fresh_id (map TrialValueModel.trial_value_id (trial_values db)))
                (TrialModel.trial_id trial) step value])
         db).

(** A sequence of commits. *)
Inductive writes : DB -> DB -> Prop :=
| writes_none : forall db, writes db db
| writes_more : forall db db1 db2,
    writes db db1 -> write db1 db2 -> writes db db2.

(** The constraints of the tables: primary keys and unique keys are not
    repeated, and a recorded parameter value names a descriptor of its own
    trial. *)
Record well_formed (db : DB) : Prop := {
  wf_study_ids : NoDup (map StudyModel.study_id (studies db));
  wf_study_uuids : NoDup (map StudyModel.study_uuid (studies db));
  wf_attribute_ids :
    NoDup (map StudyUserAttributeModel.study_user_attribute_id
               (study_user_attributes db));
  wf_attribute_keys :
    NoDup (map (fun a => (StudyUserAttributeModel.study_id a,
                          StudyUserAttributeModel.key a))
               (study_user_attributes db));
  wf_trial_ids : NoDup (map TrialModel.trial_id (trials db));
  wf_distribution_ids :
    NoDup (map TrialParamDistributionModel.param_distribution_id
               (param_distributions db));
  wf_distribution_names :
    NoDup (map (fun d => (TrialParamDistributionModel.trial_id d,
                          TrialParamDistributionModel.param_name d))
               (param_distributions db));
  wf_param_keys :
    NoDup (map (fun p => (TrialParamModel.trial_id p,
                          TrialParamModel.param_distribution_id p))
               (trial_params db));
  wf_param_distribution :
    forall p, In p (trial_params db) ->
      exists d, In d (param_distributions db)
                /\ TrialParamDistributionModel.param_distribution_id d
                   = TrialParamModel.param_distribution_id p
                /\ TrialParamDistributionModel.trial_id d
                   = TrialParamModel.trial_id p;
  wf_value_keys :
    NoDup (map (fun v => (TrialValueModel.trial_id v, TrialValueModel.step v))
               (trial_values db))
}.

(** What a later store keeps of an earlier one: the studies as they are,
    the trials under their ids, in their studies and with their start
    timestamps, and the descriptors, parameter values and intermediate
    values as they are. *)
Definition keeps_records (db db' : DB) : Prop :=
  (forall id study,
      StudyModel.find_by_id id (studies db) = Some study ->
      StudyModel.find_by_id id (studies db') = Some study)
  /\ (forall id trial,
        TrialModel.find_by_id id (trials db) = Some trial ->
        exists trial',
          TrialModel.find_by_id id (trials db') = Some trial'
          /\ TrialModel.trial_id trial' = TrialModel.trial_id trial
          /\ TrialModel.study_id trial' = TrialModel.study_id trial
          /\ TrialModel.datetime_start trial' = TrialModel.datetime_start trial)
  /\ (forall trial name d,
        TrialParamDistributionModel.find_by_trial_and_param_name
          trial name (param_distributions db) = Some d ->
        TrialParamDistributionModel.find_by_trial_and_param_name
          trial name (param_distributions db') = Some d)
  /\ (forall trial name p,
        TrialParamModel.find_by_trial_and_param_name
          trial name (param_distributions db) (trial_params db) = Some p ->
        TrialParamModel.find_by_trial_and_param_name
          trial name (param_distributions db') (trial_params db') = Some p)
  /\ (forall trial step v,
        TrialValueModel.find_by_trial_and_step trial step (trial_values db)
        = Some v ->
        TrialValueModel.find_by_trial_and_step trial step (trial_values db')
        = Some v).

(** ** What an aggregate shows of a store

    The aggregate of a trial bears the columns of its row; under the name
    of a parameter it holds the value recorded for the parameter, decoded
    by the descriptor registered under the name in the external map and
    as it is in the internal map, and nothing when no value is recorded;
    under a step it holds the intermediate value recorded at the step. *)
Section Shows.
Context {codec : JsonCodec} {dists : Distributions}.

Definition shows (db : DB) (trial : TrialModel.t) (agg : Trial.t external)
  : Prop :=
  Trial.trial_id agg = TrialModel.trial_id trial
  /\ Trial.state agg = TrialModel.state trial
  /\ Trial.value agg = TrialModel.value trial
  /\ Trial.user_attrs agg = json_loads (TrialModel.user_attributes_json trial)
  /\ Trial.datetime_start agg = TrialModel.datetime_start trial
  /\ Trial.datetime_complete agg = TrialModel.datetime_complete trial
  /\ (forall name,
        dict_get String.eqb name (Trial.params agg)
        = match TrialParamDistributionModel.find_by_trial_and_param_name
                  trial name (param_distributions db),
                TrialParamModel.find_by_trial_and_param_name
                  trial name (param_distributions db) (trial_params db) with
          | Some d, Some p =>
              Some (to_external_repr
                      (json_to_distribution
                         (TrialParamDistributionModel.distribution_json d))
                      (TrialParamModel.param_value p))
          | _, _ => None
          end)
  /\ (forall name,
        dict_get String.eqb name (Trial.params_in_internal_repr agg)
        = option_map TrialParamModel.param_value
            (TrialParamModel.find_by_trial_and_param_name
               trial name (param_distributions db) (trial_params db)))
  /\ (forall step,
        dict_get Z.eqb step (Trial.intermediate_values agg)
        = option_map TrialValueModel.value
            (TrialValueModel.find_by_trial_and_step
               trial step (trial_values db))).
End Shows.

(** ** Replaying a history *)

Section Replay.
Context {codec : JsonCodec} {dists : Distributions}.
Variable SYSTEM_ATTRS_KEY : string.
Variable SCHEMA_VERSION : Z.
Variable version : string.

(** The store after a list of calls, made one after the other. *)
Fixpoint replay (calls : list call) (db : DB) : option DB :=
  match calls with
  | [] => Some db
  | c :: calls' =>
      match after SYSTEM_ATTRS_KEY SCHEMA_VERSION version c db with
      | Some db' => replay calls' db'
      | None => None
      end
  end.
End Replay.

(** A history: a study, a trial of it in state RUNNING, a doubling
    descriptor for the parameter [x] of the trial, the value 2.0 recorded
    for it and the intermediate value 0.5 at step 5. *)
Definition recorded_history : list (@call Doubles.dists) :=
  [Init "sqlite:///example.db";
   CreateNewStudyId ["8c1e"];
   CreateNewTrialId 100 1;
   SetTrialParamDistribution 1 "x" Doubling;
   SetTrialParam 1 "x" 2%float;
   SetTrialIntermediateValue 1 5 0.5%float].

Definition db_recorded : DB :=
  match replay KEY SCHEMA VERSION recorded_history (empty_db true) with
  | Some db => db
  | None => empty_db true
  end.

(** The same history on a backend that does not enforce foreign keys. *)
Definition db_recorded_lax : DB :=
  match replay KEY SCHEMA VERSION recorded_history (empty_db false) with
  | Some db => db
  | None => empty_db false
  end.

(** ** Parents of the recorded rows

    The rows that a recorded row points to are in the store: a study
    attribute has its study, a parameter value has its trial and a
    descriptor of that trial, and an intermediate value has its trial. *)
Definition has_descriptor_of (p : TrialParamModel.t) (db : DB) : bool :=
  existsb (fun d => (TrialParamDistributionModel.param_distribution_id d
                     =? TrialParamModel.param_distribution_id p)
                    && (TrialParamDistributionModel.trial_id d
                        =? TrialParamModel.trial_id p))
          (param_distributions db).

Definition parents_present (db : DB) : bool :=
  forallb (fun a => has_study (StudyUserAttributeModel.study_id a) db)
          (study_user_attributes db)
  && forallb (fun p => has_trial (TrialParamModel.trial_id p) db
                       && has_descriptor_of p db)
             (trial_params db)
  && forallb (fun v => has_trial (TrialValueModel.trial_id v) db)
             (trial_values db).

(** * Properties *)

(** ** Lists, keys and dictionaries *)

Lemma fresh_id_above : forall ids x, In x ids -> x < fresh_id ids.
Proof.
  unfold fresh_id. intros ids x Hin.
  induction ids as [|y ids IH]; cbn [fold_right In] in *; [contradiction|].
  destruct Hin as [->|Hin]; [lia|]. specialize (IH Hin). lia.
Qed.

Lemma find_snoc_absent :
  forall {A} (f : A -> bool) (l : list A) (x : A),
    find f l = None -> find f (l ++ [x]) = if f x then Some x else None.
Proof.
  intros A f l x. induction l as [|a l IH]; simpl; [reflexivity|].
  destruct (f a); [discriminate|]. exact IH.
Qed.

Lemma find_snoc_present :
  forall {A} (f : A -> bool) (l : list A) (x a : A),
    find f l = Some a -> find f (l ++ [x]) = Some a.
Proof.
  intros A f l x a. induction l as [|b l IH]; simpl; [discriminate|].
  destruct (f b); auto.
Qed.

Lemma find_existsb :
  forall {A} (f : A -> bool) (l : list A),
    existsb f l = match find f l with Some _ => true | None => false end.
Proof.
  intros A f l. induction l as [|a l IH]; simpl; [reflexivity|].
  destruct (f a); simpl; auto.
Qed.

(** Rewriting the rows that bear a key leaves the lookups of other keys
    alone and makes the lookup of that key return the new row. *)
Lemma find_trial_rewritten :
  forall (rows : list TrialModel.t) (row old : TrialModel.t),
    TrialModel.find_by_id (TrialModel.trial_id row) rows = Some old ->
    TrialModel.find_by_id (TrialModel.trial_id row)
      (map (fun r => if TrialModel.trial_id r =? TrialModel.trial_id row
                     then row else r) rows)
    = Some row.
Proof.
  unfold TrialModel.find_by_id. intros rows row old.
  induction rows as [|r rows IH]; simpl; [discriminate|].
  destruct (TrialModel.trial_id r =? TrialModel.trial_id row) eqn:E; simpl.
  - now rewrite Z.eqb_refl.
  - rewrite E. exact IH.
Qed.

Lemma find_trial_other :
  forall (rows : list TrialModel.t) (row : TrialModel.t) (id : Z),
    id <> TrialModel.trial_id row ->
    TrialModel.find_by_id id
      (map (fun r => if TrialModel.trial_id r =? TrialModel.trial_id row
                     then row else r) rows)
    = TrialModel.find_by_id id rows.
Proof.
  unfold TrialModel.find_by_id. intros rows row id Hne.
  induction rows as [|r rows IH]; simpl; [reflexivity|].
  destruct (TrialModel.trial_id r =? TrialModel.trial_id row) eqn:E; simpl.
  - apply Z.eqb_eq in E. rewrite E.
    destruct (TrialModel.trial_id row =? id) eqn:E'.
    + apply Z.eqb_eq in E'. congruence.
    + exact IH.
  - destruct (TrialModel.trial_id r =? id); auto.
Qed.

Lemma find_trial_id :
  forall rows id trial,
    TrialModel.find_by_id id rows = Some trial -> TrialModel.trial_id trial = id.
Proof.
  unfold TrialModel.find_by_id. intros rows id trial H.
  apply find_some in H. now apply Z.eqb_eq.
Qed.

(** ** The state of a trial *)

(** What [set_trial_state] commits for a trial that exists. *)
Lemma set_trial_state_run :
  forall now id state db trial,
    TrialModel.find_by_id id (trials db) = Some trial ->
    let trial' :=
      TrialModel.mk (TrialModel.trial_id trial) (TrialModel.study_id trial)
        state (TrialModel.value trial) (TrialModel.user_attributes_json trial)
        (TrialModel.datetime_start trial)
        (if is_finished state then Some now
         else TrialModel.datetime_complete trial) in
    set_trial_state now id state db
    = (Ok tt,
       with_trials
         (map (fun r => if TrialModel.trial_id r =? id then trial' else r)
              (trials db))
         db).
Proof.
  intros now id state db trial Hfind. cbv zeta.
  pose proof (find_trial_id _ _ _ Hfind) as Hid. subst id.
  unfold set_trial_state, bind, strict, commit_trial. rewrite Hfind.
  destruct (is_finished state); reflexivity.
Qed.

(** C7: for every existing trial and every state [s], whatever the state
    the trial was in, [set_trial_state] returns, the trial is then in state
    [s], and its completion timestamp is the time of the call when [s] is
    COMPLETE or FAIL and is the one it had when [s] is RUNNING. *)
Theorem set_trial_state_overwrites :
  forall now id state db trial,
    TrialModel.find_by_id id (trials db) = Some trial ->
    exists db' trial',
      set_trial_state now id state db = (Ok tt, db')
      /\ TrialModel.find_by_id id (trials db') = Some trial'
      /\ TrialModel.state trial' = state
      /\ (state = COMPLETE \/ state = FAIL ->
          TrialModel.datetime_complete trial' = Some now)
      /\ (state = RUNNING ->
          TrialModel.datetime_complete trial'
          = TrialModel.datetime_complete trial).
Proof.
  intros now id state db trial Hfind.
  pose proof (find_trial_id _ _ _ Hfind) as Hid. subst id.
  eexists. eexists. split; [apply (set_trial_state_run now _ _ _ _ Hfind)|].
  split.
  - cbn [trials with_trials].
    match goal with
    | |- context [map (fun r => if _ =? _ then ?row else r)] =>
        apply (find_trial_rewritten (trials db) row trial)
    end.
    exact Hfind.
  - cbn. split; [reflexivity|]. split.
    + intros [-> | ->]; reflexivity.
    + intros ->. reflexivity.
Qed.

Lemma set_trial_state_overwrites_witness :
  exists db' trial',
    set_trial_state 200 1 COMPLETE Doubles.db1 = (Ok tt, db')
    /\ TrialModel.find_by_id 1 (trials db') = Some trial'
    /\ TrialModel.state trial' = COMPLETE
    /\ (COMPLETE = COMPLETE \/ COMPLETE = FAIL ->
        TrialModel.datetime_complete trial' = Some 200)
    /\ (COMPLETE = RUNNING ->
        TrialModel.datetime_complete trial'
        = TrialModel.datetime_complete Doubles.trial1).
Proof.
  apply (set_trial_state_overwrites 200 1 COMPLETE Doubles.db1 Doubles.trial1).
  reflexivity.
Defined.

(** The row of the trial after [set_trial_state], and what the call
    leaves alone. *)
Lemma set_trial_state_row :
  forall now id state db trial,
    TrialModel.find_by_id id (trials db) = Some trial ->
    exists db',
      set_trial_state now id state db = (Ok tt, db')
      /\ TrialModel.find_by_id id (trials db')
         = Some (TrialModel.mk
                   (TrialModel.trial_id trial) (TrialModel.study_id trial)
                   state (TrialModel.value trial)
                   (TrialModel.user_attributes_json trial)
                   (TrialModel.datetime_start trial)
                   (if is_finished state then Some now
                    else TrialModel.datetime_complete trial))
      /\ (forall id', id' <> id ->
            TrialModel.find_by_id id' (trials db')
            = TrialModel.find_by_id id' (trials db))
      /\ with_trials (trials db) db' = db.
Proof.
  intros now id state db trial Hfind.
  pose proof (find_trial_id _ _ _ Hfind) as Hid. subst id.
  eexists. split; [apply (set_trial_state_run now _ _ _ _ Hfind)|].
  cbn [trials with_trials]. split; [|split].
  - match goal with
    | |- context [map (fun r => if _ =? _ then ?row else r)] =>
        apply (find_trial_rewritten (trials db) row trial)
    end.
    exact Hfind.
  - intros id' Hne.
    match goal with
    | |- context [map (fun r => if _ =? _ then ?row else r)] =>
        apply (find_trial_other (trials db) row id')
    end.
    exact Hne.
  - destruct db; reflexivity.
Qed.

(** C9: for every existing trial, [set_trial_state] with RUNNING returns
    and changes nothing but the state of that trial: its row keeps every
    other column, the completion timestamp among them, the other trials
    and the other tables are as they were.  A trial that was set to a
    terminal state at time [done] and is then set back to RUNNING still
    carries [done] as its completion timestamp. *)
Theorem set_trial_state_running_keeps_completion :
  forall now id db trial,
    TrialModel.find_by_id id (trials db) = Some trial ->
    (exists db',
        set_trial_state now id RUNNING db = (Ok tt, db')
        /\ TrialModel.find_by_id id (trials db')
           = Some (TrialModel.set_state RUNNING trial)
        /\ TrialModel.datetime_complete (TrialModel.set_state RUNNING trial)
           = TrialModel.datetime_complete trial
        /\ (forall id', id' <> id ->
              TrialModel.find_by_id id' (trials db')
              = TrialModel.find_by_id id' (trials db))
        /\ with_trials (trials db) db' = db)
    /\ (forall done state,
          is_finished state = true ->
          exists db1 db2 trial2,
            set_trial_state done id state db = (Ok tt, db1)
            /\ set_trial_state now id RUNNING db1 = (Ok tt, db2)
            /\ TrialModel.find_by_id id (trials db2) = Some trial2
            /\ TrialModel.state trial2 = RUNNING
            /\ TrialModel.datetime_complete trial2 = Some done).
Proof.
  intros now id db trial Hfind. split.
  - destruct (set_trial_state_row now id RUNNING db trial Hfind)
      as (db' & Hrun & Hrow & Hothers & Hframe).
    exists db'. repeat split; assumption.
  - intros done state Hfin.
    destruct (set_trial_state_row done id state db trial Hfind)
      as (db1 & Hrun1 & Hrow1 & _).
    destruct (set_trial_state_row now id RUNNING db1 _ Hrow1)
      as (db2 & Hrun2 & Hrow2 & _).
    rewrite Hfin in *. cbn in Hrow2.
    eexists db1, db2, _. repeat split; eassumption || reflexivity.
Qed.

Lemma set_trial_state_running_keeps_completion_witness :
  (exists db',
      set_trial_state 300 1 RUNNING Doubles.db1 = (Ok tt, db')
      /\ TrialModel.find_by_id 1 (trials db')
         = Some (TrialModel.set_state RUNNING Doubles.trial1)
      /\ TrialModel.datetime_complete
           (TrialModel.set_state RUNNING Doubles.trial1)
         = TrialModel.datetime_complete Doubles.trial1
      /\ (forall id', id' <> 1 ->
            TrialModel.find_by_id id' (trials db')
            = TrialModel.find_by_id id' (trials Doubles.db1))
      /\ with_trials (trials Doubles.db1) db' = Doubles.db1)
  /\ (forall done state,
        is_finished state = true ->
        exists db1 db2 trial2,
          set_trial_state done 1 state Doubles.db1 = (Ok tt, db1)
          /\ set_trial_state 300 1 RUNNING db1 = (Ok tt, db2)
          /\ TrialModel.find_by_id 1 (trials db2) = Some trial2
          /\ TrialModel.state trial2 = RUNNING
          /\ TrialModel.datetime_complete trial2 = Some done).
Proof.
  apply (set_trial_state_running_keeps_completion
           300 1 Doubles.db1 Doubles.trial1).
  reflexivity.
Defined.

(** ** The objective value of a trial *)

Lemma set_trial_value_run :
  forall id value db trial,
    TrialModel.find_by_id id (trials db) = Some trial ->
    exists db',
      set_trial_value id value db = (Ok tt, db')
      /\ TrialModel.find_by_id id (trials db')
         = Some (TrialModel.set_value (Some value) trial).
Proof.
  intros id value db trial Hfind.
  pose proof (find_trial_id _ _ _ Hfind) as Hid. subst id.
  unfold set_trial_value, bind, strict, commit_trial. rewrite Hfind.
  eexists. split; [reflexivity|]. cbn [trials with_trials].
  apply (find_trial_rewritten
           (trials db) (TrialModel.set_value (Some value) trial) trial).
  exact Hfind.
Qed.

(** C2, as the code has it: [set_trial_value] does not verify anything.
    For every existing trial, whatever objective value it holds, the call
    returns and the trial then holds the value supplied; the call never
    raises [AssertionError]. *)
Theorem set_trial_value_overwrites :
  forall id value db trial,
    TrialModel.find_by_id id (trials db) = Some trial ->
    (exists db',
        set_trial_value id value db = (Ok tt, db')
        /\ TrialModel.find_by_id id (trials db')
           = Some (TrialModel.set_value (Some value) trial))
    /\ fst (set_trial_value id value db) <> Raise AssertionError.
Proof.
  intros id value db trial Hfind.
  destruct (set_trial_value_run id value db trial Hfind) as (db' & Hrun & Hrow).
  split; [now exists db'|]. rewrite Hrun. discriminate.
Qed.

Lemma set_trial_value_overwrites_witness :
  (exists db',
      set_trial_value 1 2%float Doubles.db1 = (Ok tt, db')
      /\ TrialModel.find_by_id 1 (trials db')
         = Some (TrialModel.set_value (Some 2%float) Doubles.trial1))
  /\ fst (set_trial_value 1 2%float Doubles.db1) <> Raise AssertionError.
Proof.
  apply (set_trial_value_overwrites 1 2%float Doubles.db1 Doubles.trial1).
  reflexivity.
Defined.

(** C2, as the claim states it, fails: a trial that holds the objective
    value 1.0 is given 2.0; the call returns and the trial holds 2.0. *)
Lemma set_trial_value_no_verification :
  let held := TrialModel.set_value (Some 1%float) Doubles.trial1 in
  let db := with_trials [held] Doubles.db1 in
  TrialModel.value held = Some 1%float
  /\ PrimFloat.eqb 1 2 = false
  /\ fst (set_trial_value 1 2%float db) = Ok tt
  /\ fst (set_trial_value 1 2%float db) <> Raise AssertionError
  /\ option_map TrialModel.value
       (TrialModel.find_by_id 1 (trials (snd (set_trial_value 1 2%float db))))
     = Some (Some 2%float).
Proof.
  cbv zeta. repeat split; try reflexivity. discriminate.
Qed.

(** ** Parameter values *)

(** Reading a table of a store that a commit has just built. *)
Ltac store_simpl :=
  cbn [foreign_keys studies study_user_attributes trials param_distributions
       trial_params trial_values version_info
       with_studies with_study_user_attributes with_trials
       with_param_distributions with_trial_params with_trial_values
       with_version_info].

Ltac store_simpl_in H :=
  cbn [foreign_keys studies study_user_attributes trials param_distributions
       trial_params trial_values version_info
       with_studies with_study_user_attributes with_trials
       with_param_distributions with_trial_params with_trial_values
       with_version_info] in H.

Lemma find_descriptor_absent :
  forall trial name rows,
    (forall d, In d rows ->
               TrialParamDistributionModel.trial_id d
               = TrialModel.trial_id trial ->
               TrialParamDistributionModel.param_name d <> name) ->
    TrialParamDistributionModel.find_by_trial_and_param_name trial name rows
    = None.
Proof.
  unfold TrialParamDistributionModel.find_by_trial_and_param_name.
  intros trial name rows Hnone.
  destruct (find _ rows) as [d|] eqn:E; [|reflexivity].
  apply find_some in E. destruct E as [Hin Hd].
  apply andb_true_iff in Hd. destruct Hd as [Hid Hname].
  apply Z.eqb_eq in Hid. apply String.eqb_eq in Hname.
  now destruct (Hnone d Hin Hid).
Qed.

(** C3: for every trial id and parameter name for which the store holds
    no descriptor, [set_trial_param] raises [NotFound] and commits
    nothing. *)
Theorem set_trial_param_requires_descriptor :
  forall id name value db,
    (forall d, In d (param_distributions db) ->
               TrialParamDistributionModel.trial_id d = id ->
               TrialParamDistributionModel.param_name d <> name) ->
    set_trial_param id name value db = (Raise NotFound, db).
Proof.
  intros id name value db Hnone.
  unfold set_trial_param, bind, strict.
  destruct (TrialModel.find_by_id id (trials db)) as [trial|] eqn:Htrial;
    [|reflexivity].
  pose proof (find_trial_id _ _ _ Htrial) as Hid. subst id.
  now rewrite (find_descriptor_absent trial name _ Hnone).
Qed.

Lemma set_trial_param_requires_descriptor_witness :
  set_trial_param 1 "y" 2%float Doubles.db1 = (Raise NotFound, Doubles.db1).
Proof.
  apply (set_trial_param_requires_descriptor 1 "y" 2%float Doubles.db1).
  intros d [<-|[]] _. simpl. discriminate.
Defined.

(** The first value recorded for a parameter is committed as a new row. *)
Lemma set_trial_param_first :
  forall id name v db trial d,
    TrialModel.find_by_id id (trials db) = Some trial ->
    TrialParamDistributionModel.find_by_trial_and_param_name
      trial name (param_distributions db) = Some d ->
    TrialParamModel.find_by_trial_and_param_name
      trial name (param_distributions db) (trial_params db) = None ->
    let row :=
      TrialParamModel.mk
        (fresh_id (map TrialParamModel.trial_param_id (trial_params db)))
        id (TrialParamDistributionModel.param_distribution_id d) v in
    set_trial_param id name v db
    = (Ok tt, with_trial_params (trial_params db ++ [row]) db)
    /\ TrialParamModel.find_by_trial_and_param_name
         trial name (param_distributions db) (trial_params db ++ [row])
       = Some row.
Proof.
  intros id name v db trial d Htrial Hd Hnone row.
  pose proof (find_trial_id _ _ _ Htrial) as Hid.
  unfold TrialParamModel.find_by_trial_and_param_name in Hnone |- *.
  rewrite Hd in Hnone |- *. rewrite Hid in Hnone |- *. split.
  - unfold set_trial_param, bind, strict, query, except_IntegrityError.
    rewrite Htrial, Hd.
    unfold TrialParamModel.find_by_trial_and_param_name.
    rewrite Hd, Hid, Hnone.
    unfold add_trial_param, references, has_trial, has_param_distribution.
    rewrite (find_existsb _ (trial_params db)), Hnone.
    rewrite (find_existsb _ (trials db)).
    unfold TrialModel.find_by_id in Htrial. rewrite Htrial.
    assert (Hex : existsb
              (fun d0 =>
                 TrialParamDistributionModel.param_distribution_id d0
                 =? TrialParamDistributionModel.param_distribution_id d)
              (param_distributions db) = true).
    { apply existsb_exists. exists d. split; [|apply Z.eqb_refl].
      unfold TrialParamDistributionModel.find_by_trial_and_param_name in Hd.
      now apply find_some in Hd. }
    rewrite Hex, !orb_true_r. reflexivity.
  - rewrite (find_snoc_absent _ _ row Hnone). cbn.
    now rewrite !Z.eqb_refl.
Qed.

(** A call for a parameter that has a recorded value compares and
    commits nothing. *)
Lemma set_trial_param_recorded :
  forall id name v db trial d p,
    TrialModel.find_by_id id (trials db) = Some trial ->
    TrialParamDistributionModel.find_by_trial_and_param_name
      trial name (param_distributions db) = Some d ->
    TrialParamModel.find_by_trial_and_param_name
      trial name (param_distributions db) (trial_params db) = Some p ->
    set_trial_param id name v db
    = (if py_float_eq (TrialParamModel.param_value p) v
       then Ok tt else Raise AssertionError, db).
Proof.
  intros id name v db trial d p Htrial Hd Hp.
  unfold set_trial_param, bind, strict, query.
  rewrite Htrial, Hd, Hp.
  destruct (py_float_eq (TrialParamModel.param_value p) v); reflexivity.
Qed.

(** C1, for the values that equal themselves: for every existing trial
    and parameter name with a registered descriptor and no differing value
    recorded, and every value [v] other than a NaN, [set_trial_param]
    returns and a value equal to [v] is then recorded; a second call with
    [v] returns and leaves the store as it is; a call with a value that
    the recorded one differs from raises [AssertionError] and leaves the
    store as it is. *)
Theorem set_trial_param_idempotent :
  forall id name v db trial d,
    TrialModel.find_by_id id (trials db) = Some trial ->
    TrialParamDistributionModel.find_by_trial_and_param_name
      trial name (param_distributions db) = Some d ->
    (forall p,
        TrialParamModel.find_by_trial_and_param_name
          trial name (param_distributions db) (trial_params db) = Some p ->
        py_float_eq (TrialParamModel.param_value p) v = true) ->
    py_float_eq v v = true ->
    exists db1 recorded,
      set_trial_param id name v db = (Ok tt, db1)
      /\ TrialParamModel.find_by_trial_and_param_name
           trial name (param_distributions db1) (trial_params db1)
         = Some recorded
      /\ py_float_eq (TrialParamModel.param_value recorded) v = true
      /\ set_trial_param id name v db1 = (Ok tt, db1)
      /\ (forall v2,
            py_float_eq (TrialParamModel.param_value recorded) v2 = false ->
            set_trial_param id name v2 db1 = (Raise AssertionError, db1)).
Proof.
  intros id name v db trial d Htrial Hd Hsame Hv.
  destruct (TrialParamModel.find_by_trial_and_param_name
              trial name (param_distributions db) (trial_params db))
    as [p|] eqn:Hp.
  - specialize (Hsame p eq_refl).
    pose proof (fun v2 =>
                  set_trial_param_recorded id name v2 db trial d p
                    Htrial Hd Hp) as Hrun.
    exists db, p. rewrite (Hrun v), Hsame. repeat split; try assumption.
    intros v2 Hne. now rewrite (Hrun v2), Hne.
  - destruct (set_trial_param_first id name v db trial d Htrial Hd Hp)
      as [Hfirst Hrow].
    set (row := TrialParamModel.mk
                  (fresh_id (map TrialParamModel.trial_param_id
                                 (trial_params db)))
                  id (TrialParamDistributionModel.param_distribution_id d) v)
      in *.
    pose proof (fun v2 =>
                  set_trial_param_recorded id name v2
                    (with_trial_params (trial_params db ++ [row]) db)
                    trial d row Htrial Hd Hrow) as Hrun.
    cbn [TrialParamModel.param_value row] in Hrun.
    exists (with_trial_params (trial_params db ++ [row]) db), row.
    split; [exact Hfirst|]. split; [exact Hrow|]. split; [exact Hv|].
    split.
    + now rewrite Hrun, Hv.
    + intros v2 Hne. cbn [TrialParamModel.param_value row] in Hne.
      now rewrite Hrun, Hne.
Qed.

Lemma set_trial_param_idempotent_witness :
  exists db1 recorded,
    set_trial_param 1 "x" 2%float Doubles.db1 = (Ok tt, db1)
    /\ TrialParamModel.find_by_trial_and_param_name
         Doubles.trial1 "x" (param_distributions db1) (trial_params db1)
       = Some recorded
    /\ py_float_eq (TrialParamModel.param_value recorded) 2 = true
    /\ set_trial_param 1 "x" 2%float db1 = (Ok tt, db1)
    /\ (forall v2,
          py_float_eq (TrialParamModel.param_value recorded) v2 = false ->
          set_trial_param 1 "x" v2 db1 = (Raise AssertionError, db1)).
Proof.
  apply (set_trial_param_idempotent
           1 "x" 2%float Doubles.db1 Doubles.trial1 Doubles.descriptor_x);
    try reflexivity.
  intros p Hp. discriminate Hp.
Defined.

(** C1, as the claim states it, fails at a NaN: the first call records
    it, and the second call with the same NaN raises [AssertionError]. *)
Lemma set_trial_param_nan_twice :
  let db := snd (set_trial_param 1 "x" nan Doubles.db1) in
  TrialParamDistributionModel.find_by_trial_and_param_name
    Doubles.trial1 "x" (param_distributions Doubles.db1)
  = Some Doubles.descriptor_x
  /\ fst (set_trial_param 1 "x" nan Doubles.db1) = Ok tt
  /\ option_map TrialParamModel.param_value
       (TrialParamModel.find_by_trial_and_param_name
          Doubles.trial1 "x" (param_distributions db) (trial_params db))
     = Some nan
  /\ set_trial_param 1 "x" nan db = (Raise AssertionError, db)
  /\ fst (set_trial_param 1 "x" nan db) <> Ok tt.
Proof.
  cbv zeta. repeat split; try reflexivity. discriminate.
Qed.

(** A value that does not equal itself, as a NaN: the first call for a
    parameter records it, and every later call with it raises
    [AssertionError] and leaves the store as it is. *)
Lemma set_trial_param_unequal_to_itself :
  forall id name v db trial d,
    TrialModel.find_by_id id (trials db) = Some trial ->
    TrialParamDistributionModel.find_by_trial_and_param_name
      trial name (param_distributions db) = Some d ->
    TrialParamModel.find_by_trial_and_param_name
      trial name (param_distributions db) (trial_params db) = None ->
    py_float_eq v v = false ->
    exists db1 recorded,
      set_trial_param id name v db = (Ok tt, db1)
      /\ TrialParamModel.find_by_trial_and_param_name
           trial name (param_distributions db1) (trial_params db1)
         = Some recorded
      /\ TrialParamModel.param_value recorded = v
      /\ set_trial_param id name v db1 = (Raise AssertionError, db1).
Proof.
  intros id name v db trial d Htrial Hd Hnone Hv.
  destruct (set_trial_param_first id name v db trial d Htrial Hd Hnone)
    as [Hfirst Hrow].
  set (row := TrialParamModel.mk
                (fresh_id (map TrialParamModel.trial_param_id
                               (trial_params db)))
                id (TrialParamDistributionModel.param_distribution_id d) v)
    in *.
  exists (with_trial_params (trial_params db ++ [row]) db), row.
  split; [exact Hfirst|]. split; [exact Hrow|]. split; [reflexivity|].
  rewrite (set_trial_param_recorded id name v
             (with_trial_params (trial_params db ++ [row]) db)
             trial d row Htrial Hd Hrow).
  cbn [TrialParamModel.param_value row]. now rewrite Hv.
Qed.

(** ** Creating a trial *)

Lemma find_trial_appended :
  forall (rows : list TrialModel.t) (row : TrialModel.t),
    TrialModel.trial_id row = fresh_id (map TrialModel.trial_id rows) ->
    TrialModel.find_by_id (TrialModel.trial_id row) (rows ++ [row]) = Some row.
Proof.
  intros rows row Hfresh. unfold TrialModel.find_by_id.
  rewrite find_snoc_absent; [now rewrite Z.eqb_refl|].
  destruct (find _ rows) as [r|] eqn:E; [|reflexivity].
  apply find_some in E. destruct E as [Hin Hid]. apply Z.eqb_eq in Hid.
  pose proof (fresh_id_above (map TrialModel.trial_id rows)
                (TrialModel.trial_id r) (in_map _ _ _ Hin)).
  lia.
Qed.

Lemma has_study_find :
  forall id db,
    has_study id db
    = match StudyModel.find_by_id id (studies db) with
      | Some _ => true
      | None => false
      end.
Proof. intros. apply find_existsb. Qed.

(** C4, where the code departs from it: [create_new_trial_id] looks no
    study up and leaves the study id to the commit.  For an existing study
    it commits a new trial row, in state RUNNING, with the attributes
    [{SYSTEM_ATTRS_KEY: {}}], no value and no completion timestamp, and
    returns its id.  For a study id that no study bears, the call raises
    and writes nothing when the store enforces foreign keys.  When the
    store does not enforce them, the call does not fail: it returns the id
    of a trial row that it commits for the missing study, where
    [set_study_user_attr], which checks the study first, raises [NotFound]
    and writes nothing. *)
Theorem create_new_trial_id_orphan_trial :
  forall {codec : JsonCodec} (KEY : string) (now : datetime) (study_id : Z)
         (db : DB),
    let row :=
      TrialModel.mk (fresh_id (map TrialModel.trial_id (trials db)))
        study_id RUNNING None (json_dumps (JDict [(KEY, JDict [])])) now None in
    let inserted :=
      create_new_trial_id KEY now study_id db
      = (Ok (TrialModel.trial_id row), with_trials (trials db ++ [row]) db)
      /\ TrialModel.find_by_id (TrialModel.trial_id row) (trials db ++ [row])
         = Some row in
    (StudyModel.find_by_id study_id (studies db) <> None -> inserted)
    /\ (StudyModel.find_by_id study_id (studies db) = None ->
        foreign_keys db = true ->
        exists e, create_new_trial_id KEY now study_id db = (Raise e, db))
    /\ (StudyModel.find_by_id study_id (studies db) = None ->
        foreign_keys db = false ->
        inserted
        /\ has_study (TrialModel.study_id row)
             (snd (create_new_trial_id KEY now study_id db)) = false
        /\ forall key value,
             set_study_user_attr study_id key value db = (Raise NotFound, db)).
Proof.
  intros codec KEY now study_id db row inserted.
  assert (Hrow : TrialModel.find_by_id (TrialModel.trial_id row)
                   (trials db ++ [row]) = Some row)
    by (apply find_trial_appended; reflexivity).
  subst inserted.
  assert (Hrun : create_new_trial_id KEY now study_id db
                 = if negb (references db (has_study study_id db))
                   then (Raise IntegrityError, db)
                   else (Ok (TrialModel.trial_id row),
                         with_trials (trials db ++ [row]) db)).
  { unfold create_new_trial_id, bind, add_trial.
    destruct (negb (references db (has_study study_id db))); reflexivity. }
  rewrite Hrun. unfold references.
  pose proof (has_study_find study_id db) as Hstudy.
  split; [|split].
  - intro Hsome. rewrite Hstudy.
    destruct (StudyModel.find_by_id study_id (studies db)); [|congruence].
    rewrite orb_true_r. split; [reflexivity|exact Hrow].
  - intros Hnone Hfk. rewrite Hnone in Hstudy. rewrite Hstudy, Hfk.
    exists IntegrityError. reflexivity.
  - intros Hnone Hfk. rewrite Hfk. cbn [negb orb snd].
    split; [split; [reflexivity|exact Hrow]|]. split.
    + unfold has_study in Hstudy |- *.
      cbn [with_trials studies TrialModel.study_id row].
      rewrite Hstudy, Hnone. reflexivity.
    + intros key value. unfold set_study_user_attr, bind, strict.
      rewrite Hnone. reflexivity.
Qed.

Lemma create_new_trial_id_orphan_trial_witness :
  let lax := empty_db false in
  let row :=
    TrialModel.mk 1 42 RUNNING None
      (json_dumps (JDict [(Doubles.KEY, JDict [])])) 500 None in
  has_study 42 lax = false
  /\ create_new_trial_id Doubles.KEY 500 42 lax
     = (Ok 1, with_trials [row] lax)
  /\ has_study 42 (with_trials [row] lax) = false
  /\ set_study_user_attr 42 "note" JNull lax = (Raise NotFound, lax).
Proof.
  cbv zeta. split; [reflexivity|].
  destruct (create_new_trial_id_orphan_trial Doubles.KEY 500 42 (empty_db false))
    as (_ & _ & Horphan).
  destruct (Horphan eq_refl eq_refl) as ((Hrun & _) & Hstudy & Hsibling).
  split; [exact Hrun|]. split; [exact Hstudy|]. exact (Hsibling "note" JNull).
Defined.

(** ** The schema version *)

(** C5: when the store holds a version row, [__init__] raises
    [RuntimeError], returning no storage object and writing nothing, if
    the stored schema version differs from [SCHEMA_VERSION], and returns
    the storage object if the two are equal. *)
Theorem init_checks_schema_version :
  forall (SCHEMA_VERSION : Z) (version url : string) (db : DB)
         (stored : VersionInfoModel.t),
    version_info db = Some stored ->
    (VersionInfoModel.schema_version stored <> SCHEMA_VERSION ->
     __init__ SCHEMA_VERSION version url db = (Raise RuntimeError, db))
    /\ (VersionInfoModel.schema_version stored = SCHEMA_VERSION ->
        __init__ SCHEMA_VERSION version url db
        = (Ok {| engine_url := url |}, db)).
Proof.
  intros SV version url db stored Hstored.
  unfold __init__, _check_table_schema_compatibility, bind, query.
  rewrite Hstored. split; intro Hv.
  - apply Z.eqb_neq in Hv. rewrite Hv. reflexivity.
  - apply Z.eqb_eq in Hv. rewrite Hv. reflexivity.
Qed.

Lemma init_checks_schema_version_witness :
  __init__ 2 "0.0.2" "sqlite:///example.db" Doubles.db1
  = (Raise RuntimeError, Doubles.db1)
  /\ __init__ 1 "0.0.2" "sqlite:///example.db" Doubles.db1
     = (Ok {| engine_url := "sqlite:///example.db" |}, Doubles.db1).
Proof.
  split.
  - apply (init_checks_schema_version
             2 "0.0.2" "sqlite:///example.db" Doubles.db1
             (VersionInfoModel.mk Doubles.SCHEMA Doubles.VERSION));
      [reflexivity|discriminate].
  - apply (init_checks_schema_version
             1 "0.0.2" "sqlite:///example.db" Doubles.db1
             (VersionInfoModel.mk Doubles.SCHEMA Doubles.VERSION));
      reflexivity.
Defined.

(** ** Dictionaries *)

Section DictFacts.
Context {K V : Type}.
Variable eqb : K -> K -> bool.
Hypothesis eqb_spec : forall a b, reflect (a = b) (eqb a b).

Lemma dict_get_set_same :
  forall (k : K) (v : V) d, dict_get eqb k (dict_set eqb k v d) = Some v.
Proof.
  intros k v d. induction d as [|[k' v'] d IH]; simpl.
  - destruct (eqb_spec k k); congruence.
  - destruct (eqb k k') eqn:E; simpl; rewrite E; auto.
Qed.

Lemma dict_get_set_other :
  forall (k k' : K) (v : V) d,
    k <> k' -> dict_get eqb k (dict_set eqb k' v d) = dict_get eqb k d.
Proof.
  intros k k' v d Hne. induction d as [|[k0 v0] d IH]; simpl.
  - destruct (eqb_spec k k'); congruence.
  - destruct (eqb_spec k' k0) as [->|Hk]; simpl.
    + destruct (eqb_spec k k0); congruence.
    + now rewrite IH.
Qed.

(** A loop [for a in l: d[key(a)] = val(a)]. *)
Section Loop.
Context {A : Type}.
Variables (key : A -> K) (val : A -> V).

Lemma assign_all_absent :
  forall l d k,
    ~ In k (map key l) ->
    dict_get eqb k
      (fold_left (fun d a => dict_set eqb (key a) (val a) d) l d)
    = dict_get eqb k d.
Proof.
  induction l as [|a l IH]; intros d k Hk; simpl.
  - reflexivity.
  - simpl in Hk. rewrite IH by tauto.
    apply dict_get_set_other. intro; subst; tauto.
Qed.

Lemma assign_all_present :
  forall l d a,
    NoDup (map key l) -> In a l ->
    dict_get eqb (key a)
      (fold_left (fun d a => dict_set eqb (key a) (val a) d) l d)
    = Some (val a).
Proof.
  induction l as [|b l IH]; intros d a Hnd Hin; [contradiction|].
  simpl in Hnd. inversion Hnd as [|? ? Hb Hnd']; subst.
  destruct Hin as [->|Hin]; simpl.
  - rewrite assign_all_absent by assumption.
    apply dict_get_set_same.
  - apply IH; assumption.
Qed.
End Loop.
End DictFacts.

Lemma fold_left_pair :
  forall {A X Y} (f : X -> A -> X) (g : Y -> A -> Y) (l : list A) x y,
    fold_left (fun '(x, y) a => (f x a, g y a)) l (x, y)
    = (fold_left f l x, fold_left g l y).
Proof.
  intros A X Y f g l. induction l as [|a l IH]; intros x y; simpl; auto.
Qed.

(** [defaultdict(list)]: the list under a key collects, in order, what was
    appended under it. *)
Lemma defaultdict_get_append :
  forall {V} (k k' : Z) (x : V) d,
    defaultdict_get k (defaultdict_append k' x d)
    = if k' =? k then defaultdict_get k d ++ [x] else defaultdict_get k d.
Proof.
  intros V k k' x d. unfold defaultdict_get, defaultdict_append.
  destruct (Z.eqb_spec k' k) as [->|Hne].
  - destruct (dict_get Z.eqb k d) as [l|] eqn:E;
      now rewrite (dict_get_set_same Z.eqb Z.eqb_spec).
  - destruct (dict_get Z.eqb k' d) as [l|] eqn:E;
      rewrite (dict_get_set_other Z.eqb Z.eqb_spec) by congruence;
      reflexivity.
Qed.

Lemma defaultdict_grouped :
  forall {A} (tid : A -> Z) (l : list A) d k,
    defaultdict_get k (fold_left (fun d a => defaultdict_append (tid a) a d) l d)
    = defaultdict_get k d ++ filter (fun a => tid a =? k) l.
Proof.
  intros A tid l. induction l as [|a l IH]; intros d k; simpl.
  - now rewrite app_nil_r.
  - rewrite IH, defaultdict_get_append.
    destruct (tid a =? k); [now rewrite <- app_assoc|reflexivity].
Qed.

(** ** The assembler *)

Section Assembler.
Context {codec : JsonCodec} {dists : Distributions}.

(** The two parameter maps of an aggregate are the two dictionaries that
    the loop over the parameter rows of its trial fills. *)
Lemma merged_params :
  forall trials trial_params values agg,
    In agg (_merge_trials_orm trials trial_params values) ->
    let mine :=
      filter (fun p => TrialParam.trial_id p =? Trial.trial_id agg)
             trial_params in
    Trial.params agg
    = fold_left
        (fun d p =>
           dict_set String.eqb (TrialParam.param_name p)
             (to_external_repr
                (json_to_distribution
                   (TrialParamDistributionModel.distribution_json
                      (TrialParam.param_distribution p)))
                (TrialParam.param_value p))
             d)
        mine []
    /\ Trial.params_in_internal_repr agg
       = fold_left
           (fun d p => dict_set String.eqb (TrialParam.param_name p)
                                (TrialParam.param_value p) d)
           mine [].
Proof.
  intros trials trial_params values agg Hin.
  unfold _merge_trials_orm in Hin. apply in_map_iff in Hin.
  destruct Hin as ([id trial] & <- & _).
  rewrite defaultdict_grouped. cbn [defaultdict_get dict_get app].
  match goal with
  | |- context [fold_left _ ?l (@nil ?X, @nil ?Y)] =>
      change (fold_left _ l (@nil X, @nil Y))
        with (fold_left
                (fun '(x, y) p =>
                   (dict_set String.eqb (TrialParam.param_name p)
                             (to_external_repr
                                (json_to_distribution
                                   (TrialParamDistributionModel.distribution_json
                                      (TrialParam.param_distribution p)))
                                (TrialParam.param_value p))
                             x,
                    dict_set String.eqb (TrialParam.param_name p)
                             (TrialParam.param_value p) y))
                l (@nil X, @nil Y))
  end.
  rewrite fold_left_pair. cbn. split; reflexivity.
Qed.
End Assembler.

(** When no two parameter rows of the trial of an aggregate bear the same
    name, each of them is in the two maps of the aggregate. *)
Lemma merged_params_distinct_names :
  forall {codec : JsonCodec} {dists : Distributions}
         trials trial_params values agg,
    In agg (_merge_trials_orm trials trial_params values) ->
    NoDup (map TrialParam.param_name
               (filter (fun p => TrialParam.trial_id p =? Trial.trial_id agg)
                       trial_params)) ->
    forall p,
      In p trial_params ->
      TrialParam.trial_id p = Trial.trial_id agg ->
      dict_get String.eqb (TrialParam.param_name p) (Trial.params agg)
      = Some (to_external_repr
                (json_to_distribution
                   (TrialParamDistributionModel.distribution_json
                      (TrialParam.param_distribution p)))
                (TrialParam.param_value p))
      /\ dict_get String.eqb (TrialParam.param_name p)
                  (Trial.params_in_internal_repr agg)
         = Some (TrialParam.param_value p).
Proof.
  intros codec dists trials trial_params values agg Hagg Hnodup p Hp Htrial.
  destruct (merged_params trials trial_params values agg Hagg)
    as [Hext Hint].
  assert (Hmine : In p (filter (fun p => TrialParam.trial_id p
                                         =? Trial.trial_id agg)
                               trial_params))
    by (apply filter_In; split; [assumption|now apply Z.eqb_eq]).
  rewrite Hext, Hint. split.
  - apply (assign_all_present String.eqb String.eqb_spec
             TrialParam.param_name
             (fun p => to_external_repr
                         (json_to_distribution
                            (TrialParamDistributionModel.distribution_json
                               (TrialParam.param_distribution p)))
                         (TrialParam.param_value p))
             _ [] p Hnodup Hmine).
  - apply (assign_all_present String.eqb String.eqb_spec
             TrialParam.param_name TrialParam.param_value
             _ [] p Hnodup Hmine).
Qed.

(** A trial with one parameter row for [x]. *)
Lemma merged_params_one_row :
  forall {codec : JsonCodec} {dists : Distributions}
         trial descriptor row decoded,
    TrialParamModel.trial_id row = TrialModel.trial_id trial ->
    TrialParamDistributionModel.param_name descriptor = "x" ->
    to_external_repr
      (json_to_distribution
         (TrialParamDistributionModel.distribution_json descriptor))
      (TrialParamModel.param_value row) = decoded ->
    map (fun agg => (Trial.params agg, Trial.params_in_internal_repr agg))
        (_merge_trials_orm [trial] [TrialParam.mk row descriptor] [])
    = [([("x", decoded)], [("x", TrialParamModel.param_value row)])].
Proof.
  intros codec dists trial descriptor [pid tid did v] decoded Htid Hname Hdec.
  cbn in Htid, Hdec. subst tid decoded.
  unfold _merge_trials_orm, defaultdict_append, defaultdict_get,
    TrialParam.trial_id, TrialParam.param_name, TrialParam.param_value.
  cbn. rewrite Z.eqb_refl. cbn. rewrite Hname. reflexivity.
Qed.

(** The scenario of the specification, through the storage: a study, a
    trial, a doubling descriptor for [x] and the value 2.0. *)
Example scenario_one_trial :
  exists s db0 t db1 db2 db3,
    create_new_study_id Doubles.KEY ["8c1e"]
      (snd (__init__ Doubles.SCHEMA Doubles.VERSION "sqlite://" (empty_db true)))
    = Some (Ok s, db0)
    /\ create_new_trial_id Doubles.KEY 100 s db0 = (Ok t, db1)
    /\ set_trial_param_distribution t "x" Doubles.Doubling db1 = (Ok tt, db2)
    /\ set_trial_param t "x" 2%float db2 = (Ok tt, db3)
    /\ option_map
         (map (fun agg => (Trial.params agg, Trial.params_in_internal_repr agg)))
         (match fst (get_all_trials s db3) with
          | Ok aggs => Some aggs
          | Raise _ => None
          end)
       = Some [([("x", 4%float)], [("x", 2%float)])].
Proof.
  do 6 eexists. repeat split; vm_compute; reflexivity.
Qed.

(** ** Studies *)

(** Calls that leave the studies and their attributes alone compose. *)
Lemma keeps_studies_bind :
  forall {A B} (m : M A) (k : A -> M B),
    keeps_studies m -> (forall a, keeps_studies (k a)) ->
    keeps_studies (bind m k).
Proof.
  intros A B m k Hm Hk db. unfold bind.
  specialize (Hm db). destruct (m db) as [[a|e] db']; cbn [snd] in *.
  - destruct Hm as [Hs0 Ha0]. destruct (Hk a db') as [Hs Ha].
    split; congruence.
  - exact Hm.
Qed.

Lemma keeps_studies_except :
  forall (m handler : M unit),
    keeps_studies m -> keeps_studies handler ->
    keeps_studies (except_IntegrityError m handler).
Proof.
  intros m handler Hm Hh db. unfold except_IntegrityError.
  specialize (Hm db). destruct (m db) as [[a|e] db']; cbn [snd] in *;
    [exact Hm|].
  destruct e; try exact Hm.
  destruct Hm as [Hs0 Ha0]. destruct (Hh db') as [Hs Ha]. split; congruence.
Qed.

Ltac keeps_leaf :=
  let db := fresh "db" in
  intro db;
  unfold ret, raise, rollback, query, strict, commit_trial, add_trial,
    add_trial_param_distribution, add_trial_param, add_trial_value,
    add_version_info;
  repeat match goal with
         | |- context [match ?x with _ => _ end] => destruct x
         end;
  split; reflexivity.

Ltac keeps_studies_tac :=
  repeat first
    [ apply keeps_studies_bind; [|intro]
    | apply keeps_studies_except
    | match goal with
      | |- keeps_studies (match ?x with _ => _ end) => destruct x
      end
    | progress cbv zeta
    | keeps_leaf ].

Lemma keeps_studies_init :
  forall SV version url, keeps_studies (__init__ SV version url).
Proof.
  intros. unfold __init__, _check_table_schema_compatibility.
  keeps_studies_tac.
Qed.

Lemma keeps_studies_set_trial_param_distribution :
  forall {dists : Distributions} id name d,
    keeps_studies (set_trial_param_distribution id name d).
Proof. intros. unfold set_trial_param_distribution. keeps_studies_tac. Qed.

Lemma keeps_studies_create_new_trial_id :
  forall {codec : JsonCodec} KEY now id,
    keeps_studies (create_new_trial_id KEY now id).
Proof. intros. unfold create_new_trial_id. keeps_studies_tac. Qed.

Lemma keeps_studies_set_trial_state :
  forall now id state, keeps_studies (set_trial_state now id state).
Proof. intros. unfold set_trial_state. keeps_studies_tac. Qed.

Lemma keeps_studies_set_trial_param :
  forall id name v, keeps_studies (set_trial_param id name v).
Proof. intros. unfold set_trial_param. keeps_studies_tac. Qed.

Lemma keeps_studies_set_trial_value :
  forall id v, keeps_studies (set_trial_value id v).
Proof. intros. unfold set_trial_value. keeps_studies_tac. Qed.

Lemma keeps_studies_set_trial_intermediate_value :
  forall id step v, keeps_studies (set_trial_intermediate_value id step v).
Proof. intros. unfold set_trial_intermediate_value. keeps_studies_tac. Qed.

Lemma keeps_studies_set_trial_user_attr :
  forall {codec : JsonCodec} id key value,
    keeps_studies (set_trial_user_attr id key value).
Proof. intros. unfold set_trial_user_attr. keeps_studies_tac. Qed.

Lemma studies_ok_kept :
  forall db db',
    studies db' = studies db ->
    study_user_attributes db' = study_user_attributes db ->
    studies_ok db -> studies_ok db'.
Proof.
  unfold studies_ok, has_study. intros db db' Hs Ha [Hnd Hfk].
  rewrite Hs, Ha. split; assumption.
Qed.

Lemma NoDup_snoc :
  forall {A} (l : list A) (x : A), NoDup l -> ~ In x l -> NoDup (l ++ [x]).
Proof.
  intros A l x Hnd Hx. induction Hnd as [|y l Hy Hnd IH]; simpl.
  - constructor; [intros []|constructor].
  - constructor.
    + rewrite in_app_iff. simpl in *. intuition congruence.
    + apply IH. simpl in Hx. tauto.
Qed.

Lemma has_study_appended :
  forall id row db,
    has_study id db = true ->
    has_study id (with_studies (studies db ++ [row]) db) = true.
Proof.
  unfold has_study. intros id row db H. store_simpl.
  rewrite existsb_app, H. reflexivity.
Qed.

Lemma set_study_user_attr_ok :
  forall {codec : JsonCodec} id key value db,
    studies_ok db -> studies_ok (snd (set_study_user_attr id key value db)).
Proof.
  intros codec id key value db [Hnd Hfk].
  unfold set_study_user_attr, bind, strict, query.
  destruct (StudyModel.find_by_id id (studies db)) as [study|] eqn:Hstudy;
    [|split; assumption].
  destruct (StudyUserAttributeModel.find_by_study_id_and_key _ _ _)
    as [attribute|] eqn:Hattr.
  - unfold commit_study_user_attribute, studies_ok, has_study.
    cbn [snd]. store_simpl. split; [assumption|].
    intros a Ha. apply in_map_iff in Ha. destruct Ha as (a0 & <- & Ha0).
    destruct (_ =? _).
    + apply find_some in Hattr. apply (Hfk attribute), Hattr.
    + apply (Hfk a0 Ha0).
  - unfold add_study_user_attribute.
    destruct (_ || _); [split; assumption|].
    unfold studies_ok, has_study. cbn [snd]. store_simpl.
    split; [assumption|].
    intros a Ha. apply in_app_iff in Ha. destruct Ha as [Ha|[<-|[]]].
    + apply (Hfk a Ha).
    + cbn. fold (has_study id db). rewrite has_study_find, Hstudy.
      reflexivity.
Qed.

Lemma add_study_ok :
  forall uuid db, studies_ok db -> studies_ok (snd (add_study uuid db)).
Proof.
  intros uuid db [Hnd Hfk]. unfold add_study.
  destruct (existsb _ (studies db)) eqn:Hex; [split; assumption|].
  cbn [snd]. split.
  - store_simpl. rewrite map_app. apply NoDup_snoc; [assumption|].
    cbn. intro Hin. apply in_map_iff in Hin. destruct Hin as (s & Hs & Hin).
    assert (existsb (fun s => String.eqb (StudyModel.study_uuid s) uuid)
                    (studies db) = true) as Htrue
      by (apply existsb_exists; exists s; split;
          [assumption|now apply String.eqb_eq]).
    congruence.
  - intros a Ha. apply has_study_appended. exact (Hfk a Ha).
Qed.

Lemma create_new_study_id_ok :
  forall {codec : JsonCodec} KEY draws db r db',
    studies_ok db ->
    create_new_study_id KEY draws db = Some (r, db') -> studies_ok db'.
Proof.
  intros codec KEY draws db r db' Hok Hrun. unfold create_new_study_id in Hrun.
  destruct (new_study_uuid draws (studies db)) as [uuid|]; [|discriminate].
  injection Hrun as Hrun. apply (f_equal snd) in Hrun. cbn [snd] in Hrun.
  subst db'. unfold bind at 1.
  pose proof (add_study_ok uuid db Hok) as Hadded.
  destruct (add_study uuid db) as [[study|e] db1]; cbn [snd] in *;
    [|assumption].
  unfold bind at 1.
  pose proof (set_study_user_attr_ok (StudyModel.study_id study) KEY
                (JDict []) db1 Hadded) as Hattr.
  destruct (set_study_user_attr _ _ _ db1) as [[[]|e] db2]; cbn [snd] in *;
    assumption.
Qed.

(** Every store that the storage builds keeps its studies in order. *)
Lemma reachable_studies_ok :
  forall {codec : JsonCodec} {dists : Distributions} KEY SV version db,
    reachable KEY SV version db -> studies_ok db.
Proof.
  intros codec dists KEY SV version db Hreach.
  induction Hreach as [fk|c db db' Hreach IH Hafter].
  - split; [constructor|intros a []].
  - destruct c; cbn [after] in Hafter;
      try (injection Hafter as <-;
           match goal with
           | |- studies_ok (snd (?m db)) =>
               assert (Hkeeps : keeps_studies m)
           end;
           [ first [ apply keeps_studies_init
                   | apply keeps_studies_set_trial_param_distribution
                   | apply keeps_studies_create_new_trial_id
                   | apply keeps_studies_set_trial_state
                   | apply keeps_studies_set_trial_param
                   | apply keeps_studies_set_trial_value
                   | apply keeps_studies_set_trial_intermediate_value
                   | apply keeps_studies_set_trial_user_attr ]
           | destruct (Hkeeps db) as [Hs Ha];
             exact (studies_ok_kept _ _ Hs Ha IH) ]).
    + destruct (create_new_study_id KEY draws db) as [[r db1]|] eqn:Hrun;
        [|discriminate].
      injection Hafter as <-.
      exact (create_new_study_id_ok KEY draws db r db1 IH Hrun).
    + injection Hafter as <-. now apply set_study_user_attr_ok.
Qed.

Lemma find_present :
  forall {A} (f : A -> bool) (l : list A) (x : A),
    In x l -> f x = true -> exists y, find f l = Some y.
Proof.
  intros A f l x Hin Hfx. destruct (find f l) as [y|] eqn:E; [now exists y|].
  rewrite (find_none f l E x Hin) in Hfx. discriminate.
Qed.

Lemma NoDup_map_eq :
  forall {A B} (f : A -> B) (l : list A) (x y : A),
    NoDup (map f l) -> In x l -> In y l -> f x = f y -> x = y.
Proof.
  intros A B f l x y. induction l as [|a l IH]; intros Hnd Hx Hy Hf;
    [contradiction|].
  simpl in Hnd. inversion Hnd as [|? ? Ha Hnd']; subst.
  destruct Hx as [->|Hx], Hy as [->|Hy]; auto.
  - exfalso. apply Ha. rewrite Hf. now apply in_map.
  - exfalso. apply Ha. rewrite <- Hf. now apply in_map.
Qed.



Lemma find_study_appended :
  forall (rows : list StudyModel.t) (uuid : string),
    let row := StudyModel.mk (fresh_id (map StudyModel.study_id rows)) uuid in
    StudyModel.find_by_id (StudyModel.study_id row) (rows ++ [row]) = Some row.
Proof.
  intros rows uuid row. unfold StudyModel.find_by_id.
  rewrite find_snoc_absent; [now rewrite Z.eqb_refl|].
  destruct (find _ rows) as [s|] eqn:E; [|reflexivity].
  apply find_some in E. destruct E as [Hin Hid]. apply Z.eqb_eq in Hid.
  pose proof (fresh_id_above (map StudyModel.study_id rows)
                (StudyModel.study_id s) (in_map _ _ _ Hin)) as Hlt.
  subst row. cbn [StudyModel.study_id] in Hid. lia.
Qed.





Lemma db_study_reachable : reachable KEY SCHEMA VERSION db_study.
Proof.
  apply (reachable_after KEY SCHEMA VERSION (CreateNewStudyId ["8c1e"])
           (empty_db true) db_study).
  - apply reachable_blank.
  - reflexivity.
Qed.


(** C10: in every store that the storage has built, for every id that no
    study bears, [get_study_user_attrs] returns the empty dictionary,
    where [get_study_uuid_from_id] raises [NotFound]; and
    [get_study_id_from_uuid] raises [NotFound] for every identifier that
    no study bears. *)
Theorem get_study_user_attrs_unknown_study :
  forall {codec : JsonCodec} {dists : Distributions}
         (KEY : string) (SV : Z) (version : string) (db : DB) (id : Z),
    reachable KEY SV version db ->
    StudyModel.find_by_id id (studies db) = None ->
    get_study_user_attrs id db = (Ok [], db)
    /\ get_study_uuid_from_id id db = (Raise NotFound, db)
    /\ (forall uuid,
          StudyModel.find_by_uuid uuid (studies db) = None ->
          get_study_id_from_uuid uuid db = (Raise NotFound, db)).
Proof.
  intros codec dists KEY SV version db id Hreach Hnone.
  destruct (reachable_studies_ok KEY SV version db Hreach) as [_ Hfk].
  split; [|split].
  - unfold get_study_user_attrs, bind, query, ret.
    replace (StudyUserAttributeModel.where_study_id id
               (study_user_attributes db)) with
      (@nil StudyUserAttributeModel.t); [reflexivity|].
    symmetry. unfold StudyUserAttributeModel.where_study_id.
    destruct (filter _ (study_user_attributes db)) as [|a l] eqn:E;
      [reflexivity|].
    assert (Ha : In a (filter
                         (fun a => StudyUserAttributeModel.study_id a =? id)
                         (study_user_attributes db)))
      by (rewrite E; left; reflexivity).
    apply filter_In in Ha. destruct Ha as [Hin Hid]. apply Z.eqb_eq in Hid.
    specialize (Hfk a Hin). rewrite Hid, has_study_find, Hnone in Hfk.
    discriminate.
  - unfold get_study_uuid_from_id, bind, strict. now rewrite Hnone.
  - intros uuid Huuid. unfold get_study_id_from_uuid, bind, strict.
    now rewrite Huuid.
Qed.

Lemma get_study_user_attrs_unknown_study_witness :
  get_study_user_attrs 7 db_study = (Ok [], db_study)
  /\ get_study_uuid_from_id 7 db_study = (Raise NotFound, db_study)
  /\ (forall uuid,
        StudyModel.find_by_uuid uuid (studies db_study) = None ->
        get_study_id_from_uuid uuid db_study = (Raise NotFound, db_study)).
Proof.
  apply (get_study_user_attrs_unknown_study KEY SCHEMA VERSION db_study 7).
  - exact db_study_reachable.
  - reflexivity.
Defined.


(** * More of the storage *)

(** ** Every call is a sequence of commits *)

Lemma writes_one : forall db db', write db db' -> writes db db'.
Proof. intros db db' H. exact (writes_more db db db' (writes_none db) H). Qed.

Lemma writes_trans :
  forall db1 db2 db3, writes db1 db2 -> writes db2 db3 -> writes db1 db3.
Proof.
  intros db1 db2 db3 H12 H23. induction H23 as [|db2 db3 db4 _ IH Hw].
  - exact H12.
  - exact (writes_more _ _ _ (IH H12) Hw).
Qed.

Lemma find_trial_in :
  forall id rows trial,
    TrialModel.find_by_id id rows = Some trial ->
    In trial rows /\ TrialModel.trial_id trial = id.
Proof.
  unfold TrialModel.find_by_id. intros id rows trial H.
  apply find_some in H. destruct H as [Hin Hid]. apply Z.eqb_eq in Hid.
  split; assumption.
Qed.

Lemma find_descriptor_in :
  forall trial name rows d,
    TrialParamDistributionModel.find_by_trial_and_param_name trial name rows
    = Some d ->
    In d rows
    /\ TrialParamDistributionModel.trial_id d = TrialModel.trial_id trial
    /\ TrialParamDistributionModel.param_name d = name.
Proof.
  unfold TrialParamDistributionModel.find_by_trial_and_param_name.
  intros trial name rows d H. apply find_some in H. destruct H as [Hin Hd].
  apply andb_true_iff in Hd. destruct Hd as [Hid Hname].
  apply Z.eqb_eq in Hid. apply String.eqb_eq in Hname. auto.
Qed.

Lemma writes_commit_trial :
  forall db trial row,
    TrialModel.find_by_id (TrialModel.trial_id trial) (trials db) = Some trial ->
    TrialModel.trial_id row = TrialModel.trial_id trial ->
    TrialModel.study_id row = TrialModel.study_id trial ->
    TrialModel.datetime_start row = TrialModel.datetime_start trial ->
    writes db (snd (commit_trial row db)).
Proof.
  intros db trial row Hin Hid Hstudy Hstart. apply writes_one.
  exact (write_trial_columns db trial row Hin Hid Hstudy Hstart).
Qed.

Lemma writes_init :
  forall SV version url db, writes db (snd (__init__ SV version url db)).
Proof.
  intros SV version url db.
  unfold __init__, _check_table_schema_compatibility, bind, query.
  destruct (version_info db) as [stored|] eqn:Hstored.
  - destruct (negb _); apply writes_none.
  - unfold except_IntegrityError, add_version_info. rewrite Hstored.
    cbn [snd]. apply writes_one. now apply write_version_info.
Qed.

Lemma writes_set_study_user_attr :
  forall {codec : JsonCodec} id key value db,
    writes db (snd (set_study_user_attr id key value db)).
Proof.
  intros codec id key value db.
  unfold set_study_user_attr, bind, strict, query.
  destruct (StudyModel.find_by_id id (studies db)) as [study|] eqn:Hstudy;
    [|apply writes_none].
  destruct (StudyUserAttributeModel.find_by_study_id_and_key _ _ _)
    as [attribute|] eqn:Hattr.
  - apply writes_one.
    unfold StudyUserAttributeModel.find_by_study_id_and_key in Hattr.
    apply find_some in Hattr.
    exact (write_study_user_attribute_value db attribute (json_dumps value)
             (proj1 Hattr)).
  - unfold add_study_user_attribute.
    destruct (_ || _) eqn:Hcheck; [apply writes_none|].
    apply writes_one. apply write_study_user_attribute; [|exact Hattr].
    rewrite has_study_find, Hstudy. reflexivity.
Qed.

Lemma writes_create_new_study_id :
  forall {codec : JsonCodec} KEY draws db r db',
    create_new_study_id KEY draws db = Some (r, db') -> writes db db'.
Proof.
  intros codec KEY draws db r db' Hrun. unfold create_new_study_id in Hrun.
  destruct (new_study_uuid draws (studies db)) as [uuid|] eqn:Huuid;
    [|discriminate].
  injection Hrun as Hrun. apply (f_equal snd) in Hrun. cbn [snd] in Hrun.
  subst db'. unfold bind at 1. unfold add_study.
  destruct (existsb _ (studies db)) eqn:Hex; [apply writes_none|].
  unfold bind at 1.
  set (row := StudyModel.mk (fresh_id (map StudyModel.study_id (studies db)))
                            uuid).
  pose proof (writes_set_study_user_attr
                (StudyModel.study_id row) KEY (JDict [])
                (with_studies (studies db ++ [row]) db)) as Hattr.
  assert (Hstudy : writes db (with_studies (studies db ++ [row]) db)).
  { apply writes_one. apply write_study.
    unfold StudyModel.find_by_uuid.
    rewrite find_existsb in Hex. destruct (find _ (studies db)); congruence. }
  destruct (set_study_user_attr _ _ _ _) as [[[]|e] db2]; cbn [snd] in *;
    exact (writes_trans _ _ _ Hstudy Hattr).
Qed.

Lemma writes_set_trial_param_distribution :
  forall {dists : Distributions} id name d db,
    writes db (snd (set_trial_param_distribution id name d db)).
Proof.
  intros dists id name d db.
  unfold set_trial_param_distribution, add_trial_param_distribution.
  destruct (existsb _ (param_distributions db)) eqn:Hex;
    [apply writes_none|].
  cbn [orb]. destruct (negb _); [apply writes_none|].
  apply writes_one. now apply write_trial_param_distribution.
Qed.

Lemma writes_create_new_trial_id :
  forall {codec : JsonCodec} KEY now id db,
    writes db (snd (create_new_trial_id KEY now id db)).
Proof.
  intros codec KEY now id db. unfold create_new_trial_id, bind, add_trial.
  destruct (negb _); [apply writes_none|].
  apply writes_one. apply write_trial.
Qed.

Lemma writes_set_trial_state :
  forall now id state db, writes db (snd (set_trial_state now id state db)).
Proof.
  intros now id state db. unfold set_trial_state, bind, strict.
  destruct (TrialModel.find_by_id id (trials db)) as [trial|] eqn:Htrial;
    [|apply writes_none].
  destruct (find_trial_in _ _ _ Htrial) as [_ Hid]. subst id.
  apply (writes_commit_trial db trial); [assumption| | |];
    destruct (is_finished state); reflexivity.
Qed.

Lemma writes_set_trial_value :
  forall id value db, writes db (snd (set_trial_value id value db)).
Proof.
  intros id value db. unfold set_trial_value, bind, strict.
  destruct (TrialModel.find_by_id id (trials db)) as [trial|] eqn:Htrial;
    [|apply writes_none].
  destruct (find_trial_in _ _ _ Htrial) as [_ Hid]. subst id.
  apply (writes_commit_trial db trial); [assumption| | |]; reflexivity.
Qed.

Lemma writes_set_trial_user_attr :
  forall {codec : JsonCodec} id key value db,
    writes db (snd (set_trial_user_attr id key value db)).
Proof.
  intros codec id key value db. unfold set_trial_user_attr, bind, strict.
  destruct (TrialModel.find_by_id id (trials db)) as [trial|] eqn:Htrial;
    [|apply writes_none].
  destruct (find_trial_in _ _ _ Htrial) as [_ Hid]. subst id.
  destruct (json_loads _); try apply writes_none.
  apply (writes_commit_trial db trial); [assumption| | |]; reflexivity.
Qed.

Lemma writes_set_trial_param :
  forall id name v db, writes db (snd (set_trial_param id name v db)).
Proof.
  intros id name v db. unfold set_trial_param, bind, strict, query.
  destruct (TrialModel.find_by_id id (trials db)) as [trial|] eqn:Htrial;
    [|apply writes_none].
  destruct (TrialParamDistributionModel.find_by_trial_and_param_name _ _ _)
    as [d|] eqn:Hd; [|apply writes_none].
  destruct (TrialParamModel.find_by_trial_and_param_name _ _ _ _)
    as [p|] eqn:Hp.
  - destruct (py_float_eq _ _); apply writes_none.
  - apply find_trial_in in Htrial. destruct Htrial as [Hin Hid].
    apply find_descriptor_in in Hd. destruct Hd as (Hdin & Hdtrial & _).
    unfold except_IntegrityError, add_trial_param, rollback, ret.
    destruct (existsb _ (trial_params db)) eqn:Hex; [apply writes_none|].
    cbn [orb]. destruct (_ || _); [apply writes_none|].
    cbn [snd]. subst id. apply writes_one.
    now apply write_trial_param.
Qed.

Lemma writes_set_trial_intermediate_value :
  forall id step v db,
    writes db (snd (set_trial_intermediate_value id step v db)).
Proof.
  intros id step v db.
  unfold set_trial_intermediate_value, bind, strict, query.
  destruct (TrialModel.find_by_id id (trials db)) as [trial|] eqn:Htrial;
    [|apply writes_none].
  destruct (TrialValueModel.find_by_trial_and_step _ _ _) as [tv|] eqn:Htv.
  - destruct (py_float_eq _ _); apply writes_none.
  - apply find_trial_in in Htrial. destruct Htrial as [Hin Hid].
    unfold except_IntegrityError, add_trial_value, rollback, ret.
    destruct (existsb _ (trial_values db)) eqn:Hex; [apply writes_none|].
    cbn [orb]. destruct (negb _); [apply writes_none|].
    cbn [snd]. subst id. apply writes_one.
    now apply write_trial_value.
Qed.

Lemma after_writes :
  forall {codec : JsonCodec} {dists : Distributions} KEY SV version c db db',
    after KEY SV version c db = Some db' -> writes db db'.
Proof.
  intros codec dists KEY SV version c db db' Hafter.
  destruct c; cbn [after] in Hafter;
    try (injection Hafter as <-).
  - apply writes_init.
  - destruct (create_new_study_id KEY draws db) as [[r db1]|] eqn:Hrun;
      [|discriminate].
    injection Hafter as <-.
    exact (writes_create_new_study_id KEY draws db r db1 Hrun).
  - apply writes_set_study_user_attr.
  - apply writes_set_trial_param_distribution.
  - apply writes_create_new_trial_id.
  - apply writes_set_trial_state.
  - apply writes_set_trial_param.
  - apply writes_set_trial_value.
  - apply writes_set_trial_intermediate_value.
  - apply writes_set_trial_user_attr.
Qed.

(** ** The constraints hold in every store the storage builds *)

Lemma fresh_id_new : forall ids, ~ In (fresh_id ids) ids.
Proof. intros ids Hin. pose proof (fresh_id_above ids _ Hin). lia. Qed.

Lemma NoDup_map_snoc :
  forall {A B} (f : A -> B) (l : list A) (x : A),
    NoDup (map f l) -> ~ In (f x) (map f l) -> NoDup (map f (l ++ [x])).
Proof. intros A B f l x Hnd Hx. rewrite map_app. now apply NoDup_snoc. Qed.

Lemma existsb_none :
  forall {A} (p : A -> bool) (l : list A) (x : A),
    existsb p l = false -> In x l -> p x = false.
Proof.
  intros A p l x Hex Hin. destruct (p x) eqn:Hp; [|reflexivity].
  assert (existsb p l = true) by (apply existsb_exists; eauto). congruence.
Qed.

Lemma map_rewritten :
  forall {A B} (f : A -> B) (c : A -> bool) (row : A) (l : list A),
    (forall r, In r l -> c r = true -> f row = f r) ->
    map f (map (fun r => if c r then row else r) l) = map f l.
Proof.
  intros A B f c row l H. induction l as [|a l IH]; simpl; [reflexivity|].
  rewrite IH by (intros r Hr; apply H; now right).
  destruct (c a) eqn:Hc; [|reflexivity].
  now rewrite (H a (or_introl eq_refl) Hc).
Qed.

Lemma write_well_formed :
  forall db db', write db db' -> well_formed db -> well_formed db'.
Proof.
  intros db db' Hwrite Hwf. destruct Hwf. destruct Hwrite.
  - constructor; store_simpl; assumption.
  - constructor; store_simpl; try assumption.
    + apply NoDup_map_snoc; [assumption|]. apply fresh_id_new.
    + apply NoDup_map_snoc; [assumption|]. cbn. intro Hin.
      apply in_map_iff in Hin. destruct Hin as (s & Hs & Hin).
      unfold StudyModel.find_by_uuid in H.
      pose proof (find_none _ _ H s Hin) as Hnone. cbn in Hnone.
      rewrite Hs, String.eqb_refl in Hnone. discriminate.
  - constructor; store_simpl; try assumption.
    + apply NoDup_map_snoc; [assumption|]. apply fresh_id_new.
    + apply NoDup_map_snoc; [assumption|]. cbn. intro Hin.
      apply in_map_iff in Hin. destruct Hin as (a & Ha & Hin).
      unfold StudyUserAttributeModel.find_by_study_id_and_key in H0.
      pose proof (find_none _ _ H0 a Hin) as Hnone. cbn in Hnone.
      injection Ha as Hs Hk.
      rewrite Hs, Hk, Z.eqb_refl, String.eqb_refl in Hnone. discriminate.
  - assert (Hsame : forall r,
               In r (study_user_attributes db) ->
               (StudyUserAttributeModel.study_user_attribute_id r
                =? StudyUserAttributeModel.study_user_attribute_id attribute)
               = true ->
               r = attribute).
    { intros r Hr Hid. apply Z.eqb_eq in Hid.
      exact (NoDup_map_eq _ _ r attribute wf_attribute_ids0 Hr H Hid). }
    constructor; store_simpl; try assumption.
    + rewrite map_rewritten; [assumption|].
      intros r Hr Hid. now rewrite (Hsame r Hr Hid).
    + rewrite map_rewritten; [assumption|].
      intros r Hr Hid. now rewrite (Hsame r Hr Hid).
  - constructor; store_simpl; try assumption.
    apply NoDup_map_snoc; [assumption|]. apply fresh_id_new.
  - constructor; store_simpl; try assumption.
    rewrite map_rewritten; [assumption|].
    intros r _ Hid. apply Z.eqb_eq in Hid. congruence.
  - constructor; store_simpl; try assumption.
    + apply NoDup_map_snoc; [assumption|]. apply fresh_id_new.
    + apply NoDup_map_snoc; [assumption|]. cbn. intro Hin.
      apply in_map_iff in Hin. destruct Hin as (d & Hd & Hin).
      pose proof (existsb_none _ _ d H Hin) as Hnone. cbn in Hnone.
      injection Hd as Ht Hn.
      rewrite Ht, Hn, Z.eqb_refl, String.eqb_refl in Hnone. discriminate.
    + intros p Hp. destruct (wf_param_distribution0 p Hp) as (d & Hd & Hids).
      exists d. split; [apply in_app_iff; now left|assumption].
  - constructor; store_simpl; try assumption.
    + apply NoDup_map_snoc; [assumption|]. cbn. intro Hin.
      apply in_map_iff in Hin. destruct Hin as (p & Hp & Hin).
      pose proof (existsb_none _ _ p H2 Hin) as Hnone. cbn in Hnone.
      injection Hp as Ht Hd.
      rewrite Ht, Hd, !Z.eqb_refl in Hnone. discriminate.
    + intros p Hp. apply in_app_iff in Hp. destruct Hp as [Hp|[<-|[]]].
      * exact (wf_param_distribution0 p Hp).
      * exists d. cbn. auto.
  - constructor; store_simpl; try assumption.
    apply NoDup_map_snoc; [assumption|]. cbn. intro Hin.
    apply in_map_iff in Hin. destruct Hin as (v & Hv & Hin).
    pose proof (existsb_none _ _ v H0 Hin) as Hnone. cbn in Hnone.
    injection Hv as Ht Hs.
    rewrite Ht, Hs, !Z.eqb_refl in Hnone. discriminate.
Qed.

Lemma writes_well_formed :
  forall db db', writes db db' -> well_formed db -> well_formed db'.
Proof.
  intros db db' Hwrites Hwf. induction Hwrites as [|db db1 db2 _ IH Hw].
  - exact Hwf.
  - exact (write_well_formed db1 db2 Hw (IH Hwf)).
Qed.

Lemma empty_db_well_formed : forall fk, well_formed (empty_db fk).
Proof.
  intro fk. constructor; cbn; try constructor. intros p [].
Qed.

Lemma reachable_well_formed :
  forall {codec : JsonCodec} {dists : Distributions} KEY SV version db,
    reachable KEY SV version db -> well_formed db.
Proof.
  intros codec dists KEY SV version db Hreach.
  induction Hreach as [fk|c db db' _ IH Hafter].
  - apply empty_db_well_formed.
  - exact (writes_well_formed db db'
             (after_writes KEY SV version c db db' Hafter) IH).
Qed.

Lemma replay_reachable :
  forall {codec : JsonCodec} {dists : Distributions} KEY SV version calls db db',
    reachable KEY SV version db ->
    replay KEY SV version calls db = Some db' ->
    reachable KEY SV version db'.
Proof.
  intros codec dists KEY SV version calls.
  induction calls as [|c calls IH]; intros db db' Hreach Hrun; simpl in Hrun.
  - injection Hrun as <-. exact Hreach.
  - destruct (after KEY SV version c db) as [db1|] eqn:Hafter; [|discriminate].
    exact (IH db1 db' (reachable_after KEY SV version c db db1 Hreach Hafter)
              Hrun).
Qed.

Lemma db_recorded_reachable : reachable KEY SCHEMA VERSION db_recorded.
Proof.
  apply (replay_reachable KEY SCHEMA VERSION recorded_history (empty_db true)).
  - apply reachable_blank.
  - reflexivity.
Qed.

(** ** The parents of the recorded rows are in every store *)

Lemma existsb_snoc_kept :
  forall {A} (f : A -> bool) (l : list A) (x : A),
    existsb f l = true -> existsb f (l ++ [x]) = true.
Proof. intros A f l x H. rewrite existsb_app, H. reflexivity. Qed.

Lemma has_trial_in :
  forall db trial, In trial (trials db) ->
    has_trial (TrialModel.trial_id trial) db = true.
Proof.
  intros db trial Hin. unfold has_trial. apply existsb_exists.
  exists trial. split; [exact Hin|apply Z.eqb_refl].
Qed.

Lemma has_trial_rewritten :
  forall id row db,
    has_trial id db = true ->
    has_trial id
      (with_trials
         (map (fun r => if TrialModel.trial_id r =? TrialModel.trial_id row
                        then row else r)
              (trials db))
         db) = true.
Proof.
  intros id row db Hhas. unfold has_trial in *. store_simpl.
  apply existsb_exists in Hhas. destruct Hhas as (r & Hr & Hid).
  apply existsb_exists.
  exists (if TrialModel.trial_id r =? TrialModel.trial_id row then row else r).
  split.
  { exact (in_map
             (fun r => if TrialModel.trial_id r =? TrialModel.trial_id row
                       then row else r)
             (trials db) r Hr). }
  destruct (TrialModel.trial_id r =? TrialModel.trial_id row) eqn:Hsame;
    [|exact Hid].
  apply Z.eqb_eq in Hsame. now rewrite <- Hsame.
Qed.

(** [parents_present], one table at a time. *)
Lemma parents_present_spec :
  forall db,
    parents_present db = true
    <-> (forall a, In a (study_user_attributes db) ->
           has_study (StudyUserAttributeModel.study_id a) db = true)
        /\ (forall p, In p (trial_params db) ->
              has_trial (TrialParamModel.trial_id p) db = true
              /\ has_descriptor_of p db = true)
        /\ (forall v, In v (trial_values db) ->
              has_trial (TrialValueModel.trial_id v) db = true).
Proof.
  intro db. unfold parents_present.
  rewrite !andb_true_iff, !forallb_forall.
  split.
  - intros [[Ha Hp] Hv]. split; [exact Ha|]. split; [|exact Hv].
    intros p Hin. apply andb_true_iff. exact (Hp p Hin).
  - intros (Ha & Hp & Hv). split; [split; [exact Ha|]|exact Hv].
    intros p Hin. apply andb_true_iff. exact (Hp p Hin).
Qed.

(** Every commit keeps the parents, by what the method has looked up
    before it: the study of a new attribute, the trial and the descriptor
    of a new parameter value, the trial of a new intermediate value. *)
Lemma write_parents_present :
  forall db db',
    write db db' -> parents_present db = true -> parents_present db' = true.
Proof.
  intros db db' Hwrite Hok.
  apply parents_present_spec in Hok. destruct Hok as (Ha & Hp & Hv).
  apply parents_present_spec.
  destruct Hwrite.
  - (* the version row *)
    repeat split; intros; apply Ha || apply Hp || apply Hv; assumption.
  - (* a study *)
    split; [|split; [exact Hp|exact Hv]].
    intros a Hin. unfold has_study. store_simpl.
    apply existsb_snoc_kept. exact (Ha a Hin).
  - (* a study attribute: the study was looked up *)
    split; [|split; [exact Hp|exact Hv]].
    intros a Hin. store_simpl_in Hin. apply in_app_iff in Hin.
    destruct Hin as [Hin|[<-|[]]]; [exact (Ha a Hin)|exact H].
  - (* the value of a study attribute *)
    split; [|split; [exact Hp|exact Hv]].
    intros a Hin. store_simpl_in Hin. apply in_map_iff in Hin.
    destruct Hin as (r & <- & Hr).
    destruct (_ =? _); [|exact (Ha r Hr)].
    destruct attribute. exact (Ha _ H).
  - (* a trial *)
    split; [exact Ha|]. split.
    + intros p Hin. destruct (Hp p Hin) as [Ht Hd]. split; [|exact Hd].
      unfold has_trial. store_simpl. now apply existsb_snoc_kept.
    + intros v Hin. unfold has_trial. store_simpl.
      apply existsb_snoc_kept. exact (Hv v Hin).
  - (* the columns of a trial *)
    split; [exact Ha|]. split.
    + intros p Hin. destruct (Hp p Hin) as [Ht Hd]. split; [|exact Hd].
      now apply has_trial_rewritten.
    + intros v Hin. apply has_trial_rewritten. exact (Hv v Hin).
  - (* a descriptor *)
    split; [exact Ha|]. split; [|exact Hv].
    intros p Hin. destruct (Hp p Hin) as [Ht Hd]. split; [exact Ht|].
    unfold has_descriptor_of. store_simpl. now apply existsb_snoc_kept.
  - (* a parameter value: the trial and the descriptor were looked up *)
    split; [exact Ha|]. split; [|exact Hv].
    intros p Hin. store_simpl_in Hin. apply in_app_iff in Hin.
    destruct Hin as [Hin|[<-|[]]]; [exact (Hp p Hin)|].
    split.
    + exact (has_trial_in db trial H).
    + unfold has_descriptor_of. store_simpl. apply existsb_exists.
      exists d. split; [exact H0|]. cbn.
      rewrite Z.eqb_refl. apply Z.eqb_eq. exact H1.
  - (* an intermediate value: the trial was looked up *)
    split; [exact Ha|]. split; [exact Hp|].
    intros v Hin. store_simpl_in Hin. apply in_app_iff in Hin.
    destruct Hin as [Hin|[<-|[]]]; [exact (Hv v Hin)|].
    exact (has_trial_in db trial H).
Qed.

Lemma writes_parents_present :
  forall db db',
    writes db db' -> parents_present db = true -> parents_present db' = true.
Proof.
  intros db db' Hwrites Hok. induction Hwrites as [|db db1 db2 _ IH Hw].
  - exact Hok.
  - exact (write_parents_present db1 db2 Hw (IH Hok)).
Qed.

(** X1: in every store that the storage has built from a blank database,
    whether the backend enforces foreign keys or not, every study
    attribute belongs to a study of the store, every recorded parameter
    value belongs to a trial of the store and names a descriptor
    registered for that trial, and every intermediate value belongs to a
    trial of the store: [set_study_user_attr], [set_trial_param] and
    [set_trial_intermediate_value] look the parents up before they
    commit. *)
Theorem recorded_rows_have_their_parents :
  forall {codec : JsonCodec} {dists : Distributions}
         (KEY : string) (SV : Z) (version : string) (db : DB),
    reachable KEY SV version db -> parents_present db = true.
Proof.
  intros codec dists KEY SV version db Hreach.
  induction Hreach as [fk|c db db' _ IH Hafter].
  - reflexivity.
  - exact (writes_parents_present db db'
             (after_writes KEY SV version c db db' Hafter) IH).
Qed.

Lemma recorded_rows_have_their_parents_witness :
  foreign_keys db_recorded_lax = false
  /\ map TrialParamModel.trial_id (trial_params db_recorded_lax) = [1]
  /\ map TrialValueModel.trial_id (trial_values db_recorded_lax) = [1]
  /\ parents_present db_recorded_lax = true.
Proof.
  split; [reflexivity|]. split; [reflexivity|]. split; [reflexivity|].
  apply (recorded_rows_have_their_parents KEY SCHEMA VERSION db_recorded_lax).
  apply (replay_reachable KEY SCHEMA VERSION recorded_history (empty_db false)).
  - apply reachable_blank.
  - reflexivity.
Defined.

(** ** What no call removes or changes *)

Lemma keeps_records_refl : forall db, keeps_records db db.
Proof.
  intro db. repeat split; auto. intros id trial H. exists trial. auto.
Qed.

Lemma keeps_records_trans :
  forall db1 db2 db3,
    keeps_records db1 db2 -> keeps_records db2 db3 -> keeps_records db1 db3.
Proof.
  intros db1 db2 db3 (S1 & T1 & D1 & P1 & V1) (S2 & T2 & D2 & P2 & V2).
  repeat split; auto.
  intros id trial H. destruct (T1 id trial H) as (t1 & H1 & Hi1 & Hs1 & Hd1).
  destruct (T2 id t1 H1) as (t2 & H2 & Hi2 & Hs2 & Hd2).
  exists t2. repeat split; congruence.
Qed.

Lemma write_keeps_records : forall db db', write db db' -> keeps_records db db'.
Proof.
  intros db db' Hwrite.
  destruct Hwrite; unfold keeps_records; store_simpl;
    (split; [|split; [|split; [|split]]]);
    try solve [ auto | intros id t Hfind; exists t; auto ].
  - (* a study is added *)
    intros id study Hfind. now apply find_snoc_present.
  - (* a trial is added *)
    intros id trial Hfind. exists trial. split; [|auto].
    now apply find_snoc_present.
  - (* the columns of a trial are rewritten *)
    intros id trial0 Hfind.
    destruct (Z.eq_dec id (TrialModel.trial_id row)) as [->|Hne].
    + exists row. split.
      * apply (find_trial_rewritten (trials db) row trial0 Hfind).
      * rewrite H0 in Hfind. rewrite H in Hfind. injection Hfind as <-. auto.
    + exists trial0. split; [|auto].
      rewrite (find_trial_other (trials db) row id Hne). exact Hfind.
  - (* a descriptor is added *)
    intros trial name d Hfind. now apply find_snoc_present.
  - (* a descriptor is added: the recorded values *)
    intros trial name p.
    unfold TrialParamModel.find_by_trial_and_param_name.
    destruct (TrialParamDistributionModel.find_by_trial_and_param_name
                trial name (param_distributions db)) as [d|] eqn:Hd;
      [|discriminate].
    unfold TrialParamDistributionModel.find_by_trial_and_param_name in *.
    now rewrite (find_snoc_present _ _ _ _ Hd).
  - (* a parameter value is added *)
    intros trial0 name p.
    unfold TrialParamModel.find_by_trial_and_param_name.
    destruct (TrialParamDistributionModel.find_by_trial_and_param_name
                trial0 name (param_distributions db)); [|discriminate].
    intro Hfind. now apply find_snoc_present.
  - (* an intermediate value is added *)
    intros trial0 step0 v Hfind. now apply find_snoc_present.
Qed.

Lemma writes_keep_records :
  forall db db', writes db db' -> keeps_records db db'.
Proof.
  intros db db' Hwrites. induction Hwrites as [|db db1 db2 _ IH Hw].
  - apply keeps_records_refl.
  - exact (keeps_records_trans _ _ _ IH (write_keeps_records _ _ Hw)).
Qed.

(** X2: no call of the storage removes or changes what is recorded.
    Whatever the call and whether it returns or raises, every study of the
    store before is in the store after, unchanged; every trial is still
    found under its id, in the same study and with the same start
    timestamp; and every descriptor, every recorded parameter value and
    every intermediate value is still found, unchanged. *)
Theorem calls_keep_records :
  forall {codec : JsonCodec} {dists : Distributions}
         (KEY : string) (SV : Z) (version : string) (c : call) (db db' : DB),
    after KEY SV version c db = Some db' -> keeps_records db db'.
Proof.
  intros codec dists KEY SV version c db db' Hafter.
  exact (writes_keep_records db db'
           (after_writes KEY SV version c db db' Hafter)).
Qed.

Lemma calls_keep_records_witness :
  keeps_records db_recorded
    (snd (set_trial_state 200 1 COMPLETE db_recorded)).
Proof.
  apply (calls_keep_records KEY SCHEMA VERSION (SetTrialState 200 1 COMPLETE)
           db_recorded).
  reflexivity.
Defined.

(** ** Trials that do not exist *)

(** X3: every method that writes to a trial looks the trial up first: for
    an id that no trial bears, [set_trial_state], [set_trial_param],
    [set_trial_value], [set_trial_intermediate_value] and
    [set_trial_user_attr] raise the error of the strict lookup and commit
    nothing. *)
Theorem trial_writes_need_the_trial :
  forall {codec : JsonCodec} (id : Z) (db : DB),
    TrialModel.find_by_id id (trials db) = None ->
    (forall now state,
        set_trial_state now id state db = (Raise NotFound, db))
    /\ (forall name v, set_trial_param id name v db = (Raise NotFound, db))
    /\ (forall v, set_trial_value id v db = (Raise NotFound, db))
    /\ (forall step v,
          set_trial_intermediate_value id step v db = (Raise NotFound, db))
    /\ (forall key value,
          set_trial_user_attr id key value db = (Raise NotFound, db)).
Proof.
  intros codec id db Hnone.
  unfold set_trial_state, set_trial_param, set_trial_value,
    set_trial_intermediate_value, set_trial_user_attr, bind, strict.
  rewrite Hnone. repeat split.
Qed.

Lemma trial_writes_need_the_trial_witness :
  (forall now state,
      set_trial_state now 9 state db_recorded = (Raise NotFound, db_recorded))
  /\ (forall name v,
        set_trial_param 9 name v db_recorded = (Raise NotFound, db_recorded))
  /\ (forall v, set_trial_value 9 v db_recorded = (Raise NotFound, db_recorded))
  /\ (forall step v,
        set_trial_intermediate_value 9 step v db_recorded
        = (Raise NotFound, db_recorded))
  /\ (forall key value,
        set_trial_user_attr 9 key value db_recorded
        = (Raise NotFound, db_recorded)).
Proof.
  apply (trial_writes_need_the_trial 9 db_recorded). reflexivity.
Defined.

(** ** Intermediate values *)

Lemma set_trial_intermediate_value_recorded :
  forall id step v db trial recorded,
    TrialModel.find_by_id id (trials db) = Some trial ->
    TrialValueModel.find_by_trial_and_step trial step (trial_values db)
    = Some recorded ->
    set_trial_intermediate_value id step v db
    = (if py_float_eq (TrialValueModel.value recorded) v
       then Ok tt else Raise AssertionError, db).
Proof.
  intros id step v db trial recorded Htrial Hrec.
  unfold set_trial_intermediate_value, bind, strict, query.
  rewrite Htrial, Hrec.
  destruct (py_float_eq (TrialValueModel.value recorded) v); reflexivity.
Qed.

Lemma set_trial_intermediate_value_first :
  forall id step v db trial,
    TrialModel.find_by_id id (trials db) = Some trial ->
    TrialValueModel.find_by_trial_and_step trial step (trial_values db) = None ->
    let row :=
      TrialValueModel.mk
        (fresh_id (map TrialValueModel.trial_value_id (trial_values db)))
        id step v in
    set_trial_intermediate_value id step v db
    = (Ok tt, with_trial_values (trial_values db ++ [row]) db)
    /\ TrialValueModel.find_by_trial_and_step
         trial step (trial_values db ++ [row]) = Some row.
Proof.
  intros id step v db trial Htrial Hnone row.
  destruct (find_trial_in _ _ _ Htrial) as [_ Hid].
  unfold TrialValueModel.find_by_trial_and_step in Hnone |- *.
  rewrite Hid in Hnone |- *. split.
  - unfold set_trial_intermediate_value, bind, strict, query,
      except_IntegrityError.
    rewrite Htrial. unfold TrialValueModel.find_by_trial_and_step.
    rewrite Hid, Hnone.
    unfold add_trial_value, references, has_trial.
    rewrite (find_existsb _ (trial_values db)), Hnone.
    rewrite (find_existsb _ (trials db)).
    unfold TrialModel.find_by_id in Htrial. rewrite Htrial.
    rewrite orb_true_r. reflexivity.
  - rewrite (find_snoc_absent _ _ row Hnone). cbn. now rewrite !Z.eqb_refl.
Qed.

(** X4: [set_trial_intermediate_value] inserts or verifies.  For every
    existing trial and step at which no differing value is recorded, and
    every value [v] other than a NaN, the call returns and a value equal
    to [v] is then recorded at the step; a second call with [v] returns
    and leaves the store as it is; a call with a value that the recorded
    one differs from raises [AssertionError] and leaves the store as it
    is. *)
Theorem set_trial_intermediate_value_idempotent :
  forall id step v db trial,
    TrialModel.find_by_id id (trials db) = Some trial ->
    (forall tv,
        TrialValueModel.find_by_trial_and_step trial step (trial_values db)
        = Some tv ->
        py_float_eq (TrialValueModel.value tv) v = true) ->
    py_float_eq v v = true ->
    exists db1 recorded,
      set_trial_intermediate_value id step v db = (Ok tt, db1)
      /\ TrialModel.find_by_id id (trials db1) = Some trial
      /\ TrialValueModel.find_by_trial_and_step trial step (trial_values db1)
         = Some recorded
      /\ py_float_eq (TrialValueModel.value recorded) v = true
      /\ set_trial_intermediate_value id step v db1 = (Ok tt, db1)
      /\ (forall v2,
            py_float_eq (TrialValueModel.value recorded) v2 = false ->
            set_trial_intermediate_value id step v2 db1
            = (Raise AssertionError, db1)).
Proof.
  intros id step v db trial Htrial Hsame Hv.
  destruct (TrialValueModel.find_by_trial_and_step trial step (trial_values db))
    as [tv|] eqn:Htv.
  - specialize (Hsame tv eq_refl).
    pose proof (fun v2 =>
                  set_trial_intermediate_value_recorded id step v2 db trial tv
                    Htrial Htv) as Hrun.
    exists db, tv. rewrite (Hrun v), Hsame. repeat split; try assumption.
    intros v2 Hne. now rewrite (Hrun v2), Hne.
  - destruct (set_trial_intermediate_value_first id step v db trial Htrial Htv)
      as [Hfirst Hrow].
    set (row := TrialValueModel.mk
                  (fresh_id (map TrialValueModel.trial_value_id
                                 (trial_values db)))
                  id step v) in *.
    pose proof (fun v2 =>
                  set_trial_intermediate_value_recorded id step v2
                    (with_trial_values (trial_values db ++ [row]) db)
                    trial row Htrial Hrow) as Hrun.
    cbn [TrialValueModel.value row] in Hrun.
    exists (with_trial_values (trial_values db ++ [row]) db), row.
    split; [exact Hfirst|]. split; [exact Htrial|]. split; [exact Hrow|].
    split; [exact Hv|]. split.
    + now rewrite Hrun, Hv.
    + intros v2 Hne. cbn [TrialValueModel.value row] in Hne.
      now rewrite Hrun, Hne.
Qed.

Lemma set_trial_intermediate_value_idempotent_witness :
  exists db1 recorded,
    set_trial_intermediate_value 1 7 0.25%float db_recorded = (Ok tt, db1)
    /\ TrialModel.find_by_id 1 (trials db1) = Some trial1
    /\ TrialValueModel.find_by_trial_and_step trial1 7 (trial_values db1)
       = Some recorded
    /\ py_float_eq (TrialValueModel.value recorded) 0.25 = true
    /\ set_trial_intermediate_value 1 7 0.25%float db1 = (Ok tt, db1)
    /\ (forall v2,
          py_float_eq (TrialValueModel.value recorded) v2 = false ->
          set_trial_intermediate_value 1 7 v2 db1
          = (Raise AssertionError, db1)).
Proof.
  apply (set_trial_intermediate_value_idempotent
           1 7 0.25%float db_recorded trial1); try reflexivity.
  intros tv Htv. discriminate Htv.
Defined.

(** ** Opening a store *)

(** X5: on a store without a version row, [__init__] commits the row
    with [SCHEMA_VERSION] and the version of the library, and returns the
    storage object; opening the store again with the same schema version,
    from whatever version of the library, returns and leaves the store,
    and so the recorded library version, as it is. *)
Theorem init_writes_version_once :
  forall (SCHEMA_VERSION : Z) (version version' url url' : string) (db : DB),
    version_info db = None ->
    let db' :=
      with_version_info
        (Some (VersionInfoModel.mk SCHEMA_VERSION version)) db in
    __init__ SCHEMA_VERSION version url db = (Ok {| engine_url := url |}, db')
    /\ __init__ SCHEMA_VERSION version' url' db'
       = (Ok {| engine_url := url' |}, db').
Proof.
  intros SV version version' url url' db Hnone db'. subst db'.
  unfold __init__, _check_table_schema_compatibility, bind, query,
    except_IntegrityError, add_version_info.
  split.
  - rewrite !Hnone. reflexivity.
  - store_simpl. cbn [VersionInfoModel.schema_version].
    rewrite Z.eqb_refl. reflexivity.
Qed.

Lemma init_writes_version_once_witness :
  let db' :=
    with_version_info (Some (VersionInfoModel.mk 3 "0.4.0")) (empty_db false) in
  __init__ 3 "0.4.0" "sqlite:///a.db" (empty_db false)
  = (Ok {| engine_url := "sqlite:///a.db" |}, db')
  /\ __init__ 3 "0.5.0" "sqlite:///a.db" db'
     = (Ok {| engine_url := "sqlite:///a.db" |}, db').
Proof.
  apply (init_writes_version_once 3 "0.4.0" "0.5.0"
           "sqlite:///a.db" "sqlite:///a.db" (empty_db false)).
  reflexivity.
Defined.

(** ** The attributes of a trial *)

(** X8: [set_trial_user_attr] rewrites the attributes of the trial with
    one key assigned.  For an existing trial whose attributes decode to a
    dictionary, the call returns and the trial then bears the encoding of
    a dictionary that holds the value under the key and, under every
    other key, what the decoded dictionary held; the other columns of the
    trial and the other trials are as they were.  When the attributes do
    not decode to a dictionary, the call raises [TypeError] and commits
    nothing. *)
Theorem set_trial_user_attr_assigns_one_key :
  forall {codec : JsonCodec} (id : Z) (key : string) (value : json)
         (db : DB) (trial : TrialModel.t),
    TrialModel.find_by_id id (trials db) = Some trial ->
    (forall loaded,
        json_loads (TrialModel.user_attributes_json trial) = JDict loaded ->
        exists db' assigned,
          set_trial_user_attr id key value db = (Ok tt, db')
          /\ TrialModel.find_by_id id (trials db')
             = Some (TrialModel.set_user_attributes_json
                       (json_dumps (JDict assigned)) trial)
          /\ dict_get String.eqb key assigned = Some value
          /\ (forall k, k <> key ->
                dict_get String.eqb k assigned = dict_get String.eqb k loaded)
          /\ (forall id', id' <> id ->
                TrialModel.find_by_id id' (trials db')
                = TrialModel.find_by_id id' (trials db))
          /\ with_trials (trials db) db' = db)
    /\ ((forall loaded,
           json_loads (TrialModel.user_attributes_json trial) <> JDict loaded) ->
        set_trial_user_attr id key value db = (Raise TypeError, db)).
Proof.
  intros codec id key value db trial Htrial.
  destruct (find_trial_in _ _ _ Htrial) as [_ Hid]. subst id.
  unfold set_trial_user_attr, bind, strict. rewrite Htrial. split.
  - intros loaded Hloaded. rewrite Hloaded. unfold commit_trial.
    eexists. exists (dict_set String.eqb key value loaded).
    split; [reflexivity|]. store_simpl. split; [|split; [|split; [|split]]].
    + apply (find_trial_rewritten
               (trials db)
               (TrialModel.set_user_attributes_json
                  (json_dumps (JDict (dict_set String.eqb key value loaded)))
                  trial)
               trial Htrial).
    + apply (dict_get_set_same String.eqb String.eqb_spec).
    + intros k Hk. now apply (dict_get_set_other String.eqb String.eqb_spec).
    + intros id' Hne.
      apply (find_trial_other (trials db)
               (TrialModel.set_user_attributes_json _ trial) id' Hne).
    + destruct db; reflexivity.
  - intro Hnot.
    destruct (json_loads (TrialModel.user_attributes_json trial)) eqn:Hl;
      try reflexivity.
    now destruct (Hnot d).
Qed.

Lemma set_trial_user_attr_assigns_one_key_witness :
  exists db' assigned,
    set_trial_user_attr 1 "note" (JStr "first") db_recorded = (Ok tt, db')
    /\ TrialModel.find_by_id 1 (trials db')
       = Some (TrialModel.set_user_attributes_json
                 (json_dumps (JDict assigned)) trial1)
    /\ dict_get String.eqb "note" assigned = Some (JStr "first")
    /\ (forall k, k <> "note" ->
          dict_get String.eqb k assigned
          = dict_get String.eqb k [(KEY, JDict [])])
    /\ (forall id', id' <> 1 ->
          TrialModel.find_by_id id' (trials db')
          = TrialModel.find_by_id id' (trials db_recorded))
    /\ with_trials (trials db_recorded) db' = db_recorded.
Proof.
  apply (proj1 (set_trial_user_attr_assigns_one_key
                  1 "note" (JStr "first") db_recorded trial1 eq_refl)
               [(KEY, JDict [])]).
  reflexivity.
Defined.

(** ** Loops that fill a dictionary *)

Section LoopFacts.
Context {K V A : Type}.
Variable eqb : K -> K -> bool.
Hypothesis eqb_spec : forall a b, reflect (a = b) (eqb a b).
Variables (key : A -> K) (val : A -> V).

(** After [for a in l: d[key(a)] = val(a)], a key holds the value of the
    last element that bears it. *)
Lemma assign_all_last :
  forall l d k,
    dict_get eqb k (fold_left (fun d a => dict_set eqb (key a) (val a) d) l d)
    = match find (fun a => eqb k (key a)) (rev l) with
      | Some a => Some (val a)
      | None => dict_get eqb k d
      end.
Proof.
  induction l as [|a l IH]; intros d k; simpl; [reflexivity|].
  rewrite IH.
  destruct (find (fun a0 => eqb k (key a0)) (rev l)) as [a'|] eqn:Hfind.
  - now rewrite (find_snoc_present _ _ a a' Hfind).
  - rewrite (find_snoc_absent _ _ a Hfind).
    destruct (eqb_spec k (key a)) as [->|Hne].
    + apply (dict_get_set_same eqb eqb_spec).
    + now apply (dict_get_set_other eqb eqb_spec).
Qed.

Lemma dict_set_keys :
  forall k (v : V) d,
    map fst (dict_set eqb k v d)
    = if existsb (eqb k) (map fst d) then map fst d else map fst d ++ [k].
Proof.
  intros k v d. induction d as [|[k' v'] d IH]; simpl; [reflexivity|].
  destruct (eqb k k'); simpl; [reflexivity|].
  rewrite IH. destruct (existsb (eqb k) (map fst d)); reflexivity.
Qed.

Lemma existsb_eqb_in :
  forall k (l : list K), existsb (eqb k) l = true <-> In k l.
Proof.
  intros k l. rewrite existsb_exists. split.
  - intros (x & Hx & Hk). destruct (eqb_spec k x); congruence.
  - intro Hin. exists k. split; [assumption|].
    destruct (eqb_spec k k); congruence.
Qed.

Lemma dict_set_keys_in :
  forall k (v : V) d k',
    In k' (map fst (dict_set eqb k v d)) <-> k' = k \/ In k' (map fst d).
Proof.
  intros k v d k'. rewrite dict_set_keys.
  destruct (existsb (eqb k) (map fst d)) eqn:Hex.
  - apply existsb_eqb_in in Hex. split; [auto|]. intros [->|H]; assumption.
  - rewrite in_app_iff. simpl. intuition congruence.
Qed.

Lemma dict_set_keys_NoDup :
  forall k (v : V) d,
    NoDup (map fst d) -> NoDup (map fst (dict_set eqb k v d)).
Proof.
  intros k v d Hnd. rewrite dict_set_keys.
  destruct (existsb (eqb k) (map fst d)) eqn:Hex; [assumption|].
  apply NoDup_snoc; [assumption|].
  intro Hin. apply existsb_eqb_in in Hin. congruence.
Qed.

Lemma assign_all_keys_NoDup :
  forall l d,
    NoDup (map fst d) ->
    NoDup (map fst (fold_left (fun d a => dict_set eqb (key a) (val a) d) l d)).
Proof.
  induction l as [|a l IH]; intros d Hnd; simpl; [assumption|].
  apply IH. now apply dict_set_keys_NoDup.
Qed.

Lemma assign_all_keys_in :
  forall l d k,
    In k (map fst (fold_left (fun d a => dict_set eqb (key a) (val a) d) l d))
    <-> In k (map fst d) \/ In k (map key l).
Proof.
  induction l as [|a l IH]; intros d k; simpl; [tauto|].
  rewrite IH, dict_set_keys_in. intuition congruence.
Qed.

(** In a dictionary, an entry is what [dict_get] returns at its key. *)
Lemma dict_entry_get :
  forall (d : dict K V) k v,
    NoDup (map fst d) -> In (k, v) d -> dict_get eqb k d = Some v.
Proof.
  induction d as [|[k' v'] d IH]; intros k v Hnd Hin; [contradiction|].
  simpl in Hnd. inversion Hnd as [|? ? Hk' Hnd']; subst. simpl.
  destruct Hin as [Heq|Hin].
  - injection Heq as -> ->. destruct (eqb_spec k k); congruence.
  - destruct (eqb_spec k k') as [->|Hne]; [|now apply IH].
    exfalso. apply Hk'. change k' with (fst (k', v)). now apply in_map.
Qed.

(** Over elements with distinct keys, the loop builds the list of their
    entries. *)
Lemma assign_all_distinct :
  forall l d,
    NoDup (map fst d ++ map key l) ->
    fold_left (fun d a => dict_set eqb (key a) (val a) d) l d
    = d ++ map (fun a => (key a, val a)) l.
Proof.
  induction l as [|a l IH]; intros d Hnd; simpl.
  - now rewrite app_nil_r.
  - assert (Hfresh : dict_set eqb (key a) (val a) d = d ++ [(key a, val a)]).
    { clear IH. simpl in Hnd. apply NoDup_remove_2 in Hnd.
      assert (Hd : ~ In (key a) (map fst d))
        by (intro; apply Hnd; apply in_app_iff; now left).
      clear Hnd. induction d as [|[k' v'] d IHd]; simpl; [reflexivity|].
      simpl in Hd. destruct (eqb_spec (key a) k') as [Heq|Hne];
        [exfalso; apply Hd; left; congruence|].
      rewrite IHd by tauto. reflexivity. }
    rewrite Hfresh, IH.
    + rewrite <- app_assoc. reflexivity.
    + rewrite map_app. simpl. rewrite <- app_assoc. exact Hnd.
Qed.
End LoopFacts.

(** ** More of the assembler *)

(** The loop over the parameter rows returns the pair of the two maps. *)
Ltac destruct_param_maps :=
  cbv beta iota;
  match goal with
  | |- context [let (_, _) := ?x in _] => destruct x
  end.

Section AssemblerFacts.
Context {codec : JsonCodec} {dists : Distributions}.

(** The dictionary of the trial rows that the assembler builds first. *)
Lemma merged_ids :
  forall trials trial_params values,
    map Trial.trial_id (_merge_trials_orm trials trial_params values)
    = map fst
        (fold_left
           (fun d trial => dict_set Z.eqb (TrialModel.trial_id trial) trial d)
           trials []).
Proof.
  intros trials trial_params values. unfold _merge_trials_orm.
  rewrite map_map. apply map_ext. intros [id trial].
  destruct_param_maps. reflexivity.
Qed.

Lemma merged_columns :
  forall trials trial_params values agg,
    In agg (_merge_trials_orm trials trial_params values) ->
    exists trial,
      find (fun t => Trial.trial_id agg =? TrialModel.trial_id t) (rev trials)
      = Some trial
      /\ Trial.state agg = TrialModel.state trial
      /\ Trial.value agg = TrialModel.value trial
      /\ Trial.user_attrs agg
         = json_loads (TrialModel.user_attributes_json trial)
      /\ Trial.datetime_start agg = TrialModel.datetime_start trial
      /\ Trial.datetime_complete agg = TrialModel.datetime_complete trial.
Proof.
  intros trials trial_params values agg Hin.
  unfold _merge_trials_orm in Hin. apply in_map_iff in Hin.
  destruct Hin as ([id trial] & <- & Hentry).
  exists trial. destruct_param_maps. cbn. split; [|auto 6].
  apply (dict_entry_get Z.eqb Z.eqb_spec) in Hentry;
    [|apply (assign_all_keys_NoDup Z.eqb Z.eqb_spec); constructor].
  rewrite (assign_all_last Z.eqb Z.eqb_spec TrialModel.trial_id (fun t => t))
    in Hentry.
  destruct (find _ (rev trials)); [congruence|discriminate].
Qed.

Lemma merged_intermediate_values :
  forall trials trial_params values agg,
    In agg (_merge_trials_orm trials trial_params values) ->
    Trial.intermediate_values agg
    = fold_left
        (fun d v => dict_set Z.eqb (TrialValueModel.step v)
                             (TrialValueModel.value v) d)
        (filter (fun v => TrialValueModel.trial_id v =? Trial.trial_id agg)
                values)
        [].
Proof.
  intros trials trial_params values agg Hin.
  unfold _merge_trials_orm in Hin. apply in_map_iff in Hin.
  destruct Hin as ([id trial] & <- & _).
  rewrite (defaultdict_grouped TrialValueModel.trial_id values [] id).
  destruct_param_maps. reflexivity.
Qed.
End AssemblerFacts.

(** X9: [_merge_trials_orm] returns one aggregate for each trial id among
    the trial rows, and none for any other id; an aggregate bears the
    state, the value, the decoded attributes and the timestamps of the
    last row with its id.  When the rows have distinct ids, the
    aggregates come in the order of the rows.  There is no aggregate when
    there is no trial row, whatever parameter and value rows are
    given. *)
Theorem merge_trials_orm_one_per_trial :
  forall {codec : JsonCodec} {dists : Distributions}
         (trials : list TrialModel.t) (trial_params : list TrialParam.t)
         (values : list TrialValueModel.t),
    NoDup (map Trial.trial_id (_merge_trials_orm trials trial_params values))
    /\ (forall id,
          In id (map Trial.trial_id
                     (_merge_trials_orm trials trial_params values))
          <-> In id (map TrialModel.trial_id trials))
    /\ (forall agg,
          In agg (_merge_trials_orm trials trial_params values) ->
          exists trial,
            find (fun t => Trial.trial_id agg =? TrialModel.trial_id t)
                 (rev trials) = Some trial
            /\ Trial.state agg = TrialModel.state trial
            /\ Trial.value agg = TrialModel.value trial
            /\ Trial.user_attrs agg
               = json_loads (TrialModel.user_attributes_json trial)
            /\ Trial.datetime_start agg = TrialModel.datetime_start trial
            /\ Trial.datetime_complete agg
               = TrialModel.datetime_complete trial)
    /\ (NoDup (map TrialModel.trial_id trials) ->
        map Trial.trial_id (_merge_trials_orm trials trial_params values)
        = map TrialModel.trial_id trials)
    /\ _merge_trials_orm [] trial_params values = [].
Proof.
  intros codec dists trials trial_params values.
  rewrite merged_ids. split; [|split; [|split; [|split]]].
  - apply (assign_all_keys_NoDup Z.eqb Z.eqb_spec). constructor.
  - intro id.
    rewrite (assign_all_keys_in Z.eqb Z.eqb_spec TrialModel.trial_id
               (fun t => t) trials [] id).
    simpl. tauto.
  - apply merged_columns.
  - intro Hnd.
    rewrite (assign_all_distinct Z.eqb Z.eqb_spec TrialModel.trial_id
               (fun t => t) trials []) by exact Hnd.
    cbn [app]. rewrite map_map. reflexivity.
  - reflexivity.
Qed.

Lemma merged_maps_last :
  forall {codec : JsonCodec} {dists : Distributions}
         (trials : list TrialModel.t) (trial_params : list TrialParam.t)
         (values : list TrialValueModel.t) (agg : Trial.t external),
    In agg (_merge_trials_orm trials trial_params values) ->
    (forall name,
        let last :=
          find (fun p => String.eqb name (TrialParam.param_name p))
               (rev (filter (fun p =>
                               TrialParam.trial_id p =? Trial.trial_id agg)
                            trial_params)) in
        dict_get String.eqb name (Trial.params agg)
        = option_map
            (fun p =>
               to_external_repr
                 (json_to_distribution
                    (TrialParamDistributionModel.distribution_json
                       (TrialParam.param_distribution p)))
                 (TrialParam.param_value p))
            last
        /\ dict_get String.eqb name (Trial.params_in_internal_repr agg)
           = option_map TrialParam.param_value last)
    /\ (forall step,
          dict_get Z.eqb step (Trial.intermediate_values agg)
          = option_map TrialValueModel.value
              (find (fun v => step =? TrialValueModel.step v)
                    (rev (filter (fun v =>
                                    TrialValueModel.trial_id v
                                    =? Trial.trial_id agg)
                                 values)))).
Proof.
  intros codec dists trials trial_params values agg Hin.
  destruct (merged_params trials trial_params values agg Hin) as [Hext Hint].
  pose proof (merged_intermediate_values trials trial_params values agg Hin)
    as Hval.
  cbv zeta in Hext, Hint. split.
  - intros name last. subst last. rewrite Hext, Hint.
    rewrite (assign_all_last String.eqb String.eqb_spec
               TrialParam.param_name
               (fun p => to_external_repr
                           (json_to_distribution
                              (TrialParamDistributionModel.distribution_json
                                 (TrialParam.param_distribution p)))
                           (TrialParam.param_value p))).
    rewrite (assign_all_last String.eqb String.eqb_spec
               TrialParam.param_name TrialParam.param_value).
    destruct (find _ _); split; reflexivity.
  - intro step. rewrite Hval.
    rewrite (assign_all_last Z.eqb Z.eqb_spec
               TrialValueModel.step TrialValueModel.value).
    destruct (find _ _); reflexivity.
Qed.

(** X10: in an aggregate that [_merge_trials_orm] returns, each of the
    three dictionaries holds, under a key, what the last row of that trial
    bearing the key gives, and nothing under a key that no row of that
    trial bears: the decoded value and the stored value of the last
    parameter row with the name, and the value of the last
    intermediate-value row with the step.  Rows of other trials are never
    in it. *)
Theorem merge_trials_orm_last_row_wins :
  forall {codec : JsonCodec} {dists : Distributions}
         (trials : list TrialModel.t) (trial_params : list TrialParam.t)
         (values : list TrialValueModel.t) (agg : Trial.t external),
    In agg (_merge_trials_orm trials trial_params values) ->
    (forall name,
        let last :=
          find (fun p => String.eqb name (TrialParam.param_name p))
               (rev (filter (fun p =>
                               TrialParam.trial_id p =? Trial.trial_id agg)
                            trial_params)) in
        dict_get String.eqb name (Trial.params agg)
        = option_map
            (fun p =>
               to_external_repr
                 (json_to_distribution
                    (TrialParamDistributionModel.distribution_json
                       (TrialParam.param_distribution p)))
                 (TrialParam.param_value p))
            last
        /\ dict_get String.eqb name (Trial.params_in_internal_repr agg)
           = option_map TrialParam.param_value last)
    /\ (forall step,
          dict_get Z.eqb step (Trial.intermediate_values agg)
          = option_map TrialValueModel.value
              (find (fun v => step =? TrialValueModel.step v)
                    (rev (filter (fun v =>
                                    TrialValueModel.trial_id v
                                    =? Trial.trial_id agg)
                                 values)))).
Proof.
  intros codec dists trials trial_params values agg Hin.
  exact (merged_maps_last trials trial_params values agg Hin).
Qed.

Lemma merge_trials_orm_last_row_wins_witness :
  let identity_x := TrialParamDistributionModel.mk 1 1 "x" "identity" in
  let first := TrialParam.mk (TrialParamModel.mk 1 1 1 1%float) identity_x in
  let second := TrialParam.mk (TrialParamModel.mk 2 1 1 2%float) identity_x in
  let other := TrialParam.mk (TrialParamModel.mk 3 8 1 3%float) identity_x in
  exists agg,
    In agg (_merge_trials_orm
              [trial1] [first; second; other]
              [TrialValueModel.mk 1 1 5 0.5%float;
               TrialValueModel.mk 2 8 6 0.25%float])
    /\ dict_get String.eqb "x" (Trial.params agg) = Some 2%float
    /\ dict_get String.eqb "x" (Trial.params_in_internal_repr agg)
       = Some 2%float
    /\ dict_get Z.eqb 5 (Trial.intermediate_values agg) = Some 0.5%float
    /\ dict_get Z.eqb 6 (Trial.intermediate_values agg) = None.
Proof.
  cbv zeta. eexists. split; [left; reflexivity|].
  match goal with
  | |- context [Trial.params ?agg] =>
      pose proof (@merge_trials_orm_last_row_wins
                    Doubles.codec Doubles.dists
                    [trial1]
                    [TrialParam.mk (TrialParamModel.mk 1 1 1 1%float)
                       (TrialParamDistributionModel.mk 1 1 "x" "identity");
                     TrialParam.mk (TrialParamModel.mk 2 1 1 2%float)
                       (TrialParamDistributionModel.mk 1 1 "x" "identity");
                     TrialParam.mk (TrialParamModel.mk 3 8 1 3%float)
                       (TrialParamDistributionModel.mk 1 1 "x" "identity")]
                    [TrialValueModel.mk 1 1 5 0.5%float;
                     TrialValueModel.mk 2 8 6 0.25%float]
                    agg (or_introl eq_refl)) as [Hparams Hvalues]
  end.
  split; [exact (proj1 (Hparams "x"))|].
  split; [exact (proj2 (Hparams "x"))|].
  split; [exact (Hvalues 5)|exact (Hvalues 6)].
Defined.

(** ** Reading trials back *)

Lemma NoDup_map_in_inj :
  forall {A B} (f : A -> B) (l : list A),
    NoDup l ->
    (forall x y, In x l -> In y l -> f x = f y -> x = y) ->
    NoDup (map f l).
Proof.
  intros A B f l Hnd Hinj. induction Hnd as [|a l Ha Hnd IH]; simpl.
  - constructor.
  - constructor.
    + intro Hin. apply in_map_iff in Hin. destruct Hin as (y & Hy & Hin).
      assert (y = a) by (apply Hinj; simpl; auto). congruence.
    + apply IH. intros x y Hx Hy. apply Hinj; simpl; auto.
Qed.

Lemma filter_filter_implied :
  forall {A} (f g : A -> bool) (l : list A),
    (forall x, In x l -> f x = true -> g x = true) ->
    filter f (filter g l) = filter f l.
Proof.
  intros A f g l H. induction l as [|a l IH]; simpl; [reflexivity|].
  assert (IH' : filter f (filter g l) = filter f l)
    by (apply IH; intros x Hx; apply H; now right).
  destruct (g a) eqn:Hg; simpl.
  - now rewrite IH'.
  - destruct (f a) eqn:Hf; [|exact IH'].
    rewrite (H a (or_introl eq_refl) Hf) in Hg. discriminate.
Qed.

Lemma filter_all :
  forall {A} (f : A -> bool) (l : list A),
    (forall x, In x l -> f x = true) -> filter f l = l.
Proof.
  intros A f l H. induction l as [|a l IH]; simpl; [reflexivity|].
  rewrite (H a (or_introl eq_refl)), IH; [reflexivity|].
  intros x Hx. apply H. now right.
Qed.

(** Loading pairs each row with the descriptor that bears its descriptor
    id, and fails when a row has none. *)
Lemma load_trial_params_columns :
  forall ds rows loaded,
    load_trial_params ds rows = Some loaded ->
    map TrialParam.columns loaded = rows
    /\ (forall lp, In lp loaded ->
          find (fun d => TrialParamDistributionModel.param_distribution_id d
                         =? TrialParamModel.param_distribution_id
                              (TrialParam.columns lp)) ds
          = Some (TrialParam.param_distribution lp)).
Proof.
  intros ds rows. induction rows as [|row rows IH]; intros loaded Hload;
    simpl in Hload.
  - injection Hload as <-. split; [reflexivity|intros lp []].
  - destruct (find _ ds) as [d|] eqn:Hd; [|discriminate].
    destruct (load_trial_params ds rows) as [loaded'|]; [|discriminate].
    injection Hload as <-. destruct (IH loaded' eq_refl) as [Hcols Hdesc].
    split; [simpl; now rewrite Hcols|].
    intros lp [<-|Hin]; [exact Hd|now apply Hdesc].
Qed.

Lemma load_trial_params_total :
  forall ds rows,
    (forall row, In row rows ->
       exists d,
         find (fun d => TrialParamDistributionModel.param_distribution_id d
                        =? TrialParamModel.param_distribution_id row) ds
         = Some d) ->
    exists loaded, load_trial_params ds rows = Some loaded.
Proof.
  intros ds rows. induction rows as [|row rows IH]; intro Hall; simpl.
  - now exists [].
  - destruct (Hall row (or_introl eq_refl)) as [d Hd]. rewrite Hd.
    destruct IH as [loaded Hloaded]; [intros r Hr; apply Hall; now right|].
    rewrite Hloaded. eexists. reflexivity.
Qed.

Lemma load_trial_params_filter :
  forall ds rows loaded (f : TrialParamModel.t -> bool),
    load_trial_params ds rows = Some loaded ->
    load_trial_params ds (filter f rows)
    = Some (filter (fun lp => f (TrialParam.columns lp)) loaded).
Proof.
  intros ds rows. induction rows as [|row rows IH]; intros loaded f Hload;
    simpl in Hload.
  - injection Hload as <-. reflexivity.
  - destruct (find _ ds) as [d|] eqn:Hd; [|discriminate].
    destruct (load_trial_params ds rows) as [loaded'|] eqn:Hrest;
      [|discriminate].
    injection Hload as <-. simpl.
    destruct (f row); simpl; rewrite ?Hd, (IH loaded' f eq_refl); reflexivity.
Qed.

(** In a store that respects the constraints, the descriptor of a recorded
    value is found by its id, and belongs to the trial of the value. *)
Lemma well_formed_descriptor_found :
  forall db p,
    well_formed db -> In p (trial_params db) ->
    exists d,
      find (fun d => TrialParamDistributionModel.param_distribution_id d
                     =? TrialParamModel.param_distribution_id p)
           (param_distributions db) = Some d
      /\ In d (param_distributions db)
      /\ TrialParamDistributionModel.param_distribution_id d
         = TrialParamModel.param_distribution_id p
      /\ TrialParamDistributionModel.trial_id d = TrialParamModel.trial_id p.
Proof.
  intros db p Hwf Hp.
  destruct (wf_param_distribution db Hwf p Hp) as (d & Hd & Hid & Htrial).
  assert (Hmatch : (TrialParamDistributionModel.param_distribution_id d
                    =? TrialParamModel.param_distribution_id p) = true)
    by now apply Z.eqb_eq.
  destruct (find_present
              (fun d => TrialParamDistributionModel.param_distribution_id d
                        =? TrialParamModel.param_distribution_id p)
              _ d Hd Hmatch) as [d' Hfind].
  exists d'. split; [exact Hfind|].
  apply find_some in Hfind. destruct Hfind as [Hd' Hid'].
  apply Z.eqb_eq in Hid'.
  assert (d' = d)
    by (apply (NoDup_map_eq _ _ d' d (wf_distribution_ids db Hwf) Hd' Hd);
        congruence).
  subst d'. auto.
Qed.

Lemma find_filter_head :
  forall {A} (f : A -> bool) (l : list A) (x : A),
    find f l = Some x -> exists rest, filter f l = x :: rest.
Proof.
  intros A f l x. induction l as [|a l IH]; simpl; [discriminate|].
  destruct (f a) eqn:Hf.
  - intro H. injection H as <-. eexists. reflexivity.
  - exact IH.
Qed.

Lemma merge_single :
  forall {codec : JsonCodec} {dists : Distributions} trial trial_params values,
    exists agg,
      _merge_trials_orm [trial] trial_params values = [agg]
      /\ Trial.trial_id agg = TrialModel.trial_id trial.
Proof.
  intros codec dists trial trial_params values.
  unfold _merge_trials_orm. cbn [fold_left dict_set map].
  destruct_param_maps. eexists. split; reflexivity.
Qed.

(** The parameter rows of one trial, loaded in a store that respects the
    constraints: each comes with a descriptor of that trial, and no two
    bear the same name. *)
Lemma loaded_params_of_trial :
  forall db id loaded,
    well_formed db ->
    load_trial_params (param_distributions db)
      (filter (fun p => TrialParamModel.trial_id p =? id) (trial_params db))
    = Some loaded ->
    (forall lp, In lp loaded ->
       In (TrialParam.columns lp) (trial_params db)
       /\ TrialParam.trial_id lp = id
       /\ In (TrialParam.param_distribution lp) (param_distributions db)
       /\ TrialParamDistributionModel.param_distribution_id
            (TrialParam.param_distribution lp)
          = TrialParamModel.param_distribution_id (TrialParam.columns lp)
       /\ TrialParamDistributionModel.trial_id (TrialParam.param_distribution lp)
          = id)
    /\ NoDup (map TrialParam.param_name loaded).
Proof.
  intros db id loaded Hwf Hload.
  destruct (load_trial_params_columns _ _ _ Hload) as [Hcols Hdesc].
  assert (Hfacts : forall lp, In lp loaded ->
       In (TrialParam.columns lp) (trial_params db)
       /\ TrialParam.trial_id lp = id
       /\ In (TrialParam.param_distribution lp) (param_distributions db)
       /\ TrialParamDistributionModel.param_distribution_id
            (TrialParam.param_distribution lp)
          = TrialParamModel.param_distribution_id (TrialParam.columns lp)
       /\ TrialParamDistributionModel.trial_id (TrialParam.param_distribution lp)
          = id).
  { intros lp Hlp.
    assert (Hrow : In (TrialParam.columns lp)
                      (filter (fun p => TrialParamModel.trial_id p =? id)
                              (trial_params db)))
      by (rewrite <- Hcols; now apply in_map).
    apply filter_In in Hrow. destruct Hrow as [Hin Hid].
    apply Z.eqb_eq in Hid.
    destruct (well_formed_descriptor_found db _ Hwf Hin)
      as (d & Hfind & Hd & Hdid & Hdtrial).
    rewrite (Hdesc lp Hlp) in Hfind. injection Hfind as Heq.
    rewrite Heq. unfold TrialParam.trial_id. repeat split; congruence. }
  split; [exact Hfacts|].
  apply NoDup_map_in_inj.
  - apply (NoDup_map_inv TrialParam.columns). rewrite Hcols.
    apply NoDup_filter.
    exact (NoDup_map_inv _ _ (wf_param_keys db Hwf)).
  - intros [p1 d1] [p2 d2] H1 H2 Hname.
    destruct (Hfacts _ H1) as (Hp1 & Ht1 & Hd1 & Hi1 & Hdt1).
    destruct (Hfacts _ H2) as (Hp2 & Ht2 & Hd2 & Hi2 & Hdt2).
    unfold TrialParam.param_name, TrialParam.trial_id in *. cbn in *.
    assert (d1 = d2).
    { apply (NoDup_map_eq _ _ d1 d2 (wf_distribution_names db Hwf) Hd1 Hd2).
      congruence. }
    subst d2.
    assert (p1 = p2).
    { apply (NoDup_map_eq _ _ p1 p2 (wf_param_keys db Hwf) Hp1 Hp2).
      congruence. }
    now subst p2.
Qed.

(** Among stored parameter rows, each taken once and loaded in a store
    that respects the constraints, no two rows of one trial bear the same
    name. *)
Lemma loaded_rows_distinct_names :
  forall db rows loaded id,
    well_formed db ->
    NoDup rows ->
    incl rows (trial_params db) ->
    load_trial_params (param_distributions db) rows = Some loaded ->
    NoDup (map TrialParam.param_name
               (filter (fun lp => TrialParam.trial_id lp =? id) loaded)).
Proof.
  intros db rows loaded id Hwf Hnd Hincl Hload.
  destruct (load_trial_params_columns _ _ _ Hload) as [Hcols Hdesc].
  assert (Hfacts : forall lp,
             In lp (filter (fun lp => TrialParam.trial_id lp =? id) loaded) ->
             In (TrialParam.columns lp) (trial_params db)
             /\ TrialParamModel.trial_id (TrialParam.columns lp) = id
             /\ In (TrialParam.param_distribution lp) (param_distributions db)
             /\ TrialParamDistributionModel.param_distribution_id
                  (TrialParam.param_distribution lp)
                = TrialParamModel.param_distribution_id (TrialParam.columns lp)
             /\ TrialParamDistributionModel.trial_id
                  (TrialParam.param_distribution lp)
                = id).
  { intros lp Hlp. apply filter_In in Hlp. destruct Hlp as [Hlp Hid].
    apply Z.eqb_eq in Hid. unfold TrialParam.trial_id in Hid.
    assert (Hin : In (TrialParam.columns lp) (trial_params db))
      by (apply Hincl; rewrite <- Hcols; now apply in_map).
    destruct (well_formed_descriptor_found db _ Hwf Hin)
      as (d & Hfind & Hd & Hdid & Hdtrial).
    rewrite (Hdesc lp Hlp) in Hfind. injection Hfind as Heq.
    rewrite Heq. repeat split; congruence. }
  apply NoDup_map_in_inj.
  - apply NoDup_filter. apply (NoDup_map_inv TrialParam.columns).
    now rewrite Hcols.
  - intros [p1 d1] [p2 d2] H1 H2 Hname.
    destruct (Hfacts _ H1) as (Hp1 & Ht1 & Hd1 & Hi1 & Hdt1).
    destruct (Hfacts _ H2) as (Hp2 & Ht2 & Hd2 & Hi2 & Hdt2).
    unfold TrialParam.param_name in Hname. cbn in *.
    assert (d1 = d2).
    { apply (NoDup_map_eq _ _ d1 d2 (wf_distribution_names db Hwf) Hd1 Hd2).
      congruence. }
    subst d2.
    assert (p1 = p2).
    { apply (NoDup_map_eq _ _ p1 p2 (wf_param_keys db Hwf) Hp1 Hp2).
      congruence. }
    now subst p2.
Qed.

(** C6, for the rows that the storage gives to the assembler: in every
    store that the storage has built from a blank database, any selection
    of the stored parameter rows is loaded with the descriptors of the
    rows, as [get_trial] and [get_all_trials] load theirs; and in every
    aggregate that [_merge_trials_orm] returns for these rows, with any
    trial rows and intermediate values, for every parameter row of the
    trial of the aggregate the external map holds, at the name of the
    parameter, the descriptor's decoding of the stored value, and the
    internal map holds the stored value itself.  A trial with one
    parameter row for [x] that stores 2.0 under a descriptor decoding 2.0
    as [four] is assembled with the external map [{x: four}] and the
    internal map [{x: 2.0}]. *)
Theorem merge_trials_orm_param_maps_of_stored_rows :
  forall {codec : JsonCodec} {dists : Distributions}
         (KEY : string) (SV : Z) (version : string),
    (forall (db : DB) (selected : TrialParamModel.t -> bool),
        reachable KEY SV version db ->
        exists loaded,
          load_trial_params (param_distributions db)
            (filter selected (trial_params db)) = Some loaded
          /\ forall trials values agg,
               In agg (_merge_trials_orm trials loaded values) ->
               forall p,
                 In p loaded ->
                 TrialParam.trial_id p = Trial.trial_id agg ->
                 dict_get String.eqb (TrialParam.param_name p)
                          (Trial.params agg)
                 = Some (to_external_repr
                           (json_to_distribution
                              (TrialParamDistributionModel.distribution_json
                                 (TrialParam.param_distribution p)))
                           (TrialParam.param_value p))
                 /\ dict_get String.eqb (TrialParam.param_name p)
                             (Trial.params_in_internal_repr agg)
                    = Some (TrialParam.param_value p))
    /\ (forall trial descriptor row four,
          TrialParamModel.trial_id row = TrialModel.trial_id trial ->
          TrialParamDistributionModel.param_name descriptor = "x" ->
          TrialParamModel.param_value row = 2%float ->
          to_external_repr
            (json_to_distribution
               (TrialParamDistributionModel.distribution_json descriptor))
            2%float = four ->
          map (fun agg => (Trial.params agg, Trial.params_in_internal_repr agg))
              (_merge_trials_orm [trial] [TrialParam.mk row descriptor] [])
          = [([("x", four)], [("x", 2%float)])]).
Proof.
  intros codec dists KEY SV version. split.
  - intros db selected Hreach.
    pose proof (reachable_well_formed KEY SV version db Hreach) as Hwf.
    destruct (load_trial_params_total (param_distributions db)
                (filter selected (trial_params db))) as [loaded Hload].
    { intros row Hrow. apply filter_In in Hrow. destruct Hrow as [Hrow _].
      destruct (well_formed_descriptor_found db row Hwf Hrow) as (d & Hd & _).
      now exists d. }
    exists loaded. split; [exact Hload|].
    intros trials values agg Hagg p Hp Htrial.
    apply (merged_params_distinct_names trials loaded values agg Hagg);
      [|exact Hp|exact Htrial].
    apply (loaded_rows_distinct_names db (filter selected (trial_params db))
             loaded (Trial.trial_id agg) Hwf).
    + apply NoDup_filter. exact (NoDup_map_inv _ _ (wf_param_keys db Hwf)).
    + intros row Hrow. apply filter_In in Hrow. tauto.
    + exact Hload.
  - intros trial descriptor row four Htid Hname Hv Hfour.
    rewrite <- Hv in Hfour.
    rewrite (merged_params_one_row trial descriptor row four Htid Hname Hfour).
    now rewrite Hv.
Qed.

Lemma merge_trials_orm_param_maps_of_stored_rows_witness :
  let row := TrialParamModel.mk 1 1 1 2%float in
  let p := TrialParam.mk row Doubles.descriptor_x in
  load_trial_params (param_distributions db_recorded)
    (filter (fun _ => true) (trial_params db_recorded)) = Some [p]
  /\ (forall agg,
        In agg (_merge_trials_orm (trials db_recorded) [p]
                  (trial_values db_recorded)) ->
        dict_get String.eqb "x" (Trial.params agg) = Some 4%float
        /\ dict_get String.eqb "x" (Trial.params_in_internal_repr agg)
           = Some 2%float)
  /\ map (fun agg => (Trial.params agg, Trial.params_in_internal_repr agg))
         (_merge_trials_orm [Doubles.trial1] [p] [])
     = [([("x", 4%float)], [("x", 2%float)])].
Proof.
  cbv zeta.
  pose proof (@merge_trials_orm_param_maps_of_stored_rows
                Doubles.codec Doubles.dists KEY SCHEMA VERSION)
    as [Hall Hscenario].
  split; [reflexivity|]. split.
  - intros agg Hagg.
    destruct (Hall db_recorded (fun _ => true) db_recorded_reachable)
      as (loaded & Hload & Hmaps).
    assert (Hloaded : loaded
                      = [TrialParam.mk (TrialParamModel.mk 1 1 1 2%float)
                                       Doubles.descriptor_x]).
    { assert (Hrun : load_trial_params (param_distributions db_recorded)
                       (filter (fun _ => true) (trial_params db_recorded))
                     = Some [TrialParam.mk (TrialParamModel.mk 1 1 1 2%float)
                                           Doubles.descriptor_x])
        by reflexivity.
      rewrite Hrun in Hload. now injection Hload. }
    subst loaded.
    refine (Hmaps (trials db_recorded) (trial_values db_recorded) agg Hagg
                  (TrialParam.mk (TrialParamModel.mk 1 1 1 2%float)
                                 Doubles.descriptor_x) _ _).
    + left. reflexivity.
    + destruct Hagg as [<-|[]]. reflexivity.
  - apply (Hscenario Doubles.trial1 Doubles.descriptor_x
                     (TrialParamModel.mk 1 1 1 2%float) 4%float);
      reflexivity.
Defined.

(** The maps that the loop builds from the loaded rows of one trial. *)
Lemma loaded_params_maps :
  forall {V} db id loaded trial (val : TrialParam.t -> V) name,
    well_formed db ->
    TrialModel.trial_id trial = id ->
    load_trial_params (param_distributions db)
      (filter (fun p => TrialParamModel.trial_id p =? id) (trial_params db))
    = Some loaded ->
    dict_get String.eqb name
      (fold_left (fun d p => dict_set String.eqb (TrialParam.param_name p)
                                      (val p) d)
                 loaded [])
    = match TrialParamDistributionModel.find_by_trial_and_param_name
              trial name (param_distributions db),
            TrialParamModel.find_by_trial_and_param_name
              trial name (param_distributions db) (trial_params db) with
      | Some d, Some p => Some (val (TrialParam.mk p d))
      | _, _ => None
      end.
Proof.
  intros V db id loaded trial val name Hwf Hid Hload.
  destruct (loaded_params_of_trial db id loaded Hwf Hload) as [Hfacts Hnd].
  destruct (load_trial_params_columns _ _ _ Hload) as [Hcols _].
  unfold TrialParamModel.find_by_trial_and_param_name.
  destruct (TrialParamDistributionModel.find_by_trial_and_param_name
              trial name (param_distributions db)) as [d|] eqn:Hd.
  - destruct (find_descriptor_in _ _ _ _ Hd) as (Hdin & Hdtrial & Hdname).
    destruct (find _ (trial_params db)) as [p|] eqn:Hp.
    + (* a value is recorded: its loaded row is in the loop *)
      apply find_some in Hp. destruct Hp as [Hpin Hpkey].
      apply andb_true_iff in Hpkey. destruct Hpkey as [Hptrial Hpd].
      apply Z.eqb_eq in Hptrial. apply Z.eqb_eq in Hpd.
      assert (Hrow : In p (map TrialParam.columns loaded)).
      { rewrite Hcols. apply filter_In. split; [assumption|].
        apply Z.eqb_eq. congruence. }
      apply in_map_iff in Hrow. destruct Hrow as ([p' d'] & Hp' & Hlp).
      cbn in Hp'. subst p'.
      destruct (Hfacts _ Hlp) as (_ & _ & Hd'in & Hd'id & _). cbn in *.
      assert (d' = d).
      { apply (NoDup_map_eq _ _ d' d (wf_distribution_ids db Hwf) Hd'in Hdin).
        congruence. }
      subst d'.
      rewrite <- Hdname.
      exact (assign_all_present String.eqb String.eqb_spec
               TrialParam.param_name val loaded [] (TrialParam.mk p d)
               Hnd Hlp).
    + (* no value is recorded: no loaded row bears the name *)
      rewrite (assign_all_absent String.eqb String.eqb_spec); [reflexivity|].
      intro Hin. apply in_map_iff in Hin. destruct Hin as ([p' d'] & Hn & Hlp).
      destruct (Hfacts _ Hlp) as (Hp'in & Hp'trial & Hd'in & Hd'id & Hd'trial).
      unfold TrialParam.param_name, TrialParam.trial_id in *. cbn in *.
      assert (d' = d).
      { apply (NoDup_map_eq _ _ d' d (wf_distribution_names db Hwf)
                 Hd'in Hdin).
        congruence. }
      subst d'.
      pose proof (find_none _ _ Hp p' Hp'in) as Hnone. cbn in Hnone.
      rewrite Hid, Hp'trial, Hd'id, !Z.eqb_refl in Hnone. discriminate.
  - (* no descriptor bears the name *)
    rewrite (assign_all_absent String.eqb String.eqb_spec); [reflexivity|].
    intro Hin. apply in_map_iff in Hin. destruct Hin as ([p' d'] & Hn & Hlp).
    destruct (Hfacts _ Hlp) as (_ & _ & Hd'in & _ & Hd'trial).
    unfold TrialParam.param_name in *. cbn in *.
    unfold TrialParamDistributionModel.find_by_trial_and_param_name in Hd.
    pose proof (find_none _ _ Hd d' Hd'in) as Hnone. cbn in Hnone.
    rewrite Hid, Hd'trial, Hn, Z.eqb_refl, String.eqb_refl in Hnone.
    discriminate.
Qed.

(** The map from steps that the loop builds from the values of one
    trial. *)
Lemma loaded_values_map :
  forall db trial step,
    well_formed db ->
    dict_get Z.eqb step
      (fold_left (fun d v => dict_set Z.eqb (TrialValueModel.step v)
                                      (TrialValueModel.value v) d)
                 (filter (fun v => TrialValueModel.trial_id v
                                   =? TrialModel.trial_id trial)
                         (trial_values db))
                 [])
    = option_map TrialValueModel.value
        (TrialValueModel.find_by_trial_and_step trial step (trial_values db)).
Proof.
  intros db trial step Hwf.
  set (mine := filter (fun v => TrialValueModel.trial_id v
                                =? TrialModel.trial_id trial)
                      (trial_values db)).
  assert (Hnd : NoDup (map TrialValueModel.step mine)).
  { apply NoDup_map_in_inj.
    - apply NoDup_filter. exact (NoDup_map_inv _ _ (wf_value_keys db Hwf)).
    - intros x y Hx Hy Hstep. subst mine.
      apply filter_In in Hx. apply filter_In in Hy.
      destruct Hx as [Hx Hxt], Hy as [Hy Hyt].
      apply Z.eqb_eq in Hxt. apply Z.eqb_eq in Hyt.
      apply (NoDup_map_eq _ _ x y (wf_value_keys db Hwf) Hx Hy). congruence. }
  unfold TrialValueModel.find_by_trial_and_step.
  destruct (find _ (trial_values db)) as [v|] eqn:Hv.
  - apply find_some in Hv. destruct Hv as [Hvin Hvkey].
    apply andb_true_iff in Hvkey. destruct Hvkey as [Hvtrial Hvstep].
    apply Z.eqb_eq in Hvstep. subst step.
    apply (assign_all_present Z.eqb Z.eqb_spec
             TrialValueModel.step TrialValueModel.value mine [] v Hnd).
    subst mine. apply filter_In. split; assumption.
  - rewrite (assign_all_absent Z.eqb Z.eqb_spec); [reflexivity|].
    intro Hin. apply in_map_iff in Hin. destruct Hin as (v & Hstep & Hvin).
    subst mine. apply filter_In in Hvin. destruct Hvin as [Hvin Hvtrial].
    pose proof (find_none _ _ Hv v Hvin) as Hnone. cbn in Hnone.
    rewrite Hvtrial, Hstep, Z.eqb_refl in Hnone. discriminate.
Qed.

Lemma merged_trial_shows :
  forall {codec : JsonCodec} {dists : Distributions} db trial loaded agg,
    well_formed db ->
    load_trial_params (param_distributions db)
      (filter (fun p => TrialParamModel.trial_id p
                        =? TrialModel.trial_id trial)
              (trial_params db))
    = Some loaded ->
    Trial.trial_id agg = TrialModel.trial_id trial ->
    (exists trials values,
        In agg (_merge_trials_orm trials loaded values)
        /\ find (fun t => Trial.trial_id agg =? TrialModel.trial_id t)
                (rev trials) = Some trial
        /\ filter (fun v => TrialValueModel.trial_id v =? Trial.trial_id agg)
                  values
           = filter (fun v => TrialValueModel.trial_id v
                              =? TrialModel.trial_id trial)
                    (trial_values db)) ->
    shows db trial agg.
Proof.
  intros codec dists db trial loaded agg Hwf Hload Hid
         (trials & values & Hin & Hlast & Hvalues).
  destruct (merged_columns trials loaded values agg Hin)
    as (trial' & Hlast' & Hstate & Hvalue & Hattrs & Hstart & Hcomplete).
  rewrite Hlast in Hlast'. injection Hlast' as <-.
  destruct (merged_params trials loaded values agg Hin) as [Hext Hint].
  pose proof (merged_intermediate_values trials loaded values agg Hin) as Hval.
  cbv zeta in Hext, Hint.
  destruct (loaded_params_of_trial db _ loaded Hwf Hload) as [Hfacts _].
  rewrite filter_all in Hext, Hint
    by (intros lp Hlp; apply Z.eqb_eq;
        destruct (Hfacts lp Hlp) as (_ & Ht & _); congruence).
  unfold shows. repeat split; try assumption.
  - intro name. rewrite Hext.
    exact (loaded_params_maps db (TrialModel.trial_id trial) loaded trial
             (fun p => to_external_repr
                         (json_to_distribution
                            (TrialParamDistributionModel.distribution_json
                               (TrialParam.param_distribution p)))
                         (TrialParam.param_value p))
             name Hwf eq_refl Hload).
  - intro name. rewrite Hint.
    rewrite (loaded_params_maps db (TrialModel.trial_id trial) loaded trial
               TrialParam.param_value name Hwf eq_refl Hload).
    unfold TrialParamModel.find_by_trial_and_param_name.
    destruct (TrialParamDistributionModel.find_by_trial_and_param_name _ _ _);
      [|reflexivity].
    destruct (find _ (trial_params db)); reflexivity.
  - intro step. rewrite Hval, Hvalues.
    exact (loaded_values_map db trial step Hwf).
Qed.

Lemma get_trial_shows :
  forall {codec : JsonCodec} {dists : Distributions} db id trial,
    well_formed db ->
    TrialModel.find_by_id id (trials db) = Some trial ->
    exists agg, get_trial id db = (Ok agg, db) /\ shows db trial agg.
Proof.
  intros codec dists db id trial Hwf Htrial.
  destruct (find_trial_in _ _ _ Htrial) as [Hin Hid]. subst id.
  destruct (find_filter_head _ _ _ Htrial) as [rest Hfilter].
  destruct (load_trial_params_total
              (param_distributions db)
              (filter (fun p => TrialParamModel.trial_id p
                                =? TrialModel.trial_id trial)
                      (trial_params db))) as [loaded Hload].
  { intros row Hrow. apply filter_In in Hrow. destruct Hrow as [Hrow _].
    destruct (well_formed_descriptor_found db row Hwf Hrow) as (d & Hd & _).
    now exists d. }
  set (values := filter (fun v => TrialValueModel.trial_id v
                                  =? TrialModel.trial_id trial)
                        (trial_values db)).
  destruct (merge_single trial loaded values) as (agg & Hmerge & Hagg).
  exists agg. split.
  - unfold get_trial. rewrite Hfilter.
    unfold bind, loaded_trial_params, query. rewrite Hload.
    fold values. rewrite Hmerge. reflexivity.
  - apply (merged_trial_shows db trial loaded agg Hwf Hload Hagg).
    exists [trial], values. split; [rewrite Hmerge; now left|]. split.
    + cbn. rewrite Hagg, Z.eqb_refl. reflexivity.
    + rewrite Hagg. subst values. apply filter_filter_implied. auto.
Qed.

(** X11: [get_trial] on a store that the storage has built.  For an id
    that no trial bears it raises [NoResultFound], not the error of the
    strict lookups.  For an existing trial it returns, leaves the store as
    it is, and the aggregate bears the columns of the trial row, and holds
    under each parameter name the value recorded for it (decoded by the
    registered descriptor, and as stored) and under each step the
    intermediate value recorded at it, and nothing under other names and
    steps. *)
Theorem get_trial_shows_the_trial :
  forall {codec : JsonCodec} {dists : Distributions}
         (KEY : string) (SV : Z) (version : string) (db : DB) (id : Z),
    reachable KEY SV version db ->
    (TrialModel.find_by_id id (trials db) = None ->
     get_trial id db = (Raise NoResultFound, db))
    /\ (forall trial,
          TrialModel.find_by_id id (trials db) = Some trial ->
          exists agg, get_trial id db = (Ok agg, db) /\ shows db trial agg).
Proof.
  intros codec dists KEY SV version db id Hreach. split.
  - intro Hnone. unfold get_trial.
    destruct (filter _ (trials db)) as [|trial rest] eqn:Hfilter;
      [reflexivity|].
    assert (Hin : In trial (filter (fun r => TrialModel.trial_id r =? id)
                                   (trials db)))
      by (rewrite Hfilter; now left).
    apply filter_In in Hin. destruct Hin as [Hin Hid].
    unfold TrialModel.find_by_id in Hnone.
    rewrite (find_none _ _ Hnone trial Hin) in Hid. discriminate.
  - intros trial Htrial.
    exact (get_trial_shows db id trial
             (reachable_well_formed KEY SV version db Hreach) Htrial).
Qed.

Lemma get_trial_shows_the_trial_witness :
  get_trial 9 db_recorded = (Raise NoResultFound, db_recorded)
  /\ exists agg,
       get_trial 1 db_recorded = (Ok agg, db_recorded)
       /\ shows db_recorded trial1 agg.
Proof.
  split.
  - apply (proj1 (get_trial_shows_the_trial KEY SCHEMA VERSION db_recorded 9
                    db_recorded_reachable)).
    reflexivity.
  - apply (proj2 (get_trial_shows_the_trial KEY SCHEMA VERSION db_recorded 1
                    db_recorded_reachable) trial1).
    reflexivity.
Defined.

Lemma NoDup_map_filter :
  forall {A B} (f : A -> B) (g : A -> bool) (l : list A),
    NoDup (map f l) -> NoDup (map f (filter g l)).
Proof.
  intros A B f g l. induction l as [|a l IH]; simpl; intro Hnd;
    [constructor|].
  inversion Hnd as [|? ? Ha Hnd']; subst.
  destruct (g a); simpl; [|now apply IH].
  constructor; [|now apply IH].
  intro Hin. apply Ha. apply in_map_iff in Hin.
  destruct Hin as (x & Hx & Hin). apply filter_In in Hin.
  rewrite <- Hx. apply in_map. tauto.
Qed.

(** An aggregate of the assembler is the aggregate of its trial row alone
    with the rows of that trial. *)
Lemma merge_restricted :
  forall {codec : JsonCodec} {dists : Distributions}
         trials trial_params values agg,
    In agg (_merge_trials_orm trials trial_params values) ->
    exists trial,
      find (fun t => Trial.trial_id agg =? TrialModel.trial_id t) (rev trials)
      = Some trial
      /\ _merge_trials_orm [trial]
           (filter (fun p => TrialParam.trial_id p =? Trial.trial_id agg)
                   trial_params)
           (filter (fun v => TrialValueModel.trial_id v =? Trial.trial_id agg)
                   values)
         = [agg].
Proof.
  intros codec dists trials trial_params values agg Hin.
  destruct (merged_columns trials trial_params values agg Hin)
    as (trial & Hlast & _).
  exists trial. split; [exact Hlast|].
  pose proof Hlast as Hid. apply find_some in Hid. destruct Hid as [_ Hid].
  apply Z.eqb_eq in Hid.
  unfold _merge_trials_orm in Hin. apply in_map_iff in Hin.
  destruct Hin as ([id trial'] & Hagg & Hentry).
  apply (dict_entry_get Z.eqb Z.eqb_spec) in Hentry;
    [|apply (assign_all_keys_NoDup Z.eqb Z.eqb_spec); constructor].
  assert (Hagg_id : Trial.trial_id agg = id).
  { rewrite <- Hagg. destruct_param_maps. reflexivity. }
  rewrite Hagg_id in *.
  rewrite (assign_all_last Z.eqb Z.eqb_spec TrialModel.trial_id (fun t => t))
    in Hentry.
  rewrite Hlast in Hentry. injection Hentry as <-.
  rewrite <- Hagg. unfold _merge_trials_orm. cbn [fold_left dict_set map].
  rewrite <- Hid.
  rewrite !(defaultdict_grouped TrialParam.trial_id).
  rewrite !(defaultdict_grouped TrialValueModel.trial_id).
  cbn [defaultdict_get dict_get app].
  rewrite !filter_filter_implied by auto.
  reflexivity.
Qed.

Lemma trial_in_study_found :
  forall db s trial,
    In trial (trials db) -> TrialModel.study_id trial = s ->
    trial_in_study db s (TrialModel.trial_id trial) = true.
Proof.
  intros db s trial Hin Hs. unfold trial_in_study.
  apply existsb_exists. exists trial. split; [assumption|].
  rewrite Hs, !Z.eqb_refl. reflexivity.
Qed.

Lemma get_all_trials_consistent :
  forall {codec : JsonCodec} {dists : Distributions} db s,
    well_formed db ->
    exists aggs,
      get_all_trials s db = (Ok aggs, db)
      /\ map Trial.trial_id aggs
         = map TrialModel.trial_id
               (filter (fun r => TrialModel.study_id r =? s) (trials db))
      /\ (forall agg, In agg aggs ->
            get_trial (Trial.trial_id agg) db = (Ok agg, db)).
Proof.
  intros codec dists db s Hwf.
  set (mine := filter (fun r => TrialModel.study_id r =? s) (trials db)).
  set (rows := filter (fun p => trial_in_study db s (TrialParamModel.trial_id p))
                      (trial_params db)).
  set (values := filter (fun v => trial_in_study db s
                                    (TrialValueModel.trial_id v))
                        (trial_values db)).
  destruct (load_trial_params_total (param_distributions db) rows)
    as [loaded Hload].
  { intros row Hrow. apply filter_In in Hrow. destruct Hrow as [Hrow _].
    destruct (well_formed_descriptor_found db row Hwf Hrow) as (d & Hd & _).
    now exists d. }
  assert (Hmine : NoDup (map TrialModel.trial_id mine))
    by (apply NoDup_map_filter; exact (wf_trial_ids db Hwf)).
  exists (_merge_trials_orm mine loaded values). split; [|split].
  - unfold get_all_trials, bind, query, loaded_trial_params, ret.
    fold rows. rewrite Hload. reflexivity.
  - rewrite merged_ids.
    rewrite (assign_all_distinct Z.eqb Z.eqb_spec TrialModel.trial_id
               (fun t => t) mine []) by exact Hmine.
    cbn [app]. rewrite map_map. reflexivity.
  - intros agg Hagg.
    destruct (merge_restricted mine loaded values agg Hagg)
      as (trial & Hlast & Hsingle).
    apply find_some in Hlast. destruct Hlast as [Hin Hid].
    apply Z.eqb_eq in Hid. apply in_rev in Hin.
    apply filter_In in Hin. destruct Hin as [Hin Hstudy].
    apply Z.eqb_eq in Hstudy.
    pose proof (trial_in_study_found db s trial Hin Hstudy) as Hinstudy.
    (* the trial is the one that its id finds *)
    assert (Hfind : TrialModel.find_by_id (Trial.trial_id agg) (trials db)
                    = Some trial).
    { destruct (find_present
                  (fun r => TrialModel.trial_id r =? Trial.trial_id agg)
                  (trials db) trial Hin) as [t0 Ht0];
        [apply Z.eqb_eq; congruence|].
      unfold TrialModel.find_by_id. rewrite Ht0. f_equal.
      apply find_some in Ht0. destruct Ht0 as [Hin0 Hid0].
      apply Z.eqb_eq in Hid0.
      apply (NoDup_map_eq _ _ t0 trial (wf_trial_ids db Hwf) Hin0 Hin).
      congruence. }
    destruct (find_filter_head _ _ _ Hfind) as [rest Hfilter].
    unfold get_trial. rewrite Hfilter.
    unfold bind, loaded_trial_params, query.
    (* the rows of the trial are the rows of the study that bear its id *)
    assert (Hrows : filter (fun p => TrialParamModel.trial_id p
                                     =? Trial.trial_id agg)
                           (trial_params db)
                    = filter (fun p => TrialParamModel.trial_id p
                                       =? Trial.trial_id agg) rows).
    { subst rows. symmetry. apply filter_filter_implied.
      intros p _ Hp. apply Z.eqb_eq in Hp. rewrite Hp, Hid. exact Hinstudy. }
    assert (Hvalues : filter (fun v => TrialValueModel.trial_id v
                                       =? Trial.trial_id agg)
                             (trial_values db)
                      = filter (fun v => TrialValueModel.trial_id v
                                         =? Trial.trial_id agg) values).
    { subst values. symmetry. apply filter_filter_implied.
      intros v _ Hv. apply Z.eqb_eq in Hv. rewrite Hv, Hid. exact Hinstudy. }
    rewrite Hrows.
    rewrite (load_trial_params_filter _ _ loaded
               (fun p => TrialParamModel.trial_id p =? Trial.trial_id agg)
               Hload).
    cbv beta iota. rewrite Hvalues.
    unfold TrialParam.trial_id in Hsingle. rewrite Hsingle. reflexivity.
Qed.

(** X12: on a store that the storage has built, [get_all_trials] returns
    for every study id, also one that no study bears, leaves the store as
    it is, and gives one aggregate for each trial of the study, in the
    order of the trial rows; each aggregate is the one that [get_trial]
    returns for its id. *)
Theorem get_all_trials_agrees_with_get_trial :
  forall {codec : JsonCodec} {dists : Distributions}
         (KEY : string) (SV : Z) (version : string) (db : DB) (study_id : Z),
    reachable KEY SV version db ->
    exists aggs,
      get_all_trials study_id db = (Ok aggs, db)
      /\ map Trial.trial_id aggs
         = map TrialModel.trial_id
               (filter (fun r => TrialModel.study_id r =? study_id) (trials db))
      /\ (forall agg, In agg aggs ->
            get_trial (Trial.trial_id agg) db = (Ok agg, db)).
Proof.
  intros codec dists KEY SV version db study_id Hreach.
  exact (get_all_trials_consistent db study_id
           (reachable_well_formed KEY SV version db Hreach)).
Qed.

Lemma get_all_trials_agrees_with_get_trial_witness :
  exists aggs,
    get_all_trials 1 db_recorded = (Ok aggs, db_recorded)
    /\ map Trial.trial_id aggs = [1]
    /\ (forall agg, In agg aggs ->
          get_trial (Trial.trial_id agg) db_recorded = (Ok agg, db_recorded)).
Proof.
  exact (get_all_trials_agrees_with_get_trial KEY SCHEMA VERSION db_recorded 1
           db_recorded_reachable).
Defined.

(** ** Registering, recording and reading a parameter *)

(** X13: on a store that the storage has built, once
    [set_trial_param_distribution] has returned for a parameter name of an
    existing trial, [set_trial_param] for that name returns, and
    [get_trial] then shows the value under the name: decoded by the
    descriptor that [json_to_distribution] reads back from what
    [distribution_to_json] wrote in the external map, and as it is in the
    internal map. *)
Theorem registered_parameter_is_recorded_and_read :
  forall {codec : JsonCodec} {dists : Distributions}
         (KEY : string) (SV : Z) (version : string) (db db1 : DB)
         (id : Z) (name : string) (d : distribution) (v : float)
         (trial : TrialModel.t),
    reachable KEY SV version db ->
    TrialModel.find_by_id id (trials db) = Some trial ->
    set_trial_param_distribution id name d db = (Ok tt, db1) ->
    exists db2 agg,
      set_trial_param id name v db1 = (Ok tt, db2)
      /\ get_trial id db2 = (Ok agg, db2)
      /\ dict_get String.eqb name (Trial.params agg)
         = Some (to_external_repr
                   (json_to_distribution (distribution_to_json d)) v)
      /\ dict_get String.eqb name (Trial.params_in_internal_repr agg)
         = Some v.
Proof.
  intros codec dists KEY SV version db db1 id name d v trial
         Hreach Htrial Hregister.
  pose proof (reachable_well_formed KEY SV version db Hreach) as Hwf.
  pose proof (writes_set_trial_param_distribution id name d db) as Hwrites1.
  rewrite Hregister in Hwrites1. cbn [snd] in Hwrites1.
  destruct (find_trial_in _ _ _ Htrial) as [_ Hid].
  (* the descriptor row that was committed *)
  unfold set_trial_param_distribution, add_trial_param_distribution
    in Hregister.
  destruct (existsb _ (param_distributions db)) eqn:Hex; [discriminate|].
  cbn [orb] in Hregister. destruct (negb _); [discriminate|].
  injection Hregister as <-.
  set (row := TrialParamDistributionModel.mk
                (fresh_id (map TrialParamDistributionModel.param_distribution_id
                               (param_distributions db)))
                id name (distribution_to_json d)) in *.
  set (db1 := with_param_distributions (param_distributions db ++ [row]) db)
    in *.
  assert (Hd : TrialParamDistributionModel.find_by_trial_and_param_name
                 trial name (param_distributions db1) = Some row).
  { unfold TrialParamDistributionModel.find_by_trial_and_param_name.
    subst db1. store_simpl. rewrite Hid.
    rewrite find_snoc_absent.
    - cbn. now rewrite Z.eqb_refl, String.eqb_refl.
    - rewrite find_existsb in Hex. destruct (find _ _); congruence. }
  assert (Hp : TrialParamModel.find_by_trial_and_param_name
                 trial name (param_distributions db1) (trial_params db1)
               = None).
  { unfold TrialParamModel.find_by_trial_and_param_name. rewrite Hd.
    subst db1. store_simpl.
    destruct (find _ (trial_params db)) as [p|] eqn:Hfind; [|reflexivity].
    apply find_some in Hfind. destruct Hfind as [Hpin Hkey].
    apply andb_true_iff in Hkey. destruct Hkey as [_ Hpd].
    apply Z.eqb_eq in Hpd. unfold row in Hpd.
    cbn [TrialParamDistributionModel.param_distribution_id] in Hpd.
    destruct (wf_param_distribution db Hwf p Hpin) as (d0 & Hd0 & Hd0id & _).
    exfalso.
    apply (fresh_id_new
             (map TrialParamDistributionModel.param_distribution_id
                  (param_distributions db))).
    rewrite <- Hpd, <- Hd0id. now apply in_map. }
  assert (Htrial1 : TrialModel.find_by_id id (trials db1) = Some trial)
    by exact Htrial.
  destruct (set_trial_param_first id name v db1 trial row Htrial1 Hd Hp)
    as [Hrecord Hrecorded].
  set (prow := TrialParamModel.mk
                 (fresh_id (map TrialParamModel.trial_param_id
                                (trial_params db1)))
                 id (TrialParamDistributionModel.param_distribution_id row) v)
    in *.
  set (db2 := with_trial_params (trial_params db1 ++ [prow]) db1) in *.
  assert (Hwf2 : well_formed db2).
  { apply (writes_well_formed db db2); [|exact Hwf].
    apply (writes_trans db db1 db2 Hwrites1).
    pose proof (writes_set_trial_param id name v db1) as Hwrites2.
    rewrite Hrecord in Hwrites2. exact Hwrites2. }
  destruct (get_trial_shows db2 id trial Hwf2 Htrial1)
    as (agg & Hget & Hshows).
  exists db2, agg. split; [exact Hrecord|]. split; [exact Hget|].
  destruct Hshows as (_ & _ & _ & _ & _ & _ & Hext & Hint & _).
  specialize (Hext name). specialize (Hint name).
  assert (Hd2 : TrialParamDistributionModel.find_by_trial_and_param_name
                  trial name (param_distributions db2) = Some row)
    by exact Hd.
  assert (Hp2 : TrialParamModel.find_by_trial_and_param_name
                  trial name (param_distributions db2) (trial_params db2)
                = Some prow)
    by exact Hrecorded.
  rewrite Hd2, Hp2 in Hext. rewrite Hp2 in Hint.
  split; [exact Hext|exact Hint].
Qed.

Lemma registered_parameter_is_recorded_and_read_witness :
  exists db2 agg,
    set_trial_param 1 "y" 3%float
      (snd (@set_trial_param_distribution Doubles.dists 1 "y" Identity db_recorded))
    = (Ok tt, db2)
    /\ get_trial 1 db2 = (Ok agg, db2)
    /\ dict_get String.eqb "y" (Trial.params agg) = Some 3%float
    /\ dict_get String.eqb "y" (Trial.params_in_internal_repr agg)
       = Some 3%float.
Proof.
  apply (registered_parameter_is_recorded_and_read
           KEY SCHEMA VERSION db_recorded
           (snd (@set_trial_param_distribution Doubles.dists 1 "y" Identity db_recorded))
           1 "y" (Identity : @distribution Doubles.dists) 3%float trial1).
  - exact db_recorded_reachable.
  - reflexivity.
  - reflexivity.
Defined.

(** ** The attributes of a study *)

(** In a store that respects the constraints, [get_study_user_attrs]
    holds under a key the decoded value of the attribute row of that study
    and key. *)
Lemma get_study_user_attrs_lookup :
  forall {codec : JsonCodec} db id,
    well_formed db ->
    exists attrs,
      get_study_user_attrs id db = (Ok attrs, db)
      /\ (forall k,
            dict_get String.eqb k attrs
            = option_map
                (fun a => json_loads (StudyUserAttributeModel.value_json a))
                (StudyUserAttributeModel.find_by_study_id_and_key
                   id k (study_user_attributes db))).
Proof.
  intros codec db id Hwf.
  unfold get_study_user_attrs, bind, query, ret.
  eexists. split; [reflexivity|]. intro k.
  set (mine := StudyUserAttributeModel.where_study_id
                 id (study_user_attributes db)).
  assert (Hmine : forall a, In a mine <->
            In a (study_user_attributes db)
            /\ StudyUserAttributeModel.study_id a = id).
  { intro a. subst mine. unfold StudyUserAttributeModel.where_study_id.
    rewrite filter_In, Z.eqb_eq. tauto. }
  assert (Hnd : NoDup (map StudyUserAttributeModel.key mine)).
  { apply NoDup_map_in_inj.
    - subst mine. apply NoDup_filter.
      exact (NoDup_map_inv _ _ (wf_attribute_keys db Hwf)).
    - intros x y Hx Hy Hkey. apply Hmine in Hx. apply Hmine in Hy.
      destruct Hx as [Hx Hxs], Hy as [Hy Hys].
      apply (NoDup_map_eq _ _ x y (wf_attribute_keys db Hwf) Hx Hy).
      congruence. }
  unfold StudyUserAttributeModel.find_by_study_id_and_key.
  destruct (find _ (study_user_attributes db)) as [a|] eqn:Hfind.
  - apply find_some in Hfind. destruct Hfind as [Hin Hkey].
    apply andb_true_iff in Hkey. destruct Hkey as [Hs Hk].
    apply Z.eqb_eq in Hs. apply String.eqb_eq in Hk. subst k. cbn.
    apply (assign_all_present String.eqb String.eqb_spec
             StudyUserAttributeModel.key
             (fun a => json_loads (StudyUserAttributeModel.value_json a))
             mine [] a Hnd).
    apply Hmine. split; assumption.
  - rewrite (assign_all_absent String.eqb String.eqb_spec); [reflexivity|].
    intro Hin. apply in_map_iff in Hin. destruct Hin as (a & Hk & Hin).
    apply Hmine in Hin. destruct Hin as [Hin Hs].
    pose proof (find_none _ _ Hfind a Hin) as Hnone. cbn in Hnone.
    rewrite Hs, Hk, Z.eqb_refl, String.eqb_refl in Hnone. discriminate.
Qed.

Lemma find_rewritten :
  forall {A} (pred : A -> bool) (c : A -> bool) (row : A) (l : list A),
    (forall a, In a l -> c a = true -> pred row = pred a) ->
    find pred (map (fun a => if c a then row else a) l)
    = option_map (fun a => if c a then row else a) (find pred l).
Proof.
  intros A pred c row l H. induction l as [|a l IH]; simpl; [reflexivity|].
  assert (Ha : pred (if c a then row else a) = pred a).
  { destruct (c a) eqn:Hc; [|reflexivity].
    exact (H a (or_introl eq_refl) Hc). }
  rewrite Ha. destruct (pred a); [reflexivity|].
  apply IH. intros x Hx. apply H. now right.
Qed.

(** What [set_study_user_attr] does to the attribute row of a study and
    key, in a store that respects the constraints. *)
Lemma set_study_user_attr_rows :
  forall {codec : JsonCodec} db id key value study,
    well_formed db ->
    StudyModel.find_by_id id (studies db) = Some study ->
    exists db',
      set_study_user_attr id key value db = (Ok tt, db')
      /\ (exists a,
            StudyUserAttributeModel.find_by_study_id_and_key
              id key (study_user_attributes db') = Some a
            /\ StudyUserAttributeModel.value_json a = json_dumps value)
      /\ (forall id' k,
            (id', k) <> (id, key) ->
            StudyUserAttributeModel.find_by_study_id_and_key
              id' k (study_user_attributes db')
            = StudyUserAttributeModel.find_by_study_id_and_key
                id' k (study_user_attributes db)).
Proof.
  intros codec db id key value study Hwf Hstudy.
  unfold set_study_user_attr, bind, strict, query. rewrite Hstudy.
  destruct (StudyUserAttributeModel.find_by_study_id_and_key
              id key (study_user_attributes db)) as [attribute|] eqn:Hattr.
  - (* the row is there: its value is reassigned *)
    unfold commit_study_user_attribute. eexists. split; [reflexivity|].
    store_simpl.
    cbn [StudyUserAttributeModel.study_user_attribute_id
           StudyUserAttributeModel.set_value_json].
    unfold StudyUserAttributeModel.find_by_study_id_and_key in Hattr |- *.
    pose proof (find_some _ _ Hattr) as [Hin Hkey].
    assert (Hsame : forall a,
               In a (study_user_attributes db) ->
               (StudyUserAttributeModel.study_user_attribute_id a
                =? StudyUserAttributeModel.study_user_attribute_id attribute)
               = true ->
               a = attribute).
    { intros a Ha Hpk. apply Z.eqb_eq in Hpk.
      exact (NoDup_map_eq _ _ a attribute (wf_attribute_ids db Hwf)
               Ha Hin Hpk). }
    split.
    + exists (StudyUserAttributeModel.mk
                (StudyUserAttributeModel.study_user_attribute_id attribute)
                (StudyUserAttributeModel.study_id attribute)
                (StudyUserAttributeModel.key attribute)
                (json_dumps value)).
      split; [|reflexivity].
      rewrite find_rewritten.
      * rewrite Hattr. cbn. now rewrite Z.eqb_refl.
      * intros a Ha Hpk. now rewrite (Hsame a Ha Hpk).
    + intros id' k Hother. rewrite find_rewritten.
      * destruct (find (fun a => (StudyUserAttributeModel.study_id a =? id')
                                 && String.eqb (StudyUserAttributeModel.key a) k)
                       (study_user_attributes db)) as [a|] eqn:Hfind;
          [|reflexivity].
        cbn [option_map].
        destruct (StudyUserAttributeModel.study_user_attribute_id a
                  =? StudyUserAttributeModel.study_user_attribute_id attribute)
          eqn:Hpk; [|reflexivity].
        apply find_some in Hfind. destruct Hfind as [Ha Hakey].
        rewrite (Hsame a Ha Hpk) in Hakey.
        apply andb_true_iff in Hkey. destruct Hkey as [Hs Hk].
        apply andb_true_iff in Hakey. destruct Hakey as [Hs' Hk'].
        apply Z.eqb_eq in Hs, Hs'.
        apply String.eqb_eq in Hk, Hk'. exfalso. apply Hother. congruence.
      * intros a Ha Hpk. now rewrite (Hsame a Ha Hpk).
  - (* the row is not there: it is added *)
    unfold add_study_user_attribute, references.
    rewrite find_existsb.
    unfold StudyUserAttributeModel.find_by_study_id_and_key in Hattr |- *.
    rewrite Hattr, has_study_find, Hstudy, orb_true_r. cbn [negb orb].
    eexists. split; [reflexivity|]. store_simpl. split.
    + eexists. rewrite (find_snoc_absent _ _ _ Hattr). cbn.
      rewrite Z.eqb_refl, String.eqb_refl. split; reflexivity.
    + intros id' k Hother.
      destruct (find (fun a => (StudyUserAttributeModel.study_id a =? id')
                               && String.eqb (StudyUserAttributeModel.key a) k)
                     (study_user_attributes db)) as [a|] eqn:Hfind.
      * now apply find_snoc_present.
      * rewrite (find_snoc_absent _ _ _ Hfind). cbn.
        destruct (id =? id') eqn:Hs; [|reflexivity].
        destruct (String.eqb key k) eqn:Hk; [|reflexivity].
        apply Z.eqb_eq in Hs. apply String.eqb_eq in Hk.
        exfalso. apply Hother. congruence.
Qed.

(** X6: on a store that the storage has built, [set_study_user_attr] on
    an existing study returns, and [get_study_user_attrs] of the study
    then holds under the key what [json_loads] reads back from the
    encoding of the value, and under every other key what it held
    before; the attributes of every other study are as they were.  On an
    id that no study bears, the call raises the error of the strict
    lookup and commits nothing. *)
Theorem set_study_user_attr_is_read_back :
  forall {codec : JsonCodec} {dists : Distributions}
         (KEY : string) (SV : Z) (version : string) (db : DB)
         (id : Z) (key : string) (value : json),
    reachable KEY SV version db ->
    (StudyModel.find_by_id id (studies db) = None ->
     set_study_user_attr id key value db = (Raise NotFound, db))
    /\ (forall study,
          StudyModel.find_by_id id (studies db) = Some study ->
          exists db' before after,
            set_study_user_attr id key value db = (Ok tt, db')
            /\ get_study_user_attrs id db = (Ok before, db)
            /\ get_study_user_attrs id db' = (Ok after, db')
            /\ dict_get String.eqb key after
               = Some (json_loads (json_dumps value))
            /\ (forall k, k <> key ->
                  dict_get String.eqb k after = dict_get String.eqb k before)
            /\ (forall id' attrs' k,
                  id' <> id ->
                  get_study_user_attrs id' db' = (Ok attrs', db') ->
                  exists attrs,
                    get_study_user_attrs id' db = (Ok attrs, db)
                    /\ dict_get String.eqb k attrs'
                       = dict_get String.eqb k attrs)).
Proof.
  intros codec dists KEY SV version db id key value Hreach.
  pose proof (reachable_well_formed KEY SV version db Hreach) as Hwf. split.
  - intro Hnone. unfold set_study_user_attr, bind, strict.
    now rewrite Hnone.
  - intros study Hstudy.
    destruct (set_study_user_attr_rows db id key value study Hwf Hstudy)
      as (db' & Hset & (a & Ha & Hvalue) & Hothers).
    assert (Hwf' : well_formed db').
    { apply (writes_well_formed db db'); [|exact Hwf].
      pose proof (writes_set_study_user_attr id key value db) as Hw.
      now rewrite Hset in Hw. }
    destruct (get_study_user_attrs_lookup db id Hwf) as (before & Hb & Hbk).
    destruct (get_study_user_attrs_lookup db' id Hwf') as (after & Haf & Hak).
    exists db', before, after.
    split; [exact Hset|]. split; [exact Hb|]. split; [exact Haf|].
    split; [|split].
    + rewrite Hak, Ha. cbn. now rewrite Hvalue.
    + intros k Hk. rewrite Hak, Hbk, Hothers; [reflexivity|congruence].
    + intros id' attrs' k Hid' Hget'.
      destruct (get_study_user_attrs_lookup db id' Hwf) as (attrs & Hg & Hgk).
      destruct (get_study_user_attrs_lookup db' id' Hwf')
        as (attrs'' & Hg' & Hgk').
      rewrite Hget' in Hg'. injection Hg' as <-.
      exists attrs. split; [exact Hg|].
      rewrite Hgk', Hgk, Hothers; [reflexivity|congruence].
Qed.

Lemma set_study_user_attr_is_read_back_witness :
  set_study_user_attr 7 KEY (JDict []) db_recorded
  = (Raise NotFound, db_recorded)
  /\ exists db' before after,
       set_study_user_attr 1 KEY (JDict []) db_recorded = (Ok tt, db')
       /\ get_study_user_attrs 1 db_recorded = (Ok before, db_recorded)
       /\ get_study_user_attrs 1 db' = (Ok after, db')
       /\ dict_get String.eqb KEY after
          = Some (json_loads (json_dumps (JDict [])))
       /\ (forall k, k <> KEY ->
             dict_get String.eqb k after = dict_get String.eqb k before)
       /\ (forall id' attrs' k,
             id' <> 1 ->
             get_study_user_attrs id' db' = (Ok attrs', db') ->
             exists attrs,
               get_study_user_attrs id' db_recorded = (Ok attrs, db_recorded)
               /\ dict_get String.eqb k attrs' = dict_get String.eqb k attrs).
Proof.
  destruct (set_study_user_attr_is_read_back
              KEY SCHEMA VERSION db_recorded 7 KEY (JDict [])
              db_recorded_reachable) as [Hmissing _].
  destruct (set_study_user_attr_is_read_back
              KEY SCHEMA VERSION db_recorded 1 KEY (JDict [])
              db_recorded_reachable) as [_ Hfound].
  split.
  - apply Hmissing. reflexivity.
  - apply (Hfound (StudyModel.mk 1 "8c1e")). reflexivity.
Defined.

(** ** A new study *)

Lemma new_study_uuid_drawn :
  forall draws rows uuid,
    new_study_uuid draws rows = Some uuid ->
    In uuid draws /\ StudyModel.find_by_uuid uuid rows = None.
Proof.
  induction draws as [|u draws IH]; intros rows uuid H; simpl in H;
    [discriminate|].
  destruct (StudyModel.find_by_uuid u rows) eqn:Hu.
  - destruct (IH rows uuid H). split; [now right|assumption].
  - injection H as <-. split; [now left|assumption].
Qed.

(** X7: on a store that the storage has built, the id that
    [create_new_study_id] returns is one that no study bore; the new study
    bears one of the identifiers drawn, one that no study bore; and its
    attributes are exactly the reserved entry, [SYSTEM_ATTRS_KEY] with
    what [json_loads] reads back from the encoding of the empty
    dictionary. *)
Theorem create_new_study_id_makes_a_new_study :
  forall {codec : JsonCodec} {dists : Distributions}
         (KEY : string) (SV : Z) (version : string) (db db' : DB)
         (draws : list string) (id : Z),
    reachable KEY SV version db ->
    create_new_study_id KEY draws db = Some (Ok id, db') ->
    StudyModel.find_by_id id (studies db) = None
    /\ (exists uuid,
          In uuid draws
          /\ StudyModel.find_by_uuid uuid (studies db) = None
          /\ get_study_uuid_from_id id db' = (Ok uuid, db'))
    /\ get_study_user_attrs id db'
       = (Ok [(KEY, json_loads (json_dumps (JDict [])))], db').
Proof.
  intros codec dists KEY SV version db db' draws id Hreach Hrun.
  destruct (reachable_studies_ok KEY SV version db Hreach) as [_ Hfk].
  unfold create_new_study_id in Hrun.
  destruct (new_study_uuid draws (studies db)) as [uuid|] eqn:Huuid;
    [|discriminate].
  destruct (new_study_uuid_drawn _ _ _ Huuid) as [Hdrawn Hfresh].
  injection Hrun as Hrun. unfold bind at 1 in Hrun. unfold add_study in Hrun.
  destruct (existsb _ (studies db)); [discriminate|].
  unfold bind at 1 in Hrun.
  pose proof (find_study_appended (studies db) uuid) as Hfound.
  cbv zeta in Hfound.
  set (row := StudyModel.mk (fresh_id (map StudyModel.study_id (studies db)))
                            uuid) in *.
  set (db1 := with_studies (studies db ++ [row]) db) in *.
  (* the id is new, so no attribute bears it *)
  assert (Hnew : StudyModel.find_by_id (StudyModel.study_id row) (studies db)
                 = None).
  { unfold StudyModel.find_by_id.
    destruct (find _ (studies db)) as [s|] eqn:E; [|reflexivity].
    apply find_some in E. destruct E as [Hin Hid]. apply Z.eqb_eq in Hid.
    exfalso. apply (fresh_id_new (map StudyModel.study_id (studies db))).
    change (fresh_id (map StudyModel.study_id (studies db)))
      with (StudyModel.study_id row).
    rewrite <- Hid. now apply in_map. }
  assert (Hnone : forall a, In a (study_user_attributes db) ->
            (StudyUserAttributeModel.study_id a =? StudyModel.study_id row)
            = false).
  { intros a Ha. apply Z.eqb_neq. intro Heq.
    pose proof (Hfk a Ha) as Hhas.
    rewrite Heq, has_study_find, Hnew in Hhas. discriminate. }
  assert (Hattr : StudyUserAttributeModel.find_by_study_id_and_key
                    (StudyModel.study_id row) KEY (study_user_attributes db)
                  = None).
  { unfold StudyUserAttributeModel.find_by_study_id_and_key.
    destruct (find _ (study_user_attributes db)) as [a|] eqn:E;
      [|reflexivity].
    apply find_some in E. destruct E as [Ha Hkey].
    rewrite (Hnone a Ha) in Hkey. discriminate. }
  unfold set_study_user_attr, bind, strict, query in Hrun.
  subst db1. store_simpl_in Hrun.
  assert (Hfound' : StudyModel.find_by_id (StudyModel.study_id row)
                      (studies db ++ [row]) = Some row) by exact Hfound.
  rewrite Hfound' in Hrun. cbv beta iota in Hrun. store_simpl_in Hrun.
  rewrite Hattr in Hrun.
  unfold add_study_user_attribute in Hrun.
  destruct (_ || _); [discriminate|].
  cbv beta iota in Hrun. store_simpl_in Hrun.
  unfold ret in Hrun. injection Hrun as Hid Hdb. subst id db'.
  split; [exact Hnew|]. split.
  - exists uuid. split; [exact Hdrawn|]. split; [exact Hfresh|].
    unfold get_study_uuid_from_id, bind, strict, ret. cbv beta. store_simpl.
    change (fresh_id (map StudyModel.study_id (studies db)))
      with (StudyModel.study_id row).
    rewrite Hfound'. reflexivity.
  - unfold get_study_user_attrs, bind, query, ret. cbv beta. store_simpl.
    change (fresh_id (map StudyModel.study_id (studies db)))
      with (StudyModel.study_id row).
    unfold StudyUserAttributeModel.where_study_id.
    rewrite filter_app.
    replace (filter _ (study_user_attributes db))
      with (@nil StudyUserAttributeModel.t).
    + cbn. rewrite Z.eqb_refl. reflexivity.
    + symmetry.
      destruct (filter _ (study_user_attributes db)) as [|a l] eqn:E;
        [reflexivity|].
      assert (Ha : In a (filter
                           (fun a => StudyUserAttributeModel.study_id a
                                     =? StudyModel.study_id row)
                           (study_user_attributes db)))
        by (rewrite E; now left).
      apply filter_In in Ha. destruct Ha as [Ha Hs].
      rewrite (Hnone a Ha) in Hs. discriminate.
Qed.

Lemma create_new_study_id_makes_a_new_study_witness :
  StudyModel.find_by_id 2 (studies db_recorded) = None
  /\ (exists uuid,
        In uuid ["8c1e"; "41f0"]
        /\ StudyModel.find_by_uuid uuid (studies db_recorded) = None
        /\ get_study_uuid_from_id 2
             (snd (set_study_user_attr 2 KEY (JDict [])
                     (snd (add_study "41f0" db_recorded))))
           = (Ok uuid,
              snd (set_study_user_attr 2 KEY (JDict [])
                     (snd (add_study "41f0" db_recorded)))))
  /\ get_study_user_attrs 2
       (snd (set_study_user_attr 2 KEY (JDict [])
               (snd (add_study "41f0" db_recorded))))
     = (Ok [(KEY, json_loads (json_dumps (JDict [])))],
        snd (set_study_user_attr 2 KEY (JDict [])
               (snd (add_study "41f0" db_recorded)))).
Proof.
  apply (create_new_study_id_makes_a_new_study
           KEY SCHEMA VERSION db_recorded
           (snd (set_study_user_attr 2 KEY (JDict [])
                   (snd (add_study "41f0" db_recorded))))
           ["8c1e"; "41f0"] 2).
  - exact db_recorded_reachable.
  - reflexivity.
Defined.

(** ** Writing to a trial and reading it back *)

(** X14: on a store that the storage has built, what is written to an
    existing trial is what [get_trial] then returns.  After
    [set_trial_state] the aggregate bears the new state, the time of the
    call as completion timestamp when the state is terminal and the old
    one otherwise, and the value the trial had; after [set_trial_value]
    it bears the new value, and the state and completion timestamp the
    trial had; after [set_trial_intermediate_value] at a step without a
    value it holds the value under the step. *)
Theorem trial_writes_are_read_back :
  forall {codec : JsonCodec} {dists : Distributions}
         (KEY : string) (SV : Z) (version : string) (db : DB) (id : Z)
         (trial : TrialModel.t),
    reachable KEY SV version db ->
    TrialModel.find_by_id id (trials db) = Some trial ->
    (forall now state,
        exists db' agg,
          set_trial_state now id state db = (Ok tt, db')
          /\ get_trial id db' = (Ok agg, db')
          /\ Trial.state agg = state
          /\ Trial.datetime_complete agg
             = (if is_finished state then Some now
                else TrialModel.datetime_complete trial)
          /\ Trial.value agg = TrialModel.value trial)
    /\ (forall value,
          exists db' agg,
            set_trial_value id value db = (Ok tt, db')
            /\ get_trial id db' = (Ok agg, db')
            /\ Trial.value agg = Some value
            /\ Trial.state agg = TrialModel.state trial
            /\ Trial.datetime_complete agg
               = TrialModel.datetime_complete trial)
    /\ (forall step value,
          TrialValueModel.find_by_trial_and_step trial step (trial_values db)
          = None ->
          exists db' agg,
            set_trial_intermediate_value id step value db = (Ok tt, db')
            /\ get_trial id db' = (Ok agg, db')
            /\ dict_get Z.eqb step (Trial.intermediate_values agg)
               = Some value).
Proof.
  intros codec dists KEY SV version db id trial Hreach Htrial.
  pose proof (reachable_well_formed KEY SV version db Hreach) as Hwf.
  split; [|split].
  - intros now state.
    destruct (set_trial_state_row now id state db trial Htrial)
      as (db' & Hrun & Hrow & _).
    assert (Hwf' : well_formed db').
    { apply (writes_well_formed db db'); [|exact Hwf].
      pose proof (writes_set_trial_state now id state db) as Hw.
      now rewrite Hrun in Hw. }
    destruct (get_trial_shows db' id _ Hwf' Hrow) as (agg & Hget & Hshows).
    destruct Hshows as (_ & Hstate & Hvalue & _ & _ & Hcomplete & _).
    exists db', agg. repeat split; assumption.
  - intro value.
    destruct (set_trial_value_run id value db trial Htrial)
      as (db' & Hrun & Hrow).
    assert (Hwf' : well_formed db').
    { apply (writes_well_formed db db'); [|exact Hwf].
      pose proof (writes_set_trial_value id value db) as Hw.
      now rewrite Hrun in Hw. }
    destruct (get_trial_shows db' id _ Hwf' Hrow) as (agg & Hget & Hshows).
    destruct Hshows as (_ & Hstate & Hvalue & _ & _ & Hcomplete & _).
    exists db', agg. repeat split; assumption.
  - intros step value Hnone.
    destruct (set_trial_intermediate_value_first id step value db trial
                Htrial Hnone) as [Hrun Hrow].
    set (row := TrialValueModel.mk
                  (fresh_id (map TrialValueModel.trial_value_id
                                 (trial_values db)))
                  id step value) in *.
    set (db' := with_trial_values (trial_values db ++ [row]) db) in *.
    assert (Hwf' : well_formed db').
    { apply (writes_well_formed db db'); [|exact Hwf].
      pose proof (writes_set_trial_intermediate_value id step value db) as Hw.
      now rewrite Hrun in Hw. }
    assert (Htrial' : TrialModel.find_by_id id (trials db') = Some trial)
      by exact Htrial.
    destruct (get_trial_shows db' id trial Hwf' Htrial')
      as (agg & Hget & Hshows).
    destruct Hshows as (_ & _ & _ & _ & _ & _ & _ & _ & Hvalues).
    exists db', agg. split; [exact Hrun|]. split; [exact Hget|].
    rewrite (Hvalues step).
    assert (Hrow' : TrialValueModel.find_by_trial_and_step
                      trial step (trial_values db') = Some row) by exact Hrow.
    rewrite Hrow'. reflexivity.
Qed.

Lemma trial_writes_are_read_back_witness :
  (forall now state,
      exists db' agg,
        set_trial_state now 1 state db_recorded = (Ok tt, db')
        /\ get_trial 1 db' = (Ok agg, db')
        /\ Trial.state agg = state
        /\ Trial.datetime_complete agg
           = (if is_finished state then Some now
              else TrialModel.datetime_complete trial1)
        /\ Trial.value agg = TrialModel.value trial1)
  /\ (forall value,
        exists db' agg,
          set_trial_value 1 value db_recorded = (Ok tt, db')
          /\ get_trial 1 db' = (Ok agg, db')
          /\ Trial.value agg = Some value
          /\ Trial.state agg = TrialModel.state trial1
          /\ Trial.datetime_complete agg
             = TrialModel.datetime_complete trial1)
  /\ (forall step value,
        TrialValueModel.find_by_trial_and_step
          trial1 step (trial_values db_recorded) = None ->
        exists db' agg,
          set_trial_intermediate_value 1 step value db_recorded = (Ok tt, db')
          /\ get_trial 1 db' = (Ok agg, db')
          /\ dict_get Z.eqb step (Trial.intermediate_values agg)
             = Some value).
Proof.
  apply (trial_writes_are_read_back KEY SCHEMA VERSION db_recorded 1 trial1).
  - exact db_recorded_reachable.
  - reflexivity.
Defined.
